(** * openclaw-tasks: the task store and the tools of [src/index.ts]

    A shallow embedding of the [TaskStorage] class (project records kept as
    JSON files, task creation, status updates with the cascading unblock,
    blocker links, notes), of the formatting helpers, of the tools, the hook
    and the commands of the plugin, and of the runtime primitives they call,
    followed by the properties of the specification that concern them and
    by further properties of the code.

    Conventions.
    - A JavaScript string is carried as the bytes of its UTF-8 encoding
      ([string]); equality, [includes], [endsWith] and [replace] with an
      ASCII pattern act on it as they do on the code units.
    - A JavaScript number is carried as [number]: the integers that are
      doubles, the two infinities and NaN, with the rounding to the nearest
      double written out ([toNumber]).  The two zeros are not told apart
      (both are falsy, and [Math.max] and [String] print them alike).
    - The file system is the pair of directories the store is built with.
      [path.join(dir, file)] is written as the entry [file] of [dir], which
      it is for the names of projects that are one segment of a path
      ([segment]); what is proved of the files that are written, listed or
      left alone is proved of such names.
    - [JSON.stringify] and [JSON.parse] are written out on the bytes
      ([stringify], [parse]).  In a [World] the text of a file is carried
      as what it parses to ([text], [carried]): a record of the declared
      type or null, or the text itself when it does not parse.  A text
      that parses to a value of another type is not carried: what is
      proved of a call that reads a record is proved of the files that
      are.
    - Every read of the clock takes the next date of [clock]; [date_stamp]
      is the date that the code makes of a time value.
    - What a hook, a command or the service gives to the logger or prints
      on the console is returned, line by line, with its value. *)

From Stdlib Require Import ZArith String Ascii List Lia.
From stdpp Require Import base option list strings gmap.

Open Scope string_scope.
Open Scope list_scope.
Open Scope Z_scope.

(** ** Runtime: numbers *)

Inductive number :=
| NaN
| Num (z : Z)
| Infinity (negative : bool).

#[global] Instance number_eq_dec : EqDecision number.
Proof. solve_decision. Defined.

(** Round a non-negative integer to the nearest double, ties to even; [None]
    when the result overflows. *)
Definition round_nat (z : Z) : option Z :=
  if z <? 2 ^ 53 then Some z
  else
    let e := Z.log2 z - 52 in
    let q := z / 2 ^ e in
    let r := z mod 2 ^ e in
    let half := 2 ^ (e - 1) in
    let q' := if r <? half then q
              else if half <? r then q + 1
              else if Z.even q then q else q + 1 in
    let v := q' * 2 ^ e in
    if v <? 2 ^ 1024 then Some v else None.

(** The Number value of a mathematical integer. *)
Definition toNumber (z : Z) : number :=
  match round_nat (Z.abs z) with
  | Some v => Num (if z <? 0 then - v else v)
  | None => Infinity (z <? 0)
  end.

(** [a + b] on numbers. *)
Definition number_add (a b : number) : number :=
  match a, b with
  | NaN, _ | _, NaN => NaN
  | Num x, Num y => toNumber (x + y)
  | Infinity s, Num _ | Num _, Infinity s => Infinity s
  | Infinity s, Infinity s' => if bool_decide (s = s') then Infinity s else NaN
  end.

(** [Math.max(a, b)]. *)
Definition Math_max (a b : number) : number :=
  match a, b with
  | NaN, _ | _, NaN => NaN
  | Infinity false, _ | _, Infinity false => Infinity false
  | Infinity true, v | v, Infinity true => v
  | Num x, Num y => Num (Z.max x y)
  end.

(** Truthiness of a number, and [v || d]. *)
Definition truthy (v : number) : bool :=
  match v with
  | NaN => false
  | Num z => negb (z =? 0)
  | Infinity _ => true
  end.

Definition or_else (v d : number) : number := if truthy v then v else d.

(** ** Runtime: strings *)

Definition code (c : ascii) : Z := Z.of_N (N_of_ascii c).

Definition char_of (z : Z) : ascii := ascii_of_N (Z.to_N z).

(** White space and line terminators, as [parseInt] skips them: the one-byte
    ones, U+00A0, and the three-byte ones U+1680, U+2000..U+200A, U+2028,
    U+2029, U+202F, U+205F, U+3000 and U+FEFF. *)
Definition ws1 (a : ascii) : bool :=
  let c := code a in ((9 <=? c) && (c <=? 13)) || (c =? 32).

Definition ws2 (a b : ascii) : bool :=
  (code a =? 194) && (code b =? 160).

Definition ws3 (a b c : ascii) : bool :=
  let x := code a in let y := code b in let z := code c in
  ((x =? 225) && (y =? 154) && (z =? 128))
  || ((x =? 226) && (y =? 128)
      && (((128 <=? z) && (z <=? 138)) || (z =? 168) || (z =? 169) || (z =? 175)))
  || ((x =? 226) && (y =? 129) && (z =? 159))
  || ((x =? 227) && (y =? 128) && (z =? 128))
  || ((x =? 239) && (y =? 187) && (z =? 191)).

Fixpoint trimStart (s : string) : string :=
  match s with
  | EmptyString => s
  | String a s1 =>
      if ws1 a then trimStart s1
      else match s1 with
           | EmptyString => s
           | String b s2 =>
               if ws2 a b then trimStart s2
               else match s2 with
                    | EmptyString => s
                    | String c s3 => if ws3 a b c then trimStart s3 else s
                    end
           end
  end.

(** The value of a digit in the given radix (10 or 16). *)
Definition digit_value (radix : Z) (a : ascii) : option Z :=
  let c := code a in
  if (48 <=? c) && (c <=? 57) then Some (c - 48)
  else if (radix =? 16) && (97 <=? c) && (c <=? 102) then Some (c - 87)
  else if (radix =? 16) && (65 <=? c) && (c <=? 70) then Some (c - 55)
  else None.

(** The integer written by the longest prefix of digits; [acc] is the value
    read so far, [None] before the first digit. *)
Fixpoint read_digits (radix : Z) (s : string) (acc : option Z) : option Z :=
  match s with
  | EmptyString => acc
  | String a rest =>
      match digit_value radix a with
      | Some d => read_digits radix rest (Some (radix * default 0 acc + d))
      | None => acc
      end
  end.

(** [parseInt(s)] with no radix argument: leading white space, a sign, an
    optional [0x]/[0X] prefix, then the longest run of digits.  [parseInteger]
    is the mathematical integer so written ([None] when there is no digit),
    [parseInt] its Number value (NaN when there is none). *)
Definition parseInteger (s : string) : option Z :=
  let s1 := trimStart s in
  let '(neg, s2) :=
    match s1 with
    | String "-" r => (true, r)
    | String "+" r => (false, r)
    | _ => (false, s1)
    end in
  let '(radix, s3) :=
    match s2 with
    | String "0" (String x r) =>
        if bool_decide (x = "x"%char \/ x = "X"%char) then (16, r) else (10, s2)
    | _ => (10, s2)
    end in
  match read_digits radix s3 None with
  | None => None
  | Some m => Some (if neg then - m else m)
  end.

Definition parseInt (s : string) : number :=
  match parseInteger s with
  | None => NaN
  | Some z => toNumber z
  end.

(** Decimal digits of a non-negative integer, most significant first. *)
Fixpoint dec_go (fuel : nat) (n : Z) (acc : string) : string :=
  let acc' := String (char_of (48 + n mod 10)) acc in
  match fuel with
  | O => acc'
  | S f => if n <? 10 then acc' else dec_go f (n / 10) acc'
  end.

Definition dec (n : Z) : string := dec_go (Z.to_nat (Z.log2 n)) n "".

Fixpoint zeros (n : nat) : string :=
  match n with O => "" | S k => String "0" (zeros k) end.

(** Shortest digits of a double above 2^53 (Number::toString): the least
    [k] such that some [k]-digit [s] and exponent [j] have [s * 10^j]
    rounding to [x]; among those the closest to [x]. *)
Definition fits (x : Z) (k : nat) (j s : Z) : bool :=
  (10 ^ (Z.of_nat k - 1) <=? s) && (s <? 10 ^ Z.of_nat k)
  && bool_decide (toNumber (s * 10 ^ j) = Num x).

Definition candidates (x : Z) (k : nat) (d : Z) : list (Z * Z) :=
  let at_exp j := if j <? 0 then [] else
                    let q := x / 10 ^ j in [(q, j); (q + 1, j)] in
  List.filter (fun sj => fits x k (snd sj) (fst sj))
              (at_exp (d - Z.of_nat k) ++ at_exp (d - Z.of_nat k + 1)).

Definition closer (x : Z) (a b : Z * Z) : Z * Z :=
  let da := Z.abs (fst a * 10 ^ snd a - x) in
  let db := Z.abs (fst b * 10 ^ snd b - x) in
  if db <? da then b
  else if da <? db then a
  else if Z.even (fst a) then a else b.

Fixpoint shortest (x d : Z) (k : nat) (fuel : nat) : Z * Z :=
  match fuel with
  | O => (x, 0)
  | S f =>
      match candidates x k d with
      | c :: cs => fold_left (closer x) cs c
      | [] => shortest x d (S k) f
      end
  end.

Definition insert_point (digits : string) : string :=
  match digits with
  | String a EmptyString => digits
  | String a rest => String a (String "." rest)
  | EmptyString => digits
  end.

Definition shortest_digits (x : Z) : Z * Z :=
  let d := Z.of_nat (String.length (dec x)) in
  shortest x d 1 (Z.to_nat d).

(** A positive integer that is a double, printed: up to 2^53 every integer
    is a double and prints as its decimal expansion (which is what the
    shortest digits give there, see [shortest_digits_small]); above, the
    shortest digits followed by zeros, or with an exponent from 10^21 on. *)
Definition positive_toString (x : Z) : string :=
  if x <=? 2 ^ 53 then dec x
  else
    let '(s, j) := shortest_digits x in
    let n := Z.of_nat (String.length (dec s)) + j in
    if n <=? 21 then dec s +:+ zeros (Z.to_nat j)
    else insert_point (dec s) +:+ "e+" +:+ dec (n - 1).

(** [String(v)] for a number. *)
Definition Number_toString (v : number) : string :=
  match v with
  | NaN => "NaN"
  | Infinity false => "Infinity"
  | Infinity true => "-Infinity"
  | Num z => if z <? 0 then "-" +:+ positive_toString (- z) else positive_toString z
  end.

(** [s.endsWith(suffix)] *)
Definition endsWith (s suffix : string) : bool :=
  let n := String.length s in
  let k := String.length suffix in
  (k <=? n)%nat && bool_decide (substring (n - k) k s = suffix).

(** [s.replace(pattern, "")] with a string pattern: the first occurrence
    is removed. *)
Definition remove_first (s pattern : string) : string :=
  match index 0 pattern s with
  | Some i =>
      substring 0 i s
      +:+ substring (i + String.length pattern)
                   (String.length s - (i + String.length pattern)) s
  | None => s
  end.

(** ** Runtime: JSON texts

    [JSON.stringify(value, null, 2)] and [JSON.parse(text)] on the bytes of
    a text.  A number is carried by its literal: no field of a record of
    the declared type is one. *)

Inductive JSON_value :=
| JNull
| JBool (b : bool)
| JNumber (literal : string)
| JString (s : string)
| JArray (items : list JSON_value)
| JObject (members : list (string * JSON_value)).

(** The characters that are written with their codes. *)
Definition double_quote : ascii := "034"%char.

Definition backslash : ascii := "092"%char.

Definition hex_digit (n : Z) : ascii :=
  if n <? 10 then char_of (48 + n) else char_of (87 + n).

(** QuoteJSONString, character by character: the two-character escapes,
    [\u00XX] for the other control characters, the character itself
    otherwise.  The text is put before [rest]. *)
Definition quote_char (a : ascii) (rest : string) : string :=
  let c := code a in
  let escape e := String backslash (String e rest) in
  if c =? 8 then escape "b"%char
  else if c =? 9 then escape "t"%char
  else if c =? 10 then escape "n"%char
  else if c =? 12 then escape "f"%char
  else if c =? 13 then escape "r"%char
  else if c =? 34 then escape double_quote
  else if c =? 92 then escape backslash
  else if c <? 32 then
    String backslash
      (String "u" (String "0" (String "0"
         (String (hex_digit (c / 16)) (String (hex_digit (c mod 16)) rest)))))
  else String a rest.

Fixpoint quote_chars (s rest : string) : string :=
  match s with
  | EmptyString => rest
  | String a r => quote_char a (quote_chars r rest)
  end.

Definition quote (s rest : string) : string :=
  String double_quote (quote_chars s (String double_quote rest)).

(** A line feed and the indentation of depth [n], two spaces for each
    level, before [rest]. *)
Fixpoint indent (n : nat) (rest : string) : string :=
  match n with
  | O => rest
  | S k => String " " (String " " (indent k rest))
  end.

Definition newline (n : nat) (rest : string) : string :=
  String "010" (indent n rest).

(** SerializeJSONProperty with the gap of two spaces: the text of [v] at
    depth [n], put before [rest].  An empty array or object is written
    closed; otherwise every element comes on a line of its own, the
    elements separated by commas, and the closing bracket on a line at the
    depth of the value. *)
Fixpoint emit (n : nat) (v : JSON_value) (rest : string) : string :=
  match v with
  | JNull => "null" +:+ rest
  | JBool true => "true" +:+ rest
  | JBool false => "false" +:+ rest
  | JNumber literal => literal +:+ rest
  | JString s => quote s rest
  | JArray [] => "[]" +:+ rest
  | JArray (x :: xs) =>
      String "["
        (newline (S n)
           (emit (S n) x
              (fold_right (λ y more, String "," (newline (S n) (emit (S n) y more)))
                          (newline n (String "]" rest)) xs)))
  | JObject [] => "{}" +:+ rest
  | JObject (m :: ms) =>
      String "{"
        (newline (S n)
           (quote m.1 (String ":" (String " "
              (emit (S n) m.2
                 (fold_right
                    (λ m more,
                       String ","
                         (newline (S n)
                            (quote m.1 (String ":" (String " " (emit (S n) m.2 more))))))
                    (newline n (String "}" rest)) ms))))))
  end.

(** [JSON.stringify(v, null, 2)] *)
Definition stringify (v : JSON_value) : string := emit 0 v "".

(** JSON white space. *)
Definition is_ws (a : ascii) : bool :=
  let c := code a in (c =? 32) || (c =? 9) || (c =? 10) || (c =? 13).

Fixpoint skip_ws (s : string) : string :=
  match s with
  | EmptyString => s
  | String a r => if is_ws a then skip_ws r else s
  end.

(** The bytes of the UTF-8 encoding of a code point (a surrogate that
    stands alone is carried by the three bytes its code would take). *)
Definition utf8 (n : Z) : string :=
  if n <? 128 then String (char_of n) ""
  else if n <? 2048 then
    String (char_of (192 + n / 64)) (String (char_of (128 + n mod 64)) "")
  else if n <? 65536 then
    String (char_of (224 + n / 4096))
      (String (char_of (128 + (n / 64) mod 64)) (String (char_of (128 + n mod 64)) ""))
  else
    String (char_of (240 + n / 262144))
      (String (char_of (128 + (n / 4096) mod 64))
         (String (char_of (128 + (n / 64) mod 64))
            (String (char_of (128 + n mod 64)) ""))).

Definition hex4 (a b c d : ascii) : option Z :=
  match digit_value 16 a, digit_value 16 b, digit_value 16 c, digit_value 16 d with
  | Some x, Some y, Some z, Some t => Some (((x * 16 + y) * 16 + z) * 16 + t)
  | _, _, _, _ => None
  end.

(** The character that a two-character escape stands for. *)
Definition unescape (e : ascii) : option ascii :=
  let c := code e in
  if c =? 34 then Some double_quote
  else if c =? 92 then Some backslash
  else if c =? 47 then Some "/"%char
  else if c =? 98 then Some "008"%char
  else if c =? 102 then Some "012"%char
  else if c =? 110 then Some "010"%char
  else if c =? 114 then Some "013"%char
  else if c =? 116 then Some "009"%char
  else None.

Definition prepend (p : string) (r : option (string * string)) : option (string * string) :=
  match r with
  | Some (s, rest) => Some (p +:+ s, rest)
  | None => None
  end.

(** The characters of a string, from after the opening quote to the
    closing one: the string and what follows it.  A control character, an
    escape that is none, and the end of the text before the closing quote
    are errors.  Two [\u] escapes that make a surrogate pair are one code
    point. *)
Fixpoint read_string (s : string) : option (string * string) :=
  match s with
  | EmptyString => None
  | String a r =>
      if code a =? 34 then Some ("", r)
      else if code a =? 92 then
        match r with
        | String e r1 =>
            match unescape e with
            | Some c => prepend (String c "") (read_string r1)
            | None =>
                if code e =? 117 then
                  match r1 with
                  | String h1 (String h2 (String h3 (String h4 r2))) =>
                      match hex4 h1 h2 h3 h4 with
                      | Some hi =>
                          if (55296 <=? hi) && (hi <? 56320) then
                            match r2 with
                            | String b (String u
                                (String l1 (String l2 (String l3 (String l4 r3))))) =>
                                match hex4 l1 l2 l3 l4 with
                                | Some lo =>
                                    if (code b =? 92) && (code u =? 117)
                                       && (56320 <=? lo) && (lo <? 57344)
                                    then prepend
                                           (utf8 (65536 + (hi - 55296) * 1024 + (lo - 56320)))
                                           (read_string r3)
                                    else prepend (utf8 hi) (read_string r2)
                                | None => prepend (utf8 hi) (read_string r2)
                                end
                            | _ => prepend (utf8 hi) (read_string r2)
                            end
                          else prepend (utf8 hi) (read_string r2)
                      | None => None
                      end
                  | _ => None
                  end
                else None
            end
        | EmptyString => None
        end
      else if code a <? 32 then None
      else prepend (String a "") (read_string r)
  end.

(** The longest run of decimal digits at the start of a text, and what
    follows it. *)
Fixpoint read_run (s : string) : string * string :=
  match s with
  | EmptyString => ("", s)
  | String a r =>
      if (48 <=? code a) && (code a <=? 57)
      then let '(ds, rest) := read_run r in (String a ds, rest)
      else ("", s)
  end.

(** A number: an optional minus, [0] or digits that do not start with [0],
    an optional fraction, an optional exponent.  The literal and what
    follows it. *)
Definition read_number (s : string) : option (string * string) :=
  let '(sign, s1) :=
    match s with
    | String "-" r => ("-", r)
    | _ => ("", s)
    end in
  let int :=
    match s1 with
    | String "0" r => Some ("0", r)
    | _ => match read_run s1 with
           | ("", _) => None
           | (ds, r) => Some (ds, r)
           end
    end in
  match int with
  | None => None
  | Some (ds, s2) =>
      let frac :=
        match s2 with
        | String "." r =>
            match read_run r with
            | ("", _) => None
            | (fs, r') => Some ("." +:+ fs, r')
            end
        | _ => Some ("", s2)
        end in
      match frac with
      | None => None
      | Some (fs, s3) =>
          let exp :=
            match s3 with
            | String e r =>
                if (code e =? 101) || (code e =? 69) then
                  let '(sg, r1) :=
                    match r with
                    | String "+" r0 => ("+", r0)
                    | String "-" r0 => ("-", r0)
                    | _ => ("", r)
                    end in
                  match read_run r1 with
                  | ("", _) => None
                  | (es, r') => Some (String e sg +:+ es, r')
                  end
                else Some ("", s3)
            | EmptyString => Some ("", s3)
            end in
          match exp with
          | None => None
          | Some (es, s4) => Some (sign +:+ ds +:+ fs +:+ es, s4)
          end
      end
  end.

(** A value, the elements of an array from the first one to the closing
    bracket, and the members of an object from the first name to the
    closing brace; each gives what it has read and what follows it.  The
    text is given without leading white space.  The parser goes down one
    level of [fuel] for each value, element and member that it enters. *)
Fixpoint read_value (fuel : nat) (s : string) : option (JSON_value * string) :=
  match fuel with
  | O => None
  | S fuel =>
      match s with
      | String "{" r =>
          match skip_ws r with
          | String "}" r' => Some (JObject [], r')
          | r' => match read_members fuel r' with
                  | Some (ms, r'') => Some (JObject ms, r'')
                  | None => None
                  end
          end
      | String "[" r =>
          match skip_ws r with
          | String "]" r' => Some (JArray [], r')
          | r' => match read_elements fuel r' with
                  | Some (vs, r'') => Some (JArray vs, r'')
                  | None => None
                  end
          end
      | String "t" (String "r" (String "u" (String "e" r))) => Some (JBool true, r)
      | String "f" (String "a" (String "l" (String "s" (String "e" r)))) =>
          Some (JBool false, r)
      | String "n" (String "u" (String "l" (String "l" r))) => Some (JNull, r)
      | String a r =>
          if code a =? 34 then
            match read_string r with
            | Some (str, r') => Some (JString str, r')
            | None => None
            end
          else
            match read_number s with
            | Some (literal, r') => Some (JNumber literal, r')
            | None => None
            end
      | EmptyString => None
      end
  end
with read_elements (fuel : nat) (s : string) : option (list JSON_value * string) :=
  match fuel with
  | O => None
  | S fuel =>
      match read_value fuel s with
      | Some (v, r) =>
          match skip_ws r with
          | String "," r' =>
              match read_elements fuel (skip_ws r') with
              | Some (vs, r'') => Some (v :: vs, r'')
              | None => None
              end
          | String "]" r' => Some ([v], r')
          | _ => None
          end
      | None => None
      end
  end
with read_members (fuel : nat) (s : string)
  : option (list (string * JSON_value) * string) :=
  match fuel with
  | O => None
  | S fuel =>
      match s with
      | String a r =>
          if code a =? 34 then
            match read_string r with
            | Some (k, r1) =>
                match skip_ws r1 with
                | String ":" r2 =>
                    match read_value fuel (skip_ws r2) with
                    | Some (v, r3) =>
                        match skip_ws r3 with
                        | String "," r4 =>
                            match read_members fuel (skip_ws r4) with
                            | Some (ms, r5) => Some ((k, v) :: ms, r5)
                            | None => None
                            end
                        | String "}" r4 => Some ([(k, v)], r4)
                        | _ => None
                        end
                    | None => None
                    end
                | _ => None
                end
            | None => None
            end
          else None
      | EmptyString => None
      end
  end.

(** [JSON.parse(text)]: one value with white space around it, [None] for a
    syntax error.  No text needs more levels than it has characters. *)
Definition parse (s : string) : option JSON_value :=
  match read_value (S (String.length s)) (skip_ws s) with
  | Some (v, r) => if bool_decide (skip_ws r = "") then Some v else None
  | None => None
  end.

(** [o[k]] for an object that [JSON.parse] has made: of two members with
    the same name the last one counts. *)
Definition member (k : string) (ms : list (string * JSON_value)) : option JSON_value :=
  fold_left (λ r m, if decide (m.1 = k) then Some m.2 else r) ms None.

(** ** Runtime: dates *)

(** [s.padStart(width, "0")] for the decimal text of a natural number. *)
Definition pad (width : nat) (n : Z) : string :=
  zeros (width - String.length (dec n)) +:+ dec n.

(** The year, the month (1 to 12) and the day of the month of a day counted
    from 1970-01-01, in the proleptic Gregorian calendar.  The days are
    counted in eras of 400 years that start on a first of March:
    [within_era] gives the year in the era, with the months of January and
    February counted in the next year, as the civil calendar has them. *)
Definition within_era (doe : Z) : Z * Z * Z :=
  let yoe := (doe - doe / 1460 + doe / 36524 - doe / 146096) / 365 in
  let doy := doe - (365 * yoe + yoe / 4 - yoe / 100) in
  let mp := (5 * doy + 2) / 153 in
  let d := doy - (153 * mp + 2) / 5 + 1 in
  let m := if mp <? 10 then mp + 3 else mp - 9 in
  (yoe + (if m <=? 2 then 1 else 0), m, d).

Definition civil (day : Z) : Z * Z * Z :=
  let z := day + 719468 in
  let '(y, m, d) := within_era (z mod 146097) in
  (y + 400 * (z / 146097), m, d).

Definition msPerDay : Z := 86400000.

(** [new Date(t).toISOString()] for a time value [t], the milliseconds
    since 1970-01-01T00:00:00Z: the year with four digits from 0 to 9999,
    with a sign and six digits otherwise. *)
Definition ISO_year (y : Z) : string :=
  if (0 <=? y) && (y <=? 9999) then pad 4 y
  else (if y <? 0 then "-" else "+") +:+ pad 6 (Z.abs y).

Definition ISO_date (day : Z) : string :=
  let '(y, m, d) := civil day in
  ISO_year y +:+ "-" +:+ pad 2 m +:+ "-" +:+ pad 2 d.

Definition ISO_time (ms : Z) : string :=
  pad 2 (ms / 3600000) +:+ ":" +:+ pad 2 (ms / 60000 mod 60) +:+ ":"
  +:+ pad 2 (ms / 1000 mod 60) +:+ "." +:+ pad 3 (ms mod 1000) +:+ "Z".

Definition toISOString (t : Z) : string :=
  ISO_date (t / msPerDay) +:+ "T" +:+ ISO_time (t mod msPerDay).

(** [s.split(c)[0]] for a separator of one character: what comes before
    its first occurrence, the whole string when there is none. *)
Fixpoint before (c : ascii) (s : string) : string :=
  match s with
  | EmptyString => s
  | String a r => if Ascii.eqb a c then "" else String a (before c r)
  end.

(** [new Date(t).toISOString().split("T")[0]], which [today] reads from the
    clock. *)
Definition date_stamp (t : Z) : string := before "T" (toISOString t).

(** ** Types (src/index.ts, lines 18-35) *)

(** The [status] of a project is [pstatus] here, and its values carry a
    prefix: a field or constructor name is used once in Rocq. *)
Inductive TaskStatus := pending | in_progress | completed | blocked.

Record Task := {
  id : string;
  subject : string;
  status : TaskStatus;
  blockedBy : list string;
  blocks : list string;
  notes : string;
}.

Inductive ProjectStatus := p_active | p_paused | p_completed.

Record TaskProject := {
  project : string;
  pstatus : ProjectStatus;
  created : string;
  updated : string;
  tasks : list Task;
}.

#[global] Instance TaskStatus_eq_dec : EqDecision TaskStatus.
Proof. solve_decision. Defined.

#[global] Instance ProjectStatus_eq_dec : EqDecision ProjectStatus.
Proof. solve_decision. Defined.

#[global] Instance Task_eq_dec : EqDecision Task.
Proof. solve_decision. Defined.

#[global] Instance TaskProject_eq_dec : EqDecision TaskProject.
Proof. solve_decision. Defined.

(** Assignments to one field of a task or of a project record. *)
Definition set_status (s : TaskStatus) (t : Task) : Task :=
  {| id := id t; subject := subject t; status := s;
     blockedBy := blockedBy t; blocks := blocks t; notes := notes t |}.

Definition set_blockedBy (l : list string) (t : Task) : Task :=
  {| id := id t; subject := subject t; status := status t;
     blockedBy := l; blocks := blocks t; notes := notes t |}.

Definition set_blocks (l : list string) (t : Task) : Task :=
  {| id := id t; subject := subject t; status := status t;
     blockedBy := blockedBy t; blocks := l; notes := notes t |}.

Definition set_notes (n : string) (t : Task) : Task :=
  {| id := id t; subject := subject t; status := status t;
     blockedBy := blockedBy t; blocks := blocks t; notes := n |}.

Definition set_updated (d : string) (data : TaskProject) : TaskProject :=
  {| project := project data; pstatus := pstatus data; created := created data;
     updated := d; tasks := tasks data |}.

Definition set_tasks (ts : list Task) (data : TaskProject) : TaskProject :=
  {| project := project data; pstatus := pstatus data; created := created data;
     updated := updated data; tasks := ts |}.

(** [l.includes(x)] *)
Definition includes (x : string) (l : list string) : bool := bool_decide (x ∈ l).

(** [tasks.find(t => t.id === taskId)]: the first task with that id, with
    its position, which stands for the reference the caller mutates. *)
Definition find (taskId : string) (ts : list Task) : option (nat * Task) :=
  list_find (λ t, id t = taskId) ts.

(** ** The file system, the clock and exceptions *)

(** The text of a file: [Json v] is a text that [JSON.parse] turns into [v],
    a record of type [TaskProject] or null ([None]); [Plain s] is a text [s]
    that [JSON.parse] rejects, as the text of a plan is.  [carried] gives
    the text that carries the bytes of a file; the bytes that parse to a
    value of another type have none. *)
Inductive text :=
| Plain (s : string)
| Json (v : option TaskProject).

(** An entry of a directory: a file that can be read and replaced, or
    something that cannot (a directory). *)
Inductive node :=
| File (content : text)
| Directory.

Inductive root := TasksDir | PlansDir.

(** [tasksDir] and [plansDir] hold the entries of the two directories, [None]
    when the directory is missing or cannot be read; the [n]-th read of the
    clock gives the date [clock n]. *)
Record World := {
  tasksDir : option (gmap string node);
  plansDir : option (gmap string node);
  clock : nat → string;
  ticks : nat;
}.

(** What is thrown: [new Error(message)] by the store, a system error by
    [fs], a syntax error by [JSON.parse]. *)
Inductive exn :=
| Error (message : string)
| SystemError
| SyntaxError.

Inductive outcome (A : Type) :=
| Returned (a : A)
| Thrown (e : exn).

Arguments Returned {A} a.
Arguments Thrown {A} e.

(** A computation returns or throws, and leaves a world in both cases. *)
Definition M (A : Type) : Type := World → outcome A * World.

Definition ret {A} (a : A) : M A := λ w, (Returned a, w).

Definition throw {A} (e : exn) : M A := λ w, (Thrown e, w).

Definition bind {A B} (c : M A) (k : A → M B) : M B :=
  λ w, match c w with
       | (Returned a, w') => k a w'
       | (Thrown e, w') => (Thrown e, w')
       end.

(** [try { c } catch { h }] *)
Definition try_catch {A} (c h : M A) : M A :=
  λ w, match c w with
       | (Returned a, w') => (Returned a, w')
       | (Thrown _, w') => h w'
       end.

Notation "'let*' x ':=' c 'in' k" := (bind c (λ x, k))
  (at level 10, x name, c at level 100, k at level 200).

Fixpoint mapM {A B} (f : A → M B) (l : list A) : M (list B) :=
  match l with
  | [] => ret []
  | a :: r => let* b := f a in let* bs := mapM f r in ret (b :: bs)
  end.

Definition dir_of (r : root) (w : World) : option (gmap string node) :=
  match r with TasksDir => tasksDir w | PlansDir => plansDir w end.

Definition set_dir (r : root) (d : gmap string node) (w : World) : World :=
  match r with
  | TasksDir => {| tasksDir := Some d; plansDir := plansDir w;
                   clock := clock w; ticks := ticks w |}
  | PlansDir => {| tasksDir := tasksDir w; plansDir := Some d;
                   clock := clock w; ticks := ticks w |}
  end.

(** [fs.readdirSync(dir)] *)
Definition readdirSync (r : root) : M (list string) :=
  λ w, match dir_of r w with
       | Some d => (Returned (map_to_list d).*1, w)
       | None => (Thrown SystemError, w)
       end.

(** [fs.readFileSync(path, "utf-8")] *)
Definition readFileSync (p : root * string) : M text :=
  λ w, match dir_of p.1 w with
       | Some d => match d !! p.2 with
                   | Some (File c) => (Returned c, w)
                   | _ => (Thrown SystemError, w)
                   end
       | None => (Thrown SystemError, w)
       end.

(** [fs.writeFileSync(path, content)]: creates or replaces the file. *)
Definition writeFileSync (p : root * string) (c : text) : M unit :=
  λ w, match dir_of p.1 w with
       | Some d => match d !! p.2 with
                   | Some Directory => (Thrown SystemError, w)
                   | _ => (Returned tt, set_dir p.1 (<[p.2 := File c]> d) w)
                   end
       | None => (Thrown SystemError, w)
       end.

(** [new Date().toISOString().split("T")[0]]: the clock is read for the
    date, which [date_stamp] makes of the time. *)
Definition today : M string :=
  λ w, (Returned (clock w (ticks w)),
        {| tasksDir := tasksDir w; plansDir := plansDir w;
           clock := clock w; ticks := S (ticks w) |}).

(** [JSON.parse] and [JSON.stringify] on the texts as they are carried; on
    the bytes they are [parse] and [stringify], and [carried_record] shows
    that the text of a record is carried as [JSON_stringify] has it. *)
Definition JSON_parse (c : text) : M (option TaskProject) :=
  match c with
  | Plain _ => throw SyntaxError
  | Json v => ret v
  end.

Definition JSON_stringify (data : TaskProject) : text := Json (Some data).

(** ** Storage layer: class [TaskStorage] (src/index.ts, lines 48-222) *)

(** Lines 58-64: [path.join(this.tasksDir, name + ".json")] and the like,
    which are the entries of these names in the two directories when the
    name of the project is one segment of a path ([segment]). *)
Definition projectPath (project : string) : root * string :=
  (TasksDir, project +:+ ".json").

Definition planPath (project : string) : root * string :=
  (PlansDir, project +:+ ".md").

(** Lines 66-74. *)
Definition listProjects : M (list string) :=
  try_catch
    (let* names := readdirSync TasksDir in
     ret (List.map (λ f, remove_first f ".json")
                   (List.filter (λ f, endsWith f ".json") names)))
    (ret []).

(** Lines 76-84. *)
Definition getProject (project : string) : M (option TaskProject) :=
  let filePath := projectPath project in
  try_catch
    (let* content := readFileSync filePath in
     JSON_parse content)
    (ret None).

(** Lines 86-90.  [saveProject] stamps the record it is given; the stamped
    record is returned, for the callers that go on using that object. *)
Definition saveProject (data : TaskProject) : M TaskProject :=
  let filePath := projectPath (project data) in
  let* d := today in
  let data := set_updated d data in
  let* _ := writeFileSync filePath (JSON_stringify data) in
  ret data.

(** Lines 92-125. *)
Definition planContent (project today : string) : string :=
  "# " +:+ project +:+ "

**Status:** active
**Started:** " +:+ today +:+ "
**Last Updated:** " +:+ today +:+ "

## Goal
[Describe the objective]

## Phases

### Phase 1: [Name]
- [ ] Step 1
- [ ] Step 2

## Notes
[Context, decisions, blockers]
".

Definition createProject (project : string) : M TaskProject :=
  let* today := today in
  let data := {| project := project; pstatus := p_active; created := today;
                 updated := today; tasks := [] |} in
  let* data := saveProject data in
  let* _ := writeFileSync (planPath project) (Plain (planContent project today)) in
  ret data.

(** Lines 127-131. *)
Definition getActiveProjects : M (list TaskProject) :=
  let* names := listProjects in
  let* loaded := mapM getProject names in
  ret (omap (λ p : option TaskProject,
               match p with
               | Some data => if decide (pstatus data = p_active) then Some data else None
               | None => None
               end) loaded).

(** Lines 133-152.  The [reduce] of [addTask]. *)
Definition maxId (ts : list Task) : number :=
  fold_left (λ max t, Math_max max (or_else (parseInt (id t)) (Num 0))) ts (Num 0).

(** The task [addTask] builds. *)
Definition new_task (ts : list Task) (subject : string) : Task :=
  let maxId := maxId ts in
  {| id := Number_toString (number_add maxId (Num 1));
     subject := subject; status := pending;
     blockedBy := []; blocks := []; notes := "" |}.

Definition addTask (project subject : string) : M Task :=
  let* data := getProject project in
  let* data := match data with
                | Some data => ret data
                | None => createProject project
                end in
  let task := new_task (tasks data) subject in
  let data := set_tasks (tasks data ++ [task]) data in
  let* _ := saveProject data in
  ret task.

(** Lines 170-178: the loop of [updateTaskStatus] over all the tasks, run
    when the new status is [completed]. *)
Fixpoint cascade (taskId : string) (ts : list Task) (unblocked : list string)
  : list Task * list string :=
  match ts with
  | [] => ([], unblocked)
  | t :: rest =>
      if includes taskId (blockedBy t) then
        let t := set_blockedBy (filter (λ id, id ≠ taskId) (blockedBy t)) t in
        if (length (blockedBy t) =? 0)%nat && bool_decide (status t = blocked) then
          let t := set_status pending t in
          let '(rest, unblocked) := cascade taskId rest (unblocked ++ [id t]) in
          (t :: rest, unblocked)
        else
          let '(rest, unblocked) := cascade taskId rest unblocked in
          (t :: rest, unblocked)
      else
        let '(rest, unblocked) := cascade taskId rest unblocked in
        (t :: rest, unblocked)
  end.

(** Lines 165-179: the assignment of the status and, on [completed], the
    loop: what [updateTaskStatus] does to the tasks, [i] being the place of
    the task found, and the ids it collects in [unblocked]. *)
Definition change_status (i : nat) (task : Task) (taskId : string)
    (status : TaskStatus) (ts : list Task) : list Task * list string :=
  let ts := <[i := set_status status task]> ts in
  if decide (status = completed) then cascade taskId ts [] else (ts, []).

(** Lines 154-183. *)
Definition updateTaskStatus (project taskId : string) (status : TaskStatus)
  : M (Task * list string) :=
  let* data := getProject project in
  match data with
  | None => throw (Error ("Project '" +:+ project +:+ "' not found"))
  | Some data =>
      match find taskId (tasks data) with
      | None => throw (Error ("Task '" +:+ taskId +:+ "' not found in project '"
                              +:+ project +:+ "'"))
      | Some (i, task) =>
          let '(ts, unblocked) := change_status i task taskId status (tasks data) in
          let* _ := saveProject (set_tasks ts data) in
          ret (default task (ts !! i), unblocked)
      end
  end.

(** Lines 197-203: the two guarded pushes of [setBlocker], on the task
    found at [i] and on the blocker found at [j]; the blocker is read after
    the first push, as both may be one and the same object. *)
Definition link (i : nat) (task : Task) (j : nat) (taskId blockerId : string)
    (ts : list Task) : list Task :=
  let ts :=
    if negb (includes blockerId (blockedBy task)) then
      <[i := set_status blocked
               (set_blockedBy (blockedBy task ++ [blockerId]) task)]> ts
    else ts in
  match ts !! j with
  | Some blocker =>
      if negb (includes taskId (blocks blocker)) then
        <[j := set_blocks (blocks blocker ++ [taskId]) blocker]> ts
      else ts
  | None => ts
  end.

(** Lines 185-206. *)
Definition setBlocker (project taskId blockerId : string) : M unit :=
  let* data := getProject project in
  match data with
  | None => throw (Error ("Project '" +:+ project +:+ "' not found"))
  | Some data =>
      match find taskId (tasks data), find blockerId (tasks data) with
      | Some (i, task), Some (j, _) =>
          let ts := link i task j taskId blockerId (tasks data) in
          let* _ := saveProject (set_tasks ts data) in
          ret tt
      | _, _ => throw (Error "Task not found")
      end
  end.

(** Lines 208-222. *)
Definition updateTaskNotes (project taskId notes : string) : M unit :=
  let* data := getProject project in
  match data with
  | None => throw (Error ("Project '" +:+ project +:+ "' not found"))
  | Some data =>
      match find taskId (tasks data) with
      | None => throw (Error ("Task '" +:+ taskId +:+ "' not found"))
      | Some (i, task) =>
          let ts := <[i := set_notes notes task]> (tasks data) in
          let* _ := saveProject (set_tasks ts data) in
          ret tt
      end
  end.

(** ** Formatting helpers (src/index.ts, lines 228-277) *)

(** The line feed, [l.join(sep)], a string taken as a condition (the empty
    string is falsy), [s || d] on strings, and the text of the length of an
    array in a template. *)
Definition nl : string := String "010" "".

Definition join (l : list string) (sep : string) : string := String.concat sep l.

Definition nonempty (s : string) : bool := negb (bool_decide (s = "")).

Definition or_string (s d : string) : string := if nonempty s then s else d.

Definition count (n : nat) : string := Number_toString (toNumber (Z.of_nat n)).

(** The names of the statuses, as the records and the messages spell them. *)
Definition status_name (s : TaskStatus) : string :=
  match s with
  | pending => "pending"
  | in_progress => "in_progress"
  | completed => "completed"
  | blocked => "blocked"
  end.

Definition pstatus_name (s : ProjectStatus) : string :=
  match s with
  | p_active => "active"
  | p_paused => "paused"
  | p_completed => "completed"
  end.

(** Lines 231-239: the icon and the line of a task. *)
Definition statusIcon (task : Task) : string :=
  if decide (status task = completed) then "✓"
  else if decide (status task = in_progress) then "→"
  else if decide (status task = blocked) then "⊘"
  else " ".

Definition task_line (task : Task) : string :=
  let line := "[" +:+ statusIcon task +:+ "] #" +:+ id task +:+ ": " +:+ subject task in
  if (0 <? length (blockedBy task))%nat
  then line +:+ " (blocked by: " +:+ join (blockedBy task) ", " +:+ ")"
  else line.

(** Lines 228-243. *)
Definition formatTaskList (data : TaskProject) : string :=
  let lines := ["=== " +:+ project data +:+ " ==="] in
  let lines := fold_left (λ lines task, lines ++ [task_line task]) (tasks data) lines in
  join lines nl.

(** Lines 252-273: what the loop of [formatActiveTasksSummary] pushes for
    one project. *)
Definition summary_lines (lines : list string) (data : TaskProject) : list string :=
  let inProgress := filter (λ t, status t = in_progress) (tasks data) in
  let pending := filter (λ t, status t = pending) (tasks data) in
  let blocked := filter (λ t, status t = blocked) (tasks data) in
  let lines := lines ++ [nl +:+ "## " +:+ project data] in
  let lines :=
    if (0 <? length inProgress)%nat then
      fold_left (λ lines t, lines ++ ["  - #" +:+ id t +:+ ": " +:+ subject t])
                inProgress (lines ++ ["In Progress:"])
    else lines in
  let lines :=
    if (0 <? length pending)%nat
    then lines ++ ["Pending: " +:+ count (length pending) +:+ " tasks"]
    else lines in
  if (0 <? length blocked)%nat
  then lines ++ ["Blocked: " +:+ count (length blocked) +:+ " tasks"]
  else lines.

(** Lines 245-277. *)
Definition formatActiveTasksSummary (projects : list TaskProject) : string :=
  if (length projects =? 0)%nat then ""
  else
    let lines := ["<active-tasks>"; "Active task projects for context:"] in
    let lines := fold_left summary_lines projects lines in
    let lines := lines ++ ["</active-tasks>"] in
    join lines nl.

(** ** The tools (src/index.ts, lines 303-471) *)

(** What a tool returns: the text of its one content item, and the details,
    which have one shape per tool and outcome. *)
Inductive Details :=
| Created (taskId project : string)
| Updated (project taskId : string) (status : option TaskStatus) (notes : option string)
| NotFound
| Listed (project : string) (taskCount : nat)
| Counted (projectCount : nat)
| Got (task : Task).

Record ToolResult := {
  content : string;
  details : Details;
}.

(** An optional string parameter taken as a condition: given and not
    empty. *)
Definition given (o : option string) : option string :=
  match o with
  | Some s => if nonempty s then Some s else None
  | None => None
  end.

(** [for (const a of l) { body(a) }] *)
Fixpoint for_each {A} (l : list A) (body : A → M unit) : M unit :=
  match l with
  | [] => ret tt
  | a :: rest => let* _ := body a in for_each rest body
  end.

(** [task_create], lines 312-335. *)
Definition task_create (project subject : string) (blockedBy : option (list string))
  : M ToolResult :=
  let* task := addTask project subject in
  let* _ :=
    match blockedBy with
    | Some blockedBy =>
        if (0 <? length blockedBy)%nat then
          for_each blockedBy (λ blockerId,
            try_catch (setBlocker project (id task) blockerId) (ret tt))
        else ret tt
    | None => ret tt
    end in
  ret {| content := "Created task #" +:+ id task +:+ ": " +:+ subject;
         details := Created (id task) project |}.

(** [task_update], lines 353-381. *)
Definition task_update (project taskId : string) (status : option TaskStatus)
    (notes : option string) : M ToolResult :=
  let results := [] in
  let* results :=
    match status with
    | Some status =>
        let* r := updateTaskStatus project taskId status in
        let results := results ++ ["Task #" +:+ taskId +:+ " status: "
                                   +:+ status_name status] in
        ret (fold_left (λ results id, results ++ ["Task #" +:+ id +:+ " unblocked!"])
                       r.2 results)
    | None => ret results
    end in
  let* results :=
    match notes with
    | Some notes =>
        let* _ := updateTaskNotes project taskId notes in
        ret (results ++ ["Notes updated for task #" +:+ taskId])
    | None => ret results
    end in
  ret {| content := join results nl;
         details := Updated project taskId status notes |}.

(** Lines 417-422 and 527-528: the line of a project in the list of all
    projects. *)
Definition project_line (p : string) (data : TaskProject) : string :=
  let completed := length (filter (λ t, status t = completed) (tasks data)) in
  p +:+ " [" +:+ pstatus_name (pstatus data) +:+ "]: " +:+ count completed
    +:+ "/" +:+ count (length (tasks data)) +:+ " completed".

(** [task_list], lines 392-428; the parameter [status] is [wanted] here. *)
Definition task_list (project wanted : option string) : M ToolResult :=
  match given project with
  | Some project =>
      let* data := getProject project in
      match data with
      | None => ret {| content := "Project '" +:+ project +:+ "' not found";
                       details := NotFound |}
      | Some data =>
          let tasks := tasks data in
          let tasks :=
            match given wanted with
            | Some wanted => filter (λ t, status_name (status t) = wanted) tasks
            | None => tasks
            end in
          ret {| content := formatTaskList (set_tasks tasks data);
                 details := Listed project (length tasks) |}
      end
  | None =>
      let* projects := listProjects in
      let* summaries :=
        mapM (λ p, let* data := getProject p in
                   match data with
                   | None => ret (p +:+ ": (error reading)")
                   | Some data => ret (project_line p data)
                   end) projects in
      ret {| content := or_string (join summaries nl) "No projects found";
             details := Counted (length projects) |}
  end.

(** [task_get], lines 439-470; [filter(Boolean)] keeps the lines that are
    neither null nor empty. *)
Definition task_get (project taskId : string) : M ToolResult :=
  let* data := getProject project in
  match data with
  | None => ret {| content := "Project '" +:+ project +:+ "' not found";
                   details := NotFound |}
  | Some data =>
      match find taskId (tasks data) with
      | None => ret {| content := "Task '" +:+ taskId +:+ "' not found in project '"
                                  +:+ project +:+ "'";
                       details := NotFound |}
      | Some (_, task) =>
          let lines :=
            omap given
              [ Some ("Task #" +:+ id task +:+ ": " +:+ subject task);
                Some ("Status: " +:+ status_name (status task));
                if (0 <? length (blockedBy task))%nat
                then Some ("Blocked by: " +:+ join (blockedBy task) ", ") else None;
                if (0 <? length (blocks task))%nat
                then Some ("Blocks: " +:+ join (blocks task) ", ") else None;
                if nonempty (notes task)
                then Some ("Notes: " +:+ notes task) else None ] in
          ret {| content := join lines nl; details := Got task |}
      end
  end.

(** ** The hook, the commands and the service (lines 479-571)

    Each returns, with its value if it has one, the lines it gives to the
    logger or prints on the console, in order. *)

(** [before_agent_start], lines 479-490: the line logged and the context to
    prepend, [None] for no return value. *)
Definition before_agent_start : M (list string * option string) :=
  let* activeProjects := getActiveProjects in
  if (length activeProjects =? 0)%nat then ret ([], None)
  else
    let summary := formatActiveTasksSummary activeProjects in
    if nonempty summary then
      ret (["tasks: injecting " +:+ count (length activeProjects)
            +:+ " active project(s) into context"], Some summary)
    else ret ([], None).

(** [tasks list], lines 514-532. *)
Definition cli_list (project : option string) : M (list string) :=
  match given project with
  | Some project =>
      let* data := getProject project in
      match data with
      | None => ret ["Project '" +:+ project +:+ "' not found"]
      | Some data => ret [formatTaskList data]
      end
  | None =>
      let* projects := listProjects in
      let* printed :=
        mapM (λ p, let* data := getProject p in
                   match data with
                   | Some data => ret [project_line p data]
                   | None => ret []
                   end) projects in
      ret (concat printed)
  end.

(** [tasks active], lines 537-540. *)
Definition cli_active : M (list string) :=
  let* activeProjects := getActiveProjects in
  ret [or_string (formatActiveTasksSummary activeProjects) "No active projects"].

(** [tasks add], lines 547-550. *)
Definition cli_add (project subject : string) : M (list string) :=
  let* task := addTask project subject in
  ret ["Added task #" +:+ id task +:+ ": " +:+ subject].

(** The start of the service, lines 561-567. *)
Definition service_start : M (list string) :=
  let* projects := listProjects in
  let* active := getActiveProjects in
  ret ["tasks: initialized (" +:+ count (length projects) +:+ " projects, "
       +:+ count (length active) +:+ " active)"].

(** ** The records as JSON values *)

(** The object that [createProject] builds and the objects that [addTask]
    pushes, with their properties in the order of the code (lines 94-100
    and 140-147). *)
Definition Task_value (t : Task) : JSON_value :=
  JObject [ ("id", JString (id t));
            ("subject", JString (subject t));
            ("status", JString (status_name (status t)));
            ("blockedBy", JArray (JString <$> blockedBy t));
            ("blocks", JArray (JString <$> blocks t));
            ("notes", JString (notes t)) ].

Definition TaskProject_value (data : TaskProject) : JSON_value :=
  JObject [ ("project", JString (project data));
            ("status", JString (pstatus_name (pstatus data)));
            ("created", JString (created data));
            ("updated", JString (updated data));
            ("tasks", JArray (Task_value <$> tasks data)) ].

(** A value read at the declared type ([as TaskProject], line 80): the
    record whose fields are the properties of the value, when it has them
    all with the declared types. *)
Definition as_string (v : JSON_value) : option string :=
  match v with JString s => Some s | _ => None end.

Fixpoint as_list {A} (f : JSON_value → option A) (l : list JSON_value) : option (list A) :=
  match l with
  | [] => Some []
  | v :: r =>
      match f v, as_list f r with
      | Some a, Some rest => Some (a :: rest)
      | _, _ => None
      end
  end.

Definition as_array {A} (f : JSON_value → option A) (v : JSON_value) : option (list A) :=
  match v with JArray l => as_list f l | _ => None end.

Definition as_TaskStatus (v : JSON_value) : option TaskStatus :=
  match v with
  | JString s =>
      List.find (λ st, bool_decide (status_name st = s))
                [pending; in_progress; completed; blocked]
  | _ => None
  end.

Definition as_ProjectStatus (v : JSON_value) : option ProjectStatus :=
  match v with
  | JString s =>
      List.find (λ st, bool_decide (pstatus_name st = s)) [p_active; p_paused; p_completed]
  | _ => None
  end.

Definition as_Task (v : JSON_value) : option Task :=
  match v with
  | JObject ms =>
      match member "id" ms ≫= as_string, member "subject" ms ≫= as_string,
            member "status" ms ≫= as_TaskStatus,
            member "blockedBy" ms ≫= as_array as_string,
            member "blocks" ms ≫= as_array as_string,
            member "notes" ms ≫= as_string with
      | Some i, Some s, Some st, Some bb, Some bl, Some n =>
          Some {| id := i; subject := s; status := st;
                  blockedBy := bb; blocks := bl; notes := n |}
      | _, _, _, _, _, _ => None
      end
  | _ => None
  end.

Definition as_TaskProject (v : JSON_value) : option TaskProject :=
  match v with
  | JObject ms =>
      match member "project" ms ≫= as_string, member "status" ms ≫= as_ProjectStatus,
            member "created" ms ≫= as_string, member "updated" ms ≫= as_string,
            member "tasks" ms ≫= as_array as_Task with
      | Some p, Some st, Some c, Some u, Some ts =>
          Some {| project := p; pstatus := st; created := c; updated := u; tasks := ts |}
      | _, _, _, _, _ => None
      end
  | _ => None
  end.

(** What the bytes of a file are carried as in a [World] ([text]): a text
    that does not parse as itself, the text of [null] and the text of a
    record of the declared type as what they parse to.  The text of any
    other value is not carried. *)
Definition carried (s : string) : option text :=
  match parse s with
  | None => Some (Plain s)
  | Some JNull => Some (Json None)
  | Some v =>
      match as_TaskProject v with
      | Some data => Some (Json (Some data))
      | None => None
      end
  end.

(** ** Sessions: calls made one after the other on one project *)

Inductive call :=
| AddTask (subject : string)
| UpdateTaskStatus (taskId : string) (status : TaskStatus)
| SetBlocker (taskId blockerId : string)
| UpdateTaskNotes (taskId notes : string).

(** One call; the result is the task it created, if it is an [addTask]
    that returned.  An exception ends the call, not the session. *)
Definition perform (project : string) (c : call) (w : World) : option Task * World :=
  match c with
  | AddTask subject =>
      match addTask project subject w with
      | (Returned t, w') => (Some t, w')
      | (Thrown _, w') => (None, w')
      end
  | UpdateTaskStatus taskId st => (None, (updateTaskStatus project taskId st w).2)
  | SetBlocker taskId blockerId => (None, (setBlocker project taskId blockerId w).2)
  | UpdateTaskNotes taskId n => (None, (updateTaskNotes project taskId n w).2)
  end.

(** The tasks created along a session, in order, and the final world. *)
Fixpoint session (project : string) (cs : list call) (w : World) : list Task * World :=
  match cs with
  | [] => ([], w)
  | c :: rest =>
      let '(r, w') := perform project c w in
      let '(made, w'') := session project rest w' in
      (match r with Some t => t :: made | None => made end, w'')
  end.

(** The record stored under a name, as [getProject] reads it. *)
Definition stored (w : World) (project : string) : option TaskProject :=
  match (getProject project w).1 with
  | Returned v => v
  | Thrown _ => None
  end.

(** A world with both directories present and empty, as the constructor
    leaves one where there was none. *)
Definition fresh (dates : nat → string) : World :=
  {| tasksDir := Some ∅; plansDir := Some ∅; clock := dates; ticks := 0 |}.

(** ** Definitions for the statements *)

(** The world once [saveProject] has written [data] in the directory [d]. *)
Definition written (data : TaskProject) (d : gmap string node) (w : World) : World :=
  {| tasksDir := Some (<[project data +:+ ".json" := File (JSON_stringify data)]> d);
     plansDir := plansDir w; clock := clock w; ticks := S (ticks w) |}.

(** The cascade as the specification words it.  [unblocks]: the task lists
    the id, taking the id out leaves it with no blocker, and its status is
    [blocked].  [relax]: the id is taken out of [blockedBy], and a task that
    [unblocks] becomes [pending]. *)
Definition unblocks (taskId : string) (t : Task) : Prop :=
  taskId ∈ blockedBy t ∧ filter (λ id, id ≠ taskId) (blockedBy t) = []
  ∧ status t = blocked.

#[global] Instance unblocks_dec taskId t : Decision (unblocks taskId t).
Proof. unfold unblocks. apply _. Defined.

Definition relax (taskId : string) (t : Task) : Task :=
  let t' := set_blockedBy (filter (λ id, id ≠ taskId) (blockedBy t)) t in
  if decide (unblocks taskId t) then set_status pending t' else t'.

(** What [setBlocker] does to the task at position [k], [i] and [j] being
    the positions of the task and of the blocker. *)
Definition link_at (i j : nat) (taskId blockerId : string) (k : nat) (x : Task) : Task :=
  let x := if decide (k = i ∧ blockerId ∉ blockedBy x)
           then set_status blocked (set_blockedBy (blockedBy x ++ [blockerId]) x)
           else x in
  if decide (k = j ∧ taskId ∉ blocks x)
  then set_blocks (blocks x ++ [taskId]) x
  else x.

(** A task id resolves when the project is stored and holds a task with
    that id. *)
Definition resolves (w : World) (project taskId : string) : Prop :=
  ∃ data i t, stored w project = Some data ∧ find taskId (tasks data) = Some (i, t).

(** The message of the exception thrown for an id that does not resolve. *)
Definition not_found (w : World) (project : string) (task_msg : string) : exn :=
  Error (match stored w project with
         | None => "Project '" +:+ project +:+ "' not found"
         | Some _ => task_msg
         end).

(** The id of a new task as the specification words it.  [exact_max]: the
    greatest of the ids read as integers, an id that does not read as one
    counting for 0, and 0 when there is no task; [next_id]: the decimal
    string of one more. *)
Definition exact_max (ts : list Task) : Z :=
  fold_left (λ max t, Z.max max (default 0 (parseInteger (id t)))) ts 0.

Definition next_id (ts : list Task) : string := dec (1 + exact_max ts).

(** Strings of decimal digits. *)
Definition is_digit (a : ascii) : Prop := 48 <= code a <= 57.

Fixpoint all_digits (s : string) : Prop :=
  match s with
  | EmptyString => True
  | String a rest => is_digit a ∧ all_digits rest
  end.

(** The tasks of a project, none when it is not stored. *)
Definition stored_tasks (w : World) (project : string) : list Task :=
  match stored w project with
  | Some data => tasks data
  | None => []
  end.

(** The record stored under a name carries that name. *)
Definition consistent (w : World) (p : string) : Prop :=
  ∀ data, stored w p = Some data → project data = p.

(** What one call can do to the tasks of a project, and the task it
    creates: nothing when it throws, else the change it makes in memory. *)
Inductive step : list Task → call → option Task → list Task → Prop :=
| step_none ts c : step ts c None ts
| step_add ts subject :
    step ts (AddTask subject) (Some (new_task ts subject))
         (ts ++ [new_task ts subject])
| step_status ts t st i task :
    find t ts = Some (i, task) →
    step ts (UpdateTaskStatus t st) None (change_status i task t st ts).1
| step_link ts t b i task j blocker :
    find t ts = Some (i, task) →
    find b ts = Some (j, blocker) →
    step ts (SetBlocker t b) None (link i task j t b ts)
| step_notes ts t n i task :
    find t ts = Some (i, task) →
    step ts (UpdateTaskNotes t n) None (<[i := set_notes n task]> ts).

(** The world after one more read of the clock. *)
Definition tick (w : World) : World :=
  {| tasksDir := tasksDir w; plansDir := plansDir w;
     clock := clock w; ticks := S (ticks w) |}.

(** The two directions of the correspondence between [blockedBy] and
    [blocks], [tasks[x]] being the first task with id [x] ([find]).
    [forward]: every id in the [blockedBy] of a task is the id of a task,
    whose [blocks] has the id of the former.  [backward_at b]: every id in
    the [blocks] of the task the id [b] stands for is the id of a task whose
    [blockedBy] has [b].  [inverse_at b] is the equivalence of the
    specification for the blocker [b], and [exact_inverses] the same for
    every blocker. *)
Definition forward (ts : list Task) : Prop :=
  ∀ t b, t ∈ ts → b ∈ blockedBy t →
    ∃ j blocker, find b ts = Some (j, blocker) ∧ id t ∈ blocks blocker.

Definition backward_at (b : string) (ts : list Task) : Prop :=
  ∀ j blocker x, find b ts = Some (j, blocker) → x ∈ blocks blocker →
    ∃ i t, find x ts = Some (i, t) ∧ b ∈ blockedBy t.

Definition inverse_at (b : string) (ts : list Task) : Prop :=
  ∀ t j blocker, t ∈ ts → find b ts = Some (j, blocker) →
    (b ∈ blockedBy t ↔ id t ∈ blocks blocker).

Definition exact_inverses (ts : list Task) : Prop :=
  ∀ t b j blocker, t ∈ ts → find b ts = Some (j, blocker) →
    (b ∈ blockedBy t ↔ id t ∈ blocks blocker).

(** The ids that a call of the session has completed while other tasks
    were waiting for them: the ids [taskId] of the calls
    [updateTaskStatus(project, taskId, "completed")] made when the project
    had a task with that id whose [blocks] was not empty. *)
Fixpoint completed_blockers (project : string) (cs : list call) (w : World)
  : list string :=
  match cs with
  | [] => []
  | c :: rest =>
      match c with
      | UpdateTaskStatus taskId completed =>
          match find taskId (stored_tasks w project) with
          | Some (_, task) => if (0 <? length (blocks task))%nat then [taskId] else []
          | None => []
          end
      | _ => []
      end ++ completed_blockers project rest (perform project c w).2
  end.

(** A name of a project that is one segment of a path and makes the name
    of a file: it has no separator and no NUL byte, and at most 250 bytes,
    so that with the extension [.json] or [.md] it has no more than the 255
    bytes that a POSIX file system takes.  For such a name, and for no
    other, [path.join(dir, name + ext)] is the entry [name + ext] of
    [dir], which is how [projectPath] and [planPath] are written here; the
    entries of a directory are told apart by their bytes, as a file system
    that is sensitive to case does. *)
Definition segment (name : string) : Prop :=
  (String.length name ≤ 250)%nat ∧
  Forall (λ a, a ≠ "/"%char ∧ a ≠ "000"%char) (list_ascii_of_string name).

#[global] Instance segment_dec name : Decision (segment name).
Proof. unfold segment. apply _. Defined.

(** A value without numbers, as the values of the records are. *)
Fixpoint plain (v : JSON_value) : bool :=
  match v with
  | JNumber _ => false
  | JArray items => forallb plain items
  | JObject ms => forallb (λ m, plain m.2) ms
  | _ => true
  end.

(** What follows the first element of an array, and the first member of an
    object, in the text that [emit] writes at depth [n]. *)
Definition more_elements (n : nat) (xs : list JSON_value) (rest : string) : string :=
  fold_right (λ y more, String "," (newline (S n) (emit (S n) y more)))
             (newline n (String "]" rest)) xs.

Definition more_members (n : nat) (ms : list (string * JSON_value)) (rest : string)
  : string :=
  fold_right (λ m more,
                String "," (newline (S n)
                  (quote m.1 (String ":" (String " " (emit (S n) m.2 more))))))
             (newline n (String "}" rest)) ms.

(** A string of [k] decimal digits, and a date written [YYYY-MM-DD]. *)
Definition digits (k : nat) (s : string) : Prop :=
  String.length s = k ∧ all_digits s.

Definition is_date (s : string) : Prop :=
  ∃ y m d, s = y +:+ "-" +:+ m +:+ "-" +:+ d ∧ digits 4 y ∧ digits 2 m ∧ digits 2 d.

(** A string without the character [c]. *)
Fixpoint without (c : ascii) (s : string) : Prop :=
  match s with
  | EmptyString => True
  | String a r => a ≠ c ∧ without c r
  end.

(** [check] holds of the [n] integers from [i] on. *)
Fixpoint all_from (check : Z → bool) (i : Z) (n : nat) : bool :=
  match n with
  | O => true
  | S k => check i && all_from check (i + 1) k
  end.

(** ** Scenarios *)

(** A clock that shows the first of January for its first five readings
    and the second from then on, and the empty store under it. *)
Definition calendar (n : nat) : string :=
  if (n <? 5)%nat then "2026-01-01" else "2026-01-02".

Definition empty_store : World := fresh calendar.

(** A project of two tasks, and its record. *)
Definition two_tasks : World :=
  (session "p" [AddTask "first"; AddTask "second"] empty_store).2.

Definition two_tasks_record : TaskProject :=
  {| project := "p"; pstatus := p_active;
     created := "2026-01-01"; updated := "2026-01-01";
     tasks := [ {| id := "1"; subject := "first"; status := pending;
                   blockedBy := []; blocks := []; notes := "" |};
                {| id := "2"; subject := "second"; status := pending;
                   blockedBy := []; blocks := []; notes := "" |} ] |}.

(** The same once the second task waits for the first. *)
Definition linked : World :=
  (session "p" [SetBlocker "2" "1"] two_tasks).2.

Definition linked_record : TaskProject :=
  {| project := "p"; pstatus := p_active;
     created := "2026-01-01"; updated := "2026-01-01";
     tasks := [ {| id := "1"; subject := "first"; status := pending;
                   blockedBy := []; blocks := ["2"]; notes := "" |};
                {| id := "2"; subject := "second"; status := blocked;
                   blockedBy := ["1"]; blocks := []; notes := "" |} ] |}.

(** A stored project whose only task has the id 2^53, as a file written by
    hand or by another tool may have it. *)
Definition big_record : TaskProject :=
  {| project := "big"; pstatus := p_active;
     created := "2026-01-01"; updated := "2026-01-01";
     tasks := [ {| id := "9007199254740992"; subject := "imported";
                   status := pending; blockedBy := []; blocks := [];
                   notes := "" |} ] |}.

Definition big_store : World :=
  {| tasksDir := Some {[ "big.json" := File (JSON_stringify big_record) ]};
     plansDir := Some ∅; clock := calendar; ticks := 0 |}.

(** The empty store on the second of January. *)
Definition second_day : World :=
  {| tasksDir := Some ∅; plansDir := Some ∅; clock := calendar; ticks := 5 |}.


(** ** Definitions for the further properties *)

(** The entry of the plan of a project, [None] when there is none or when
    the directory of the plans is missing. *)
Definition plan (w : World) (project : string) : option node :=
  plansDir w ≫= λ pd, pd !! (planPath project).2.

(** The record [createProject] builds when the clock is read in [w]: the
    date of creation is the reading of [createProject], the date of update
    the next one, which [saveProject] makes. *)
Definition created_record (w : World) (project : string) : TaskProject :=
  {| project := project; pstatus := p_active; created := clock w (ticks w);
     updated := clock w (S (ticks w)); tasks := [] |}.

(** The world once the plan of [createProject] has been written in the
    directory [pd]. *)
Definition planned (project today : string) (pd : gmap string node) (w : World) : World :=
  set_dir PlansDir (<[project +:+ ".md" := File (Plain (planContent project today))]> pd) w.

(** Two worlds that hold the same record and the same plan under every name
    but [p]. *)
Definition same_elsewhere (p : string) (w w' : World) : Prop :=
  ∀ q, q ≠ p → stored w' q = stored w q ∧ plan w' q = plan w q.

(** What one turn of the loop of [task_create] does to the tasks: the link
    when both ids are found, nothing when [setBlocker] throws. *)
Definition try_link (taskId : string) (ts : list Task) (blockerId : string) : list Task :=
  match find taskId ts, find blockerId ts with
  | Some (i, task), Some (j, _) => link i task j taskId blockerId ts
  | _, _ => ts
  end.

(** What [formatActiveTasksSummary] shows of a project: its name, the ids
    and subjects of the tasks in progress, and how many tasks are pending
    and how many blocked. *)
Definition shown (data : TaskProject)
  : string * list (string * string) * nat * nat :=
  (project data,
   (λ t, (id t, subject t)) <$> filter (λ t, status t = in_progress) (tasks data),
   length (filter (λ t, status t = pending) (tasks data)),
   length (filter (λ t, status t = blocked) (tasks data))).

(** ** Further scenarios *)

(** A store where the record of the project [big] has been copied to the
    file of a project [copy], and one whose directory of plans is gone. *)
Definition copied_store : World :=
  {| tasksDir := Some {[ "copy.json" := File (JSON_stringify big_record) ]};
     plansDir := Some ∅; clock := calendar; ticks := 0 |}.

Definition no_plans : World :=
  {| tasksDir := Some ∅; plansDir := None; clock := calendar; ticks := 0 |}.

(** A store where the file of the project [p] holds a text that does not
    parse, and its plan a text of the user. *)
Definition damaged_store : World :=
  {| tasksDir := Some {[ "p.json" := File (Plain "{ project: ") ]};
     plansDir := Some {[ "p.md" := File (Plain "# my plan") ]};
     clock := calendar; ticks := 0 |}.

(** * Properties *)

(** ** The runtime primitives on some inputs *)

Example parseInt_digits : parseInt "42" = Num 42.
Proof. reflexivity. Qed.

Example parseInt_space_sign_rest : parseInt "  -7abc" = Num (-7).
Proof. reflexivity. Qed.

Example parseInt_no_digit : parseInt "task-001" = NaN.
Proof. reflexivity. Qed.

Example parseInt_hex : parseInt "0x1F" = Num 31.
Proof. reflexivity. Qed.

Example parseInt_leading_zeros : parseInt "007" = Num 7.
Proof. reflexivity. Qed.

Example parseInt_rounds :
  parseInt "9007199254740993" = Num 9007199254740992.
Proof. vm_compute. reflexivity. Qed.

Example parseInt_bare_prefix : parseInt "0x" = NaN.
Proof. reflexivity. Qed.

Example add_one_at_2_53 :
  number_add (Num (2 ^ 53)) (Num 1) = Num (2 ^ 53)
  ∧ number_add (Num (2 ^ 53 - 1)) (Num 1) = Num (2 ^ 53).
Proof. split; vm_compute; reflexivity. Qed.

Example toString_small : Number_toString (Num 120) = "120".
Proof. vm_compute. reflexivity. Qed.

Example toString_2_64 :
  Number_toString (toNumber (2 ^ 64)) = "18446744073709552000".
Proof. vm_compute. reflexivity. Qed.

Example toString_2_70 :
  Number_toString (toNumber (2 ^ 70)) = "1.1805916207174113e+21".
Proof. vm_compute. reflexivity. Qed.

Example toString_1e23 : Number_toString (toNumber (10 ^ 23)) = "1e+23".
Proof. vm_compute. reflexivity. Qed.

Example toString_1e21 : Number_toString (toNumber (10 ^ 21)) = "1e+21".
Proof. vm_compute. reflexivity. Qed.

Example toString_21_digits :
  Number_toString (toNumber 123456789012345678901) = "123456789012345680000".
Proof. vm_compute. reflexivity. Qed.

Example toString_overflow : Number_toString (toNumber (10 ^ 400)) = "Infinity".
Proof. vm_compute. reflexivity. Qed.

Example toString_zero : Number_toString (Num 0) = "0".
Proof. vm_compute. reflexivity. Qed.

Example toString_above_2_53 :
  Number_toString (toNumber (2 ^ 53 + 2)) = "9007199254740994".
Proof. vm_compute. reflexivity. Qed.

Example toString_2_1023 :
  Number_toString (toNumber (2 ^ 1023)) = "8.98846567431158e+307".
Proof. vm_compute. reflexivity. Qed.

Example shortest_digits_small :
  shortest_digits 120 = (12, 1) ∧ shortest_digits 7 = (7, 0)
  ∧ shortest_digits 1000000 = (1, 6)
  ∧ shortest_digits 9007199254740991 = (9007199254740991, 0)
  ∧ shortest_digits 9007199254740992 = (9007199254740992, 0).
Proof. repeat split; vm_compute; reflexivity. Qed.
Example endsWith_json :
  endsWith "a.json" ".json" = true ∧ endsWith "json" ".json" = false.
Proof. split; reflexivity. Qed.

Example remove_first_json : remove_first "a.jsonb.json" ".json" = "ab.json".
Proof. reflexivity. Qed.

(** ** The tests of [index.test.ts], run on the model *)

Example test_create_project :
  (createProject "test-project" empty_store).1
  = Returned {| project := "test-project"; pstatus := p_active;
                created := "2026-01-01"; updated := "2026-01-01"; tasks := [] |}.
Proof. vm_compute. reflexivity. Qed.

Example test_list_projects :
  let w := (createProject "project-b" (createProject "project-a" empty_store).2).2 in
  ∃ names, (listProjects w).1 = Returned names
           ∧ "project-a" ∈ names ∧ "project-b" ∈ names ∧ length names = 2%nat.
Proof.
  eexists. split; [vm_compute; reflexivity|].
  split; [|split];
    [apply (bool_decide_unpack _); vm_compute; exact I
    |apply (bool_decide_unpack _); vm_compute; exact I
    |reflexivity].
Qed.

Example test_active_projects_only :
  let w1 := (createProject "paused-project"
               (createProject "active-project" empty_store).2) in
  match w1.1 with
  | Returned paused =>
      let paused := {| project := project paused; pstatus := p_paused;
                       created := created paused; updated := updated paused;
                       tasks := tasks paused |} in
      project <$> default [] (match (getActiveProjects (saveProject paused w1.2).2).1 with
                              | Returned l => Some l
                              | Thrown _ => None
                              end)
      = ["active-project"]
  | Thrown _ => False
  end.
Proof. vm_compute. reflexivity. Qed.

Example test_missing_project :
  (getProject "does-not-exist" empty_store).1 = Returned None.
Proof. vm_compute. reflexivity. Qed.

Example test_increment_ids :
  id <$> (session "project" [AddTask "Task 1"; AddTask "Task 2"; AddTask "Task 3"]
            empty_store).1
  = ["1"; "2"; "3"].
Proof. vm_compute. reflexivity. Qed.

Example test_update_status :
  (updateTaskStatus "p" "1" in_progress two_tasks).1
  = Returned ({| id := "1"; subject := "first"; status := in_progress;
                 blockedBy := []; blocks := []; notes := "" |}, []).
Proof. vm_compute. reflexivity. Qed.

Example test_unknown_project :
  (updateTaskStatus "nope" "1" completed empty_store).1
  = Thrown (Error "Project 'nope' not found").
Proof. vm_compute. reflexivity. Qed.

Example test_unknown_task :
  (updateTaskStatus "p" "999" completed two_tasks).1
  = Thrown (Error "Task '999' not found in project 'p'").
Proof. vm_compute. reflexivity. Qed.

Example test_set_blocker : stored linked "p" = Some linked_record.
Proof. vm_compute. reflexivity. Qed.

Example test_no_duplicate_blockers :
  stored_tasks (session "p" [SetBlocker "2" "1"; SetBlocker "2" "1"] two_tasks).2 "p"
  = tasks linked_record.
Proof. vm_compute. reflexivity. Qed.

Example test_unblock :
  let r := updateTaskStatus "p" "1" completed linked in
  snd <$> (match r.1 with Returned x => Some x | Thrown _ => None end) = Some ["2"]
  ∧ (λ t, (status t, blockedBy t)) <$> stored_tasks r.2 "p"
    = [(completed, []); (pending, [])].
Proof. split; vm_compute; reflexivity. Qed.

Example test_other_blockers_remain :
  let w := (session "p" [AddTask "third"; SetBlocker "3" "1"; SetBlocker "3" "2"]
              two_tasks).2 in
  let r := updateTaskStatus "p" "1" completed w in
  snd <$> (match r.1 with Returned x => Some x | Thrown _ => None end) = Some []
  ∧ (λ t, (status t, blockedBy t)) <$> stored_tasks r.2 "p" !! 2%nat
    = Some (blocked, ["2"]).
Proof. split; vm_compute; reflexivity. Qed.

Example test_chain :
  let w := (session "p" [AddTask "third"; SetBlocker "2" "1"; SetBlocker "3" "2"]
              two_tasks).2 in
  let r1 := updateTaskStatus "p" "1" completed w in
  let r2 := updateTaskStatus "p" "2" completed r1.2 in
  snd <$> (match r1.1 with Returned x => Some x | Thrown _ => None end) = Some ["2"]
  ∧ snd <$> (match r2.1 with Returned x => Some x | Thrown _ => None end) = Some ["3"]
  ∧ status <$> stored_tasks r2.2 "p" = [completed; completed; pending].
Proof. repeat split; vm_compute; reflexivity. Qed.

Example test_notes :
  notes <$> stored_tasks (session "p" [UpdateTaskNotes "1" "Some notes here"] two_tasks).2 "p"
  = ["Some notes here"; ""].
Proof. vm_compute. reflexivity. Qed.

Example test_notes_unknown_task :
  (updateTaskNotes "p" "999" "notes" two_tasks).1
  = Thrown (Error "Task '999' not found").
Proof. vm_compute. reflexivity. Qed.

(** ** The store *)

Lemma length_app_string (p s : string) :
  String.length (p +:+ s) = (String.length p + String.length s)%nat.
Proof. induction p as [|a p IH]; simpl; [reflexivity | now rewrite IH]. Qed.

Lemma app_inj_r (s p q : string) : p +:+ s = q +:+ s → p = q.
Proof.
  intros H.
  assert (L : String.length p = String.length q).
  { apply (f_equal String.length) in H. rewrite !length_app_string in H. lia. }
  revert q H L. induction p as [|a p IH]; intros [|b q] H L; simpl in *;
    try discriminate; [reflexivity|].
  injection H as -> H. f_equal. apply IH; [exact H | lia].
Qed.

Lemma getProject_run p w : getProject p w = (Returned (stored w p), w).
Proof.
  unfold stored, getProject, try_catch, bind, readFileSync, projectPath; simpl.
  destruct (tasksDir w) as [d|]; simpl; [|reflexivity].
  destruct (d !! (p +:+ ".json")) as [[c|]|]; simpl; try reflexivity.
  destruct c; reflexivity.
Qed.

Lemma stored_lookup w p :
  stored w p =
  match tasksDir w with
  | Some d => match d !! (p +:+ ".json") with
              | Some (File (Json v)) => v
              | _ => None
              end
  | None => None
  end.
Proof.
  unfold stored, getProject, try_catch, bind, readFileSync, projectPath; simpl.
  destruct (tasksDir w) as [d|]; simpl; [|reflexivity].
  destruct (d !! (p +:+ ".json")) as [[c|]|]; simpl; try reflexivity.
  destruct c; reflexivity.
Qed.

Lemma stored_Some w p data :
  stored w p = Some data →
  ∃ d, tasksDir w = Some d ∧ d !! (p +:+ ".json") = Some (File (Json (Some data))).
Proof.
  rewrite stored_lookup. destruct (tasksDir w) as [d|]; [|discriminate].
  destruct (d !! (p +:+ ".json")) as [[[s|v]|]|] eqn:E; try discriminate.
  intros ->. exists d. split; [reflexivity | exact E].
Qed.

Lemma stored_same_dir w1 w2 q : tasksDir w1 = tasksDir w2 → stored w1 q = stored w2 q.
Proof. intros H. rewrite !stored_lookup, H. reflexivity. Qed.

Lemma saveProject_cases data w :
  saveProject data w =
  match tasksDir w with
  | Some d =>
      match d !! (project data +:+ ".json") with
      | Some Directory => (Thrown SystemError, tick w)
      | _ => (Returned (set_updated (clock w (ticks w)) data),
              written (set_updated (clock w (ticks w)) data) d w)
      end
  | None => (Thrown SystemError, tick w)
  end.
Proof.
  unfold saveProject, bind, today, writeFileSync, projectPath, written, tick; simpl.
  destruct (tasksDir w) as [d|]; [|reflexivity].
  destruct (d !! (project data +:+ ".json")) as [[c|]|]; reflexivity.
Qed.

Lemma saveProject_run w data d :
  tasksDir w = Some d →
  d !! (project data +:+ ".json") ≠ Some Directory →
  saveProject data w =
    (Returned (set_updated (clock w (ticks w)) data),
     written (set_updated (clock w (ticks w)) data) d w).
Proof.
  intros Hd Hn.
  unfold saveProject, bind, today, writeFileSync, projectPath, written; simpl.
  rewrite Hd.
  destruct (d !! (project data +:+ ".json")) as [[c|]|] eqn:E; try reflexivity.
  contradiction.
Qed.

Lemma stored_written data d w q :
  stored (written data d w) q =
  if decide (q = project data) then Some data else
    match d !! (q +:+ ".json") with
    | Some (File (Json v)) => v
    | _ => None
    end.
Proof.
  rewrite stored_lookup. unfold written; simpl.
  destruct (decide (q = project data)) as [->|Hne].
  - rewrite lookup_insert_eq. reflexivity.
  - rewrite lookup_insert_ne; [reflexivity|].
    intros H. apply Hne. symmetry. exact (app_inj_r _ _ _ H).
Qed.

Lemma stored_written_same data d w p :
  project data = p → stored (written data d w) p = Some data.
Proof. intros <-. rewrite stored_written, decide_True; reflexivity. Qed.

Lemma stored_written_other data d w q :
  tasksDir w = Some d → q ≠ project data → stored (written data d w) q = stored w q.
Proof.
  intros Hd Hq. rewrite stored_written, decide_False by exact Hq.
  rewrite stored_lookup, Hd. reflexivity.
Qed.

(** Saving over a record that is stored. *)
Lemma saveProject_over w data old :
  stored w (project data) = Some old →
  ∃ d, tasksDir w = Some d ∧
  saveProject data w =
    (Returned (set_updated (clock w (ticks w)) data),
     written (set_updated (clock w (ticks w)) data) d w).
Proof.
  intros H. destruct (stored_Some _ _ _ H) as (d & Hd & Hl).
  exists d. split; [exact Hd|].
  apply saveProject_run; [exact Hd|]. rewrite Hl. discriminate.
Qed.

Lemma set_tasks_same data : set_tasks (tasks data) data = data.
Proof. destruct data; reflexivity. Qed.

Lemma consistent_written data d w p : project data = p → consistent (written data d w) p.
Proof.
  intros Hp data' Hs. rewrite (stored_written_same _ _ _ _ Hp) in Hs.
  injection Hs as <-. exact Hp.
Qed.

Lemma stored_tasks_written data d w p :
  project data = p → stored_tasks (written data d w) p = tasks data.
Proof. intros Hp. unfold stored_tasks. now rewrite (stored_written_same _ _ _ _ Hp). Qed.

Lemma mapM_getProject names w :
  mapM getProject names w = (Returned (stored w <$> names), w).
Proof.
  induction names as [|n names IH]; simpl; [reflexivity|].
  unfold bind. rewrite getProject_run.
  unfold bind in IH. rewrite IH. reflexivity.
Qed.

(** ** Tasks in memory *)

Lemma includes_true x l : includes x l = true ↔ x ∈ l.
Proof. unfold includes. apply bool_decide_eq_true. Qed.

Lemma includes_false x l : includes x l = false ↔ x ∉ l.
Proof. unfold includes. apply bool_decide_eq_false. Qed.

Lemma if_negb_includes {A} x l (a b : A) :
  (if negb (includes x l) then a else b) = (if decide (x ∉ l) then a else b).
Proof.
  destruct (includes x l) eqn:E; simpl.
  - apply includes_true in E. rewrite decide_False; [reflexivity|]. intros H; contradiction.
  - apply includes_false in E. rewrite decide_True; [reflexivity | exact E].
Qed.

Lemma find_Some t ts i x :
  find t ts = Some (i, x) ↔
  ts !! i = Some x ∧ id x = t ∧ ∀ j y, ts !! j = Some y → (j < i)%nat → id y ≠ t.
Proof. unfold find. exact (list_find_Some (λ y, id y = t) ts i x). Qed.

Lemma find_None t ts : find t ts = None ↔ ∀ x, x ∈ ts → id x ≠ t.
Proof.
  unfold find. rewrite (list_find_None (λ y, id y = t) ts), Forall_forall.
  reflexivity.
Qed.

Lemma find_app_old t ts new i x :
  find t ts = Some (i, x) → find t (ts ++ new) = Some (i, x).
Proof. unfold find. apply list_find_app_l. Qed.

Lemma ids_lookup (ts ts' : list Task) (k : nat) :
  id <$> ts' = id <$> ts → id <$> (ts' !! k) = id <$> (ts !! k).
Proof. intros H. rewrite <- !list_lookup_fmap, H. reflexivity. Qed.

Lemma lookup_same_ids (ts ts' : list Task) k x' :
  id <$> ts' = id <$> ts → ts' !! k = Some x' →
  ∃ x, ts !! k = Some x ∧ id x = id x'.
Proof.
  intros Hids Hk. pose proof (ids_lookup _ _ k Hids) as E.
  rewrite Hk in E. simpl in E.
  destruct (ts !! k) as [x|]; [|discriminate]. injection E as E. eauto.
Qed.

(** Where the ids are the same, [find] finds the same place. *)
Lemma find_same_ids ts ts' t i x :
  id <$> ts' = id <$> ts →
  find t ts = Some (i, x) →
  ∃ x', ts' !! i = Some x' ∧ find t ts' = Some (i, x').
Proof.
  intros Hids (Hi & Hx & Hlt)%find_Some.
  pose proof (ids_lookup _ _ i Hids) as E. rewrite Hi in E. simpl in E.
  destruct (ts' !! i) as [x'|] eqn:Hi'; [|discriminate].
  injection E as E. exists x'. split; [reflexivity|].
  apply find_Some. split; [exact Hi'|]. split; [congruence|].
  intros k y Hk Hki.
  pose proof (ids_lookup _ _ k Hids) as E'. rewrite Hk in E'. simpl in E'.
  destruct (ts !! k) as [y0|] eqn:Hk0; [|discriminate].
  injection E' as E'. rewrite E'. exact (Hlt k y0 Hk0 Hki).
Qed.

Lemma ids_imap (f : nat → Task → Task) ts :
  (∀ k x, id (f k x) = id x) → id <$> imap f ts = id <$> ts.
Proof.
  intros Hf. apply list_eq. intros k.
  rewrite !list_lookup_fmap, list_lookup_imap.
  destruct (ts !! k); simpl; [|reflexivity]. now rewrite Hf.
Qed.

Lemma ids_insert (ts : list Task) i x x' :
  ts !! i = Some x → id x' = id x → id <$> <[i := x']> ts = id <$> ts.
Proof.
  intros Hi Hid. rewrite list_fmap_insert. apply list_insert_id.
  rewrite list_lookup_fmap, Hi, Hid. reflexivity.
Qed.

Lemma insert_pointwise (ts : list Task) i task (f : Task → Task) k x x' :
  ts !! i = Some task → ts !! k = Some x → <[i := f task]> ts !! k = Some x' →
  x' = f x ∧ k = i ∨ x' = x.
Proof.
  intros Hi Hk Hk'. rewrite list_lookup_insert in Hk'.
  destruct (decide (i = k ∧ (i < length ts)%nat)) as [[<- _]|_].
  - left. rewrite Hi in Hk. injection Hk as <-. injection Hk' as <-. auto.
  - right. congruence.
Qed.

Lemma relax_id t x : id (relax t x) = id x.
Proof. unfold relax. destruct (decide _); reflexivity. Qed.

Lemma relax_untouched t x : t ∉ blockedBy x → relax t x = x.
Proof.
  intros H. unfold relax.
  assert (F : filter (λ id, id ≠ t) (blockedBy x) = blockedBy x).
  { induction (blockedBy x) as [|a l IH]; [reflexivity|].
    rewrite not_elem_of_cons in H. destruct H as [Ha Hl].
    rewrite filter_cons_True by congruence. f_equal. apply IH, Hl. }
  rewrite F. destruct (decide (unblocks t x)) as [[Hin _]|_]; [contradiction|].
  destruct x; reflexivity.
Qed.

Lemma relax_fields t x :
  id (relax t x) = id x ∧ subject (relax t x) = subject x ∧
  notes (relax t x) = notes x ∧ blocks (relax t x) = blocks x ∧
  blockedBy (relax t x) = filter (λ id, id ≠ t) (blockedBy x) ∧
  status (relax t x) = (if decide (unblocks t x) then pending else status x).
Proof. unfold relax. destruct (decide (unblocks t x)); repeat split. Qed.

Lemma cascade_map t ts u :
  cascade t ts u = (relax t <$> ts, u ++ (id <$> filter (unblocks t) ts)).
Proof.
  revert u. induction ts as [|x ts IH]; intros u; simpl.
  - rewrite app_nil_r. reflexivity.
  - destruct (includes t (blockedBy x)) eqn:Hin.
    + apply includes_true in Hin.
      destruct (decide (unblocks t x)) as [U|U].
      * assert (U' := U). destruct U' as (_ & Hf & Hst).
        rewrite Hf, Hst. simpl. rewrite IH.
        rewrite filter_cons_True by exact U.
        unfold relax. rewrite decide_True by exact U. rewrite Hf.
        rewrite fmap_cons, <- app_assoc. reflexivity.
      * rewrite filter_cons_False by exact U.
        unfold relax at 1. rewrite decide_False by exact U.
        assert (E : (length (filter (λ id, id ≠ t) (blockedBy x)) =? 0)%nat
                    && bool_decide (status x = blocked) = false).
        { apply andb_false_iff.
          destruct (filter (λ id, id ≠ t) (blockedBy x)) eqn:F; simpl.
          - right. apply bool_decide_eq_false. intros Hst. apply U.
            split; [exact Hin|]. split; [exact F | exact Hst].
          - left. reflexivity. }
        rewrite E, IH. reflexivity.
    + apply includes_false in Hin. rewrite IH.
      rewrite filter_cons_False by (intros [H _]; contradiction).
      rewrite relax_untouched by exact Hin. reflexivity.
Qed.

Lemma change_status_eq i task t st ts :
  change_status i task t st ts =
  let ts1 := <[i := set_status st task]> ts in
  if decide (st = completed)
  then (relax t <$> ts1, id <$> filter (unblocks t) ts1)
  else (ts1, []).
Proof.
  unfold change_status. simpl. destruct (decide (st = completed)); [|reflexivity].
  rewrite cascade_map. reflexivity.
Qed.

Lemma ids_change_status i task t st ts :
  ts !! i = Some task → id <$> (change_status i task t st ts).1 = id <$> ts.
Proof.
  intros Hi. rewrite change_status_eq. cbv zeta.
  destruct (decide (st = completed)); cbn [fst].
  - rewrite <- list_fmap_compose.
    rewrite (list_fmap_ext (id ∘ relax t) id) by (intros ? x _; apply relax_id).
    apply (ids_insert _ _ task); [exact Hi | reflexivity].
  - apply (ids_insert _ _ task); [exact Hi | reflexivity].
Qed.

(** An assignment to the element at [i], made under a condition on that
    element, as a map over the positions. *)
Lemma guarded_insert_imap (P : Task → Prop) `{!∀ x, Decision (P x)}
    (g : Task → Task) (i : nat) (l : list Task) :
  match l !! i with
  | Some x => if decide (P x) then <[i := g x]> l else l
  | None => l
  end = imap (λ k y, if decide (k = i ∧ P y) then g y else y) l.
Proof.
  apply list_eq. intros k. rewrite list_lookup_imap.
  destruct (l !! i) as [x|] eqn:Hi.
  - destruct (decide (P x)) as [HP|HP].
    + rewrite list_lookup_insert.
      destruct (decide (i = k ∧ (i < length l)%nat)) as [[<- _]|Hne].
      * rewrite Hi. simpl. rewrite decide_True; [reflexivity|]. split; [reflexivity|exact HP].
      * destruct (l !! k) as [y|] eqn:Hk; simpl; [|reflexivity].
        rewrite decide_False; [reflexivity|]. intros [-> _]. apply Hne.
        split; [reflexivity|]. exact (lookup_lt_Some _ _ _ Hi).
    + destruct (l !! k) as [y|] eqn:Hk; simpl; [|reflexivity].
      rewrite decide_False; [reflexivity|]. intros [-> HP'].
      rewrite Hi in Hk. injection Hk as <-. contradiction.
  - destruct (l !! k) as [y|] eqn:Hk; simpl; [|reflexivity].
    rewrite decide_False; [reflexivity|]. intros [-> _]. rewrite Hi in Hk. discriminate.
Qed.

Lemma link_imap i task j t b ts :
  ts !! i = Some task →
  link i task j t b ts = imap (link_at i j t b) ts.
Proof.
  intros Hi. unfold link.
  rewrite if_negb_includes.
  pose proof (guarded_insert_imap (λ x, b ∉ blockedBy x)
    (λ x, set_status blocked (set_blockedBy (blockedBy x ++ [b]) x)) i ts) as E1.
  rewrite Hi in E1. cbv beta in E1. rewrite E1. clear E1.
  set (ts1 := imap _ ts).
  pose proof (guarded_insert_imap (λ x, t ∉ blocks x)
    (λ x, set_blocks (blocks x ++ [t]) x) j ts1) as E2.
  cbv beta in E2.
  assert (E3 : match ts1 !! j with
               | Some blocker =>
                   if negb (includes t (blocks blocker))
                   then <[j:=set_blocks (blocks blocker ++ [t]) blocker]> ts1
                   else ts1
               | None => ts1
               end =
               match ts1 !! j with
               | Some x => if decide (t ∉ blocks x)
                           then <[j:=set_blocks (blocks x ++ [t]) x]> ts1 else ts1
               | None => ts1
               end).
  { destruct (ts1 !! j); [|reflexivity]. apply if_negb_includes. }
  rewrite E3, E2. clear E2 E3. subst ts1.
  apply list_eq. intros k. rewrite !list_lookup_imap.
  destruct (ts !! k) as [x|]; reflexivity.
Qed.

Lemma link_at_id i j t b k x : id (link_at i j t b k x) = id x.
Proof. unfold link_at. repeat destruct (decide _); reflexivity. Qed.

Lemma link_at_blockedBy i j t b k x :
  blockedBy (link_at i j t b k x) =
  if decide (k = i ∧ b ∉ blockedBy x) then blockedBy x ++ [b] else blockedBy x.
Proof. unfold link_at. repeat destruct (decide _); reflexivity. Qed.

Lemma link_at_status i j t b k x :
  status (link_at i j t b k x) =
  if decide (k = i ∧ b ∉ blockedBy x) then blocked else status x.
Proof. unfold link_at. repeat destruct (decide _); reflexivity. Qed.

Lemma link_at_blocks i j t b k x :
  blocks (link_at i j t b k x) =
  if decide (k = j ∧ t ∉ blocks x) then blocks x ++ [t] else blocks x.
Proof.
  unfold link_at.
  destruct (decide (k = i ∧ b ∉ blockedBy x)); simpl;
    destruct (decide (k = j ∧ t ∉ blocks x)); reflexivity.
Qed.

Lemma ids_link i task j t b ts :
  ts !! i = Some task → id <$> link i task j t b ts = id <$> ts.
Proof.
  intros Hi. rewrite (link_imap _ _ _ _ _ _ Hi).
  apply ids_imap. intros. apply link_at_id.
Qed.

(** The tasks after [link], on two tasks that are found. *)
Lemma link_effect ts t b i task j blocker :
  find t ts = Some (i, task) →
  find b ts = Some (j, blocker) →
  ∃ task' blocker',
    id <$> link i task j t b ts = id <$> ts ∧
    link i task j t b ts !! i = Some task' ∧
    link i task j t b ts !! j = Some blocker' ∧
    find t (link i task j t b ts) = Some (i, task') ∧
    find b (link i task j t b ts) = Some (j, blocker') ∧
    b ∈ blockedBy task' ∧
    t ∈ blocks blocker' ∧
    (b ∉ blockedBy task → status task' = blocked) ∧
    (b ∈ blockedBy task → status task' = status task).
Proof.
  intros Ht Hb.
  pose proof (proj1 (find_Some _ _ _ _) Ht) as (Hi & _ & _).
  pose proof (proj1 (find_Some _ _ _ _) Hb) as (Hj & _ & _).
  pose proof (ids_link i task j t b _ Hi) as Hids.
  destruct (find_same_ids _ _ _ _ _ Hids Ht) as (task' & Hi' & Ht').
  destruct (find_same_ids _ _ _ _ _ Hids Hb) as (blocker' & Hj' & Hb').
  exists task', blocker'.
  split; [exact Hids|].
  split; [exact Hi'|]. split; [exact Hj'|].
  split; [exact Ht'|]. split; [exact Hb'|].
  rewrite (link_imap _ _ _ _ _ _ Hi), list_lookup_imap in Hi', Hj'.
  rewrite Hi in Hi'. rewrite Hj in Hj'. simpl in Hi', Hj'.
  injection Hi' as <-. injection Hj' as <-.
  rewrite link_at_blockedBy, link_at_blocks, link_at_status.
  split; [|split; [|split]].
  - destruct (decide _) as [_|Hn]; [set_solver|].
    destruct (decide (b ∈ blockedBy task)) as [Hin|Hout]; [exact Hin|].
    exfalso. apply Hn. split; [reflexivity | exact Hout].
  - destruct (decide _) as [_|Hn]; [set_solver|].
    destruct (decide (t ∈ blocks blocker)) as [Hin|Hout]; [exact Hin|].
    exfalso. apply Hn. split; [reflexivity | exact Hout].
  - intros Hout. rewrite decide_True; [reflexivity|]. split; [reflexivity | exact Hout].
  - intros Hin. rewrite decide_False; [reflexivity|]. intros [_ Hout]. contradiction.
Qed.


(** ** Numbers and their decimal strings *)

Lemma code_char_of z : 0 <= z < 256 → code (char_of z) = z.
Proof.
  intros H. unfold code, char_of. rewrite N_ascii_embedding; lia.
Qed.

Lemma digit_value_char d :
  0 <= d <= 9 → digit_value 10 (char_of (48 + d)) = Some d.
Proof.
  intros H. unfold digit_value. rewrite code_char_of by lia.
  replace ((48 <=? 48 + d) && (48 + d <=? 57)) with true.
  - f_equal. lia.
  - symmetry. apply andb_true_iff. split; apply Z.leb_le; lia.
Qed.

Lemma is_digit_char d : 0 <= d <= 9 → is_digit (char_of (48 + d)).
Proof. intros H. unfold is_digit. rewrite code_char_of; lia. Qed.

Lemma read_digits_dec_go f n acc a0 :
  0 <= n < 10 ^ Z.of_nat (S f) →
  ∃ p, 0 < p ∧
    read_digits 10 (dec_go f n acc) a0 =
    read_digits 10 acc (Some (default 0 a0 * p + n)).
Proof.
  revert n acc. induction f as [|f IH]; intros n acc Hn.
  - simpl in Hn. exists 10. split; [lia|].
    cbn [dec_go read_digits]. rewrite Z.mod_small by lia.
    rewrite digit_value_char by lia. do 2 f_equal. lia.
  - cbn [dec_go]. destruct (n <? 10) eqn:E.
    + apply Z.ltb_lt in E. exists 10. split; [lia|].
      cbn [read_digits]. rewrite Z.mod_small by lia.
      rewrite digit_value_char by lia. do 2 f_equal. lia.
    + apply Z.ltb_ge in E.
      destruct (IH (n / 10) (String (char_of (48 + n mod 10)) acc)) as (p & Hp & Hr).
      { split; [apply Z.div_pos; lia|].
        apply Z.div_lt_upper_bound; [lia|].
        replace (Z.of_nat (S (S f))) with (1 + Z.of_nat (S f)) in Hn by lia.
        rewrite Z.pow_add_r in Hn by lia. lia. }
      exists (10 * p). split; [lia|].
      rewrite Hr. cbn [read_digits].
      rewrite digit_value_char by (pose proof (Z.mod_pos_bound n 10); lia).
      do 2 f_equal. cbn [default from_option]. unfold Datatypes.id.
      pose proof (Z.div_mod n 10 ltac:(lia)). nia.
Qed.

Lemma dec_fuel n : 0 <= n → n < 10 ^ Z.of_nat (S (Z.to_nat (Z.log2 n))).
Proof.
  intros H.
  destruct (Z.eq_dec n 0) as [->|Hn0]; [reflexivity|].
  assert (Hlog := Z.log2_nonneg n).
  pose proof (Z.log2_spec n ltac:(lia)) as [_ Hlt].
  rewrite Nat2Z.inj_succ, Z2Nat.id by lia.
  eapply Z.lt_le_trans; [exact Hlt|].
  apply Z.pow_le_mono_l. lia.
Qed.

Lemma read_digits_dec n : 0 <= n → read_digits 10 (dec n) None = Some n.
Proof.
  intros H. unfold dec.
  destruct (read_digits_dec_go (Z.to_nat (Z.log2 n)) n "" None) as (p & _ & E).
  { split; [exact H | apply dec_fuel; exact H]. }
  rewrite E. reflexivity.
Qed.

Lemma all_digits_dec_go f n acc :
  0 <= n → all_digits acc → all_digits (dec_go f n acc).
Proof.
  revert n acc. induction f as [|f IH]; intros n acc Hn Hacc; cbn [dec_go].
  - split; [|exact Hacc]. apply is_digit_char.
    pose proof (Z.mod_pos_bound n 10). lia.
  - assert (Hd : is_digit (char_of (48 + n mod 10))).
    { apply is_digit_char. pose proof (Z.mod_pos_bound n 10). lia. }
    destruct (n <? 10); [split; assumption|].
    apply IH; [apply Z.div_pos; lia | split; assumption].
Qed.

Lemma dec_go_nonempty f n acc : dec_go f n acc ≠ "".
Proof.
  revert n acc. induction f as [|f IH]; intros n acc; cbn [dec_go]; [discriminate|].
  destruct (n <? 10); [discriminate | apply IH].
Qed.

Lemma is_digit_cases a :
  is_digit a →
  (a = "0" ∨ a = "1" ∨ a = "2" ∨ a = "3" ∨ a = "4" ∨ a = "5" ∨ a = "6"
   ∨ a = "7" ∨ a = "8" ∨ a = "9")%char.
Proof.
  unfold is_digit, code. intros H.
  rewrite <- (ascii_N_embedding a).
  assert (C : (N_of_ascii a = 48 ∨ N_of_ascii a = 49 ∨ N_of_ascii a = 50
               ∨ N_of_ascii a = 51 ∨ N_of_ascii a = 52 ∨ N_of_ascii a = 53
               ∨ N_of_ascii a = 54 ∨ N_of_ascii a = 55 ∨ N_of_ascii a = 56
               ∨ N_of_ascii a = 57)%N) by lia.
  repeat (destruct C as [C | C]; [rewrite C; vm_compute; auto 12|]).
  rewrite C; vm_compute; auto 12.
Qed.

(** On a non-empty string of digits [parseInteger] reads the whole string
    in radix 10. *)
Lemma parseInteger_digits s :
  s ≠ "" → all_digits s →
  parseInteger s =
  match read_digits 10 s None with None => None | Some m => Some m end.
Proof.
  destruct s as [|a rest]; [congruence|]. intros _ [Ha Hrest].
  apply is_digit_cases in Ha.
  assert (Hx : ∀ x r, rest = String x r →
               bool_decide (x = "x"%char ∨ x = "X"%char) = false).
  { intros x r ->. destruct Hrest as [Hx _]. apply bool_decide_eq_false.
    unfold is_digit in Hx. intros [->| ->]; vm_compute in Hx; destruct Hx; congruence. }
  unfold parseInteger.
  destruct Ha as [->|Ha].
  { destruct rest as [|x r]; [reflexivity|].
    pose proof (Hx x r eq_refl) as Hx'.
    destruct r as [|y r]; simpl trimStart; cbv iota beta; rewrite Hx'; reflexivity. }
  repeat (destruct Ha as [->|Ha]; [destruct rest as [|x [|y r]]; reflexivity|]).
  subst a. destruct rest as [|x [|y r]]; reflexivity.
Qed.

Lemma parseInteger_dec n : 0 <= n → parseInteger (dec n) = Some n.
Proof.
  intros H. rewrite parseInteger_digits.
  - rewrite read_digits_dec by exact H. reflexivity.
  - apply dec_go_nonempty.
  - apply all_digits_dec_go; [exact H | exact I].
Qed.

Lemma round_nat_safe z : 0 <= z <= 2 ^ 53 → round_nat z = Some z.
Proof.
  intros H. unfold round_nat. destruct (z <? 2 ^ 53) eqn:E; [reflexivity|].
  apply Z.ltb_ge in E. assert (z = 2 ^ 53) as -> by lia. reflexivity.
Qed.

Lemma round_nat_nonneg z v : 0 <= z → round_nat z = Some v → 0 <= v.
Proof.
  intros H. unfold round_nat. destruct (z <? 2 ^ 53); [intros [= <-]; exact H|].
  cbv zeta. destruct (_ <? 2 ^ 1024); [|discriminate]. intros [= <-].
  apply Z.mul_nonneg_nonneg; [|apply Z.pow_nonneg; lia].
  assert (Q : 0 <= z / 2 ^ (Z.log2 z - 52)).
  { destruct (Z.le_gt_cases 0 (Z.log2 z - 52)).
    - apply Z.div_pos; [exact H|]. apply Z.pow_pos_nonneg; lia.
    - rewrite Z.pow_neg_r by lia. rewrite Z.div_0_r. lia. }
  repeat destruct (_ <? _); try destruct (Z.even _); lia.
Qed.

Lemma toNumber_safe z : - 2 ^ 53 <= z <= 2 ^ 53 → toNumber z = Num z.
Proof.
  intros H. unfold toNumber. rewrite round_nat_safe by lia.
  destruct (z <? 0) eqn:E; f_equal; lia.
Qed.

Lemma toNumber_negative z :
  z < 0 → (∃ v, toNumber z = Num v ∧ v <= 0) ∨ toNumber z = Infinity true.
Proof.
  intros H. unfold toNumber.
  assert (E : (z <? 0) = true) by (apply Z.ltb_lt; exact H). rewrite E.
  destruct (round_nat (Z.abs z)) as [v|] eqn:R; [left | right; reflexivity].
  exists (- v). split; [reflexivity|].
  pose proof (round_nat_nonneg _ _ (Z.abs_nonneg z) R). lia.
Qed.

Lemma exact_max_from a ts :
  a <= fold_left (λ max t, Z.max max (default 0 (parseInteger (id t)))) ts a.
Proof.
  revert a. induction ts as [|t ts IH]; intros a; simpl; [lia|].
  etransitivity; [|apply IH]. lia.
Qed.

(** While the ids read as integers stay below 2^53, the [reduce] of
    [addTask] computes their exact maximum. *)
Lemma maxId_from a ts :
  0 <= a →
  fold_left (λ max t, Z.max max (default 0 (parseInteger (id t)))) ts a < 2 ^ 53 →
  fold_left (λ max t, Math_max max (or_else (parseInt (id t)) (Num 0))) ts (Num a)
  = Num (fold_left (λ max t, Z.max max (default 0 (parseInteger (id t)))) ts a).
Proof.
  revert a. induction ts as [|t ts IH]; intros a Ha Hlt; cbn [fold_left] in *;
    [reflexivity|].
  pose proof (exact_max_from (a `max` default 0 (parseInteger (id t))) ts) as Hle.
  assert (E : Math_max (Num a) (or_else (parseInt (id t)) (Num 0))
              = Num (a `max` default 0 (parseInteger (id t)))).
  { unfold parseInt. destruct (parseInteger (id t)) as [z|].
    2:{ change (default 0 None) with 0. simpl. f_equal; lia. }
    change (default 0 (Some z)) with z in *.
    destruct (Z.lt_ge_cases z 0) as [Hz|Hz].
    - destruct (toNumber_negative z Hz) as [(v & -> & Hv)| ->].
      + unfold or_else, truthy. destruct (v =? 0) eqn:V; simpl; f_equal; lia.
      + simpl. f_equal; lia.
    - rewrite toNumber_safe by lia.
      unfold or_else, truthy. destruct (z =? 0) eqn:V; simpl; f_equal; lia. }
  rewrite E. apply IH; [lia | exact Hlt].
Qed.

Lemma exact_max_nonneg ts : 0 <= exact_max ts.
Proof. apply exact_max_from. Qed.

Lemma maxId_exact ts : exact_max ts < 2 ^ 53 → maxId ts = Num (exact_max ts).
Proof. intros H. apply maxId_from; [lia | exact H]. Qed.

Lemma exact_max_bound_from a ts t :
  t ∈ ts →
  default 0 (parseInteger (id t))
  <= fold_left (λ max t, Z.max max (default 0 (parseInteger (id t)))) ts a.
Proof.
  revert a. induction ts as [|x ts IH]; intros a Hin; [inversion Hin|].
  apply elem_of_cons in Hin as [->|Hin]; simpl.
  - etransitivity; [|apply exact_max_from]. lia.
  - apply IH, Hin.
Qed.

Lemma exact_max_bound ts t :
  t ∈ ts → default 0 (parseInteger (id t)) <= exact_max ts.
Proof. apply exact_max_bound_from. Qed.

(** Below 2^53 the new task has the id of the specification. *)
Lemma new_task_id ts subject :
  exact_max ts < 2 ^ 53 → id (new_task ts subject) = next_id ts.
Proof.
  intros H. unfold new_task, next_id. cbn [id].
  rewrite maxId_exact by exact H. pose proof (exact_max_nonneg ts) as Hn.
  cbn [number_add]. rewrite toNumber_safe by lia.
  unfold Number_toString, positive_toString.
  replace (exact_max ts + 1 <? 0) with false by (symmetry; apply Z.ltb_ge; lia).
  replace (exact_max ts + 1 <=? 2 ^ 53) with true by (symmetry; apply Z.leb_le; lia).
  f_equal. lia.
Qed.

(** The id of the specification is the id of no task. *)
Lemma next_id_fresh ts t : t ∈ ts → id t ≠ next_id ts.
Proof.
  intros Hin E. pose proof (exact_max_bound ts t Hin) as Hle.
  unfold next_id in E. rewrite E in Hle.
  rewrite parseInteger_dec in Hle by (pose proof (exact_max_nonneg ts); lia).
  simpl in Hle. lia.
Qed.

Lemma exact_max_fold a ts :
  fold_left (λ max t, Z.max max (default 0 (parseInteger (id t)))) ts a
  = fold_left (λ max s, Z.max max (default 0 (parseInteger s))) (id <$> ts) a.
Proof.
  revert a. induction ts as [|t ts IH]; intros a; [reflexivity|].
  cbn [fold_left fmap list_fmap]. apply IH.
Qed.

Lemma exact_max_ids ts ts' : id <$> ts' = id <$> ts → exact_max ts' = exact_max ts.
Proof. intros H. unfold exact_max. rewrite !exact_max_fold, H. reflexivity. Qed.

Lemma exact_max_app ts t :
  exact_max (ts ++ [t]) = Z.max (exact_max ts) (default 0 (parseInteger (id t))).
Proof. unfold exact_max. rewrite fold_left_app. reflexivity. Qed.

Lemma exact_max_new ts subject :
  exact_max ts < 2 ^ 53 →
  exact_max (ts ++ [new_task ts subject]) = exact_max ts + 1.
Proof.
  intros H. rewrite exact_max_app, new_task_id by exact H.
  unfold next_id. pose proof (exact_max_nonneg ts).
  rewrite parseInteger_dec by lia. cbn [default from_option]. unfold Datatypes.id. lia.
Qed.

(** ** The operations on a stored project *)

Lemma setBlocker_run w p data t b i task j blocker :
  stored w p = Some data → project data = p →
  find t (tasks data) = Some (i, task) →
  find b (tasks data) = Some (j, blocker) →
  ∃ d, tasksDir w = Some d ∧
  setBlocker p t b w =
    (Returned tt,
     written (set_updated (clock w (ticks w))
                (set_tasks (link i task j t b (tasks data)) data)) d w).
Proof.
  intros Hs Hp Ht Hb.
  destruct (saveProject_over w (set_tasks (link i task j t b (tasks data)) data) data)
    as (d & Hd & Hsave).
  { simpl. rewrite Hp. exact Hs. }
  exists d. split; [exact Hd|].
  unfold setBlocker, bind. rewrite getProject_run, Hs, Ht, Hb.
  rewrite Hsave. reflexivity.
Qed.

Lemma updateTaskStatus_run w p data t st i task :
  stored w p = Some data → project data = p →
  find t (tasks data) = Some (i, task) →
  ∃ d, tasksDir w = Some d ∧
  updateTaskStatus p t st w =
    (Returned (default task ((change_status i task t st (tasks data)).1 !! i),
               (change_status i task t st (tasks data)).2),
     written (set_updated (clock w (ticks w))
                (set_tasks (change_status i task t st (tasks data)).1 data)) d w).
Proof.
  intros Hs Hp Ht.
  destruct (saveProject_over w
              (set_tasks (change_status i task t st (tasks data)).1 data) data)
    as (d & Hd & Hsave).
  { simpl. rewrite Hp. exact Hs. }
  exists d. split; [exact Hd|].
  unfold updateTaskStatus, bind. rewrite getProject_run, Hs, Ht.
  destruct (change_status i task t st (tasks data)) as [ts u]; simpl in *.
  rewrite Hsave. reflexivity.
Qed.

Lemma updateTaskNotes_run w p data t n i task :
  stored w p = Some data → project data = p →
  find t (tasks data) = Some (i, task) →
  ∃ d, tasksDir w = Some d ∧
  updateTaskNotes p t n w =
    (Returned tt,
     written (set_updated (clock w (ticks w))
                (set_tasks (<[i := set_notes n task]> (tasks data)) data)) d w).
Proof.
  intros Hs Hp Ht.
  destruct (saveProject_over w
              (set_tasks (<[i := set_notes n task]> (tasks data)) data) data)
    as (d & Hd & Hsave).
  { simpl. rewrite Hp. exact Hs. }
  exists d. split; [exact Hd|].
  unfold updateTaskNotes, bind. rewrite getProject_run, Hs, Ht.
  rewrite Hsave. reflexivity.
Qed.

Lemma addTask_run w p data subject :
  stored w p = Some data → project data = p →
  ∃ d, tasksDir w = Some d ∧
  addTask p subject w =
    (Returned (new_task (tasks data) subject),
     written (set_updated (clock w (ticks w))
                (set_tasks (tasks data ++ [new_task (tasks data) subject]) data)) d w).
Proof.
  intros Hs Hp.
  destruct (saveProject_over w
              (set_tasks (tasks data ++ [new_task (tasks data) subject]) data) data)
    as (d & Hd & Hsave).
  { simpl. rewrite Hp. exact Hs. }
  exists d. split; [exact Hd|].
  unfold addTask, bind. rewrite getProject_run, Hs. unfold ret at 1.
  rewrite Hsave. reflexivity.
Qed.

(** The effect of [setBlocker] on a stored project. *)
Lemma setBlocker_effect w p data t b i task j blocker :
  stored w p = Some data → project data = p →
  find t (tasks data) = Some (i, task) →
  find b (tasks data) = Some (j, blocker) →
  ∃ d task' blocker',
    tasksDir w = Some d ∧
    setBlocker p t b w =
      (Returned tt,
       written (set_updated (clock w (ticks w))
                  (set_tasks (link i task j t b (tasks data)) data)) d w) ∧
    id <$> link i task j t b (tasks data) = id <$> tasks data ∧
    link i task j t b (tasks data) !! i = Some task' ∧
    link i task j t b (tasks data) !! j = Some blocker' ∧
    find t (link i task j t b (tasks data)) = Some (i, task') ∧
    find b (link i task j t b (tasks data)) = Some (j, blocker') ∧
    b ∈ blockedBy task' ∧
    t ∈ blocks blocker' ∧
    (b ∉ blockedBy task → status task' = blocked) ∧
    (b ∈ blockedBy task → status task' = status task).
Proof.
  intros Hs Hp Ht Hb.
  destruct (setBlocker_run _ _ _ _ _ _ _ _ _ Hs Hp Ht Hb) as (d & Hd & Hrun).
  destruct (link_effect _ _ _ _ _ _ _ Ht Hb) as (task' & blocker' & Heff).
  exists d, task', blocker'. split; [exact Hd|]. split; [exact Hrun | exact Heff].
Qed.

(** The effect of [updateTaskStatus] with [completed] on a stored project. *)
Lemma complete_effect w p data t i task :
  stored w p = Some data → project data = p →
  find t (tasks data) = Some (i, task) →
  ∃ d,
    tasksDir w = Some d ∧
    updateTaskStatus p t completed w =
      (Returned (relax t (set_status completed task),
                 id <$> filter (unblocks t) (<[i := set_status completed task]> (tasks data))),
       written (set_updated (clock w (ticks w))
                  (set_tasks (relax t <$> <[i := set_status completed task]> (tasks data))
                             data)) d w).
Proof.
  intros Hs Hp Ht.
  destruct (updateTaskStatus_run _ _ _ _ completed _ _ Hs Hp Ht) as (d & Hd & Hrun).
  exists d. split; [exact Hd|].
  rewrite change_status_eq in Hrun. cbv zeta in Hrun.
  rewrite decide_True in Hrun by reflexivity. simpl in Hrun.
  pose proof (proj1 (find_Some _ _ _ _) Ht) as (Hi & _ & _).
  rewrite list_lookup_fmap, list_lookup_insert_eq in Hrun
    by exact (lookup_lt_Some _ _ _ Hi).
  exact Hrun.
Qed.

(** The not-found cases of the three mutations. *)
Lemma not_found_runs w p x :
  ¬ resolves w p x →
  ∀ other st n,
    setBlocker p x other w = (Thrown (not_found w p "Task not found"), w) ∧
    setBlocker p other x w = (Thrown (not_found w p "Task not found"), w) ∧
    updateTaskStatus p x st w =
      (Thrown (not_found w p ("Task '" +:+ x +:+ "' not found in project '"
                              +:+ p +:+ "'")), w) ∧
    updateTaskNotes p x n w =
      (Thrown (not_found w p ("Task '" +:+ x +:+ "' not found")), w).
Proof.
  intros Hn other st n.
  unfold setBlocker, updateTaskStatus, updateTaskNotes, bind, not_found.
  rewrite getProject_run.
  destruct (stored w p) as [data|] eqn:Hs.
  - assert (Hx : find x (tasks data) = None).
    { destruct (find x (tasks data)) as [[i t]|] eqn:E; [|reflexivity].
      exfalso. apply Hn. exists data, i, t. split; [exact Hs | exact E]. }
    rewrite Hx. repeat split.
    destruct (find other (tasks data)) as [[? ?]|]; reflexivity.
  - repeat split.
Qed.

Lemma unresolved_cases w p x :
  resolves w p x ∨ ¬ resolves w p x.
Proof.
  unfold resolves. destruct (stored w p) as [data|] eqn:Hs.
  - destruct (find x (tasks data)) as [[i t]|] eqn:E.
    + left. eauto.
    + right. intros (data' & i & t & [= <-] & E'). congruence.
  - right. intros (data' & i & t & H & _). discriminate.
Qed.

(** [createProject] on a name under which nothing is stored. *)
Lemma createProject_cases w p :
  stored w p = None →
  (∃ e w', createProject p w = (Thrown e, w') ∧
           (stored w' p = None ∨
            ∃ data, stored w' p = Some data ∧ project data = p ∧ tasks data = []))
  ∨ (∃ w' data, createProject p w = (Returned data, w') ∧
                stored w' p = Some data ∧ project data = p ∧ tasks data = []).
Proof.
  intros Hs. unfold createProject, bind, today.
  rewrite saveProject_cases. cbn [tasksDir project clock ticks].
  rewrite stored_lookup in Hs.
  destruct (tasksDir w) as [d|] eqn:Hd.
  2:{ left. eexists _, _. split; [reflexivity|]. left.
      rewrite stored_lookup. reflexivity. }
  assert (Hw : ∀ data0 w0, project data0 = p → tasks data0 = [] →
    (∃ e w', (let (o, w') := writeFileSync (planPath p)
                (Plain (planContent p (clock w (ticks w)))) (written data0 d w0) in
              match o with
              | Returned _ => ret data0 w'
              | Thrown e => (Thrown e, w')
              end) = (Thrown e, w') ∧
        (stored w' p = None ∨
         ∃ data, stored w' p = Some data ∧ project data = p ∧ tasks data = []))
    ∨ (∃ w' data, (let (o, w') := writeFileSync (planPath p)
                     (Plain (planContent p (clock w (ticks w)))) (written data0 d w0) in
                   match o with
                   | Returned _ => ret data0 w'
                   | Thrown e => (Thrown e, w')
                   end) = (Returned data, w') ∧
          stored w' p = Some data ∧ project data = p ∧ tasks data = [])).
  { intros data0 w0 Hp Ht.
    assert (S2 : stored (written data0 d w0) p = Some data0)
      by (apply stored_written_same; exact Hp).
    unfold writeFileSync. cbn [planPath fst snd dir_of].
    destruct (plansDir (written data0 d w0)) as [pd|].
    2:{ left. eexists _, _. split; [reflexivity|]. right. eauto. }
    destruct (pd !! (p +:+ ".md")) as [[c|]|].
    2:{ left. eexists _, _. split; [reflexivity|]. right. eauto. }
    all: right; eexists _, data0; (split; [reflexivity|]);
      split; [rewrite <- S2; apply stored_same_dir; reflexivity | auto]. }
  destruct (d !! (p +:+ ".json")) as [[c|]|] eqn:Hl.
  - apply Hw; reflexivity.
  - left. eexists _, _. split; [reflexivity|]. left.
    rewrite stored_lookup. cbn [tasksDir tick]. rewrite Hl. reflexivity.
  - apply Hw; reflexivity.
Qed.

Lemma addTask_absent_eq w p subject :
  stored w p = None →
  addTask p subject w =
  match createProject p w with
  | (Returned data, w') =>
      match saveProject
              (set_tasks (tasks data ++ [new_task (tasks data) subject]) data) w' with
      | (Returned _, w'') => (Returned (new_task (tasks data) subject), w'')
      | (Thrown e, w'') => (Thrown e, w'')
      end
  | (Thrown e, w') => (Thrown e, w')
  end.
Proof.
  intros Hs. unfold addTask, bind. rewrite getProject_run, Hs.
  destruct (createProject p w) as [[data|e] w']; reflexivity.
Qed.

(** [addTask] on a name under which nothing is stored. *)
Lemma addTask_absent w p subject :
  stored w p = None →
  (∃ e w', addTask p subject w = (Thrown e, w') ∧
           (stored w' p = None ∨
            ∃ data, stored w' p = Some data ∧ project data = p ∧ tasks data = []))
  ∨ (∃ w' data, addTask p subject w = (Returned (new_task [] subject), w') ∧
                stored w' p = Some data ∧ project data = p ∧
                tasks data = [new_task [] subject]).
Proof.
  intros Hs. rewrite (addTask_absent_eq w p subject Hs).
  destruct (createProject_cases w p Hs)
    as [(e & w' & -> & Hc) | (w' & data & -> & Hs' & Hp & Ht)].
  - left. eauto.
  - right.
    destruct (saveProject_over w'
                (set_tasks (tasks data ++ [new_task (tasks data) subject]) data)
                data) as (d3 & Hd3 & Hsave).
    { cbn [project set_tasks]. rewrite Hp. exact Hs'. }
    rewrite Hsave. rewrite Ht.
    eexists _, _. split; [reflexivity|].
    split; [apply stored_written_same; exact Hp|].
    split; [exact Hp | reflexivity].
Qed.

(** ** Sessions *)

(** One call of a session, seen on the tasks of the project. *)
Lemma perform_step p c w :
  consistent w p →
  consistent (perform p c w).2 p ∧
  step (stored_tasks w p) c (perform p c w).1 (stored_tasks (perform p c w).2 p).
Proof.
  intros Hc. destruct c as [subject | t st | t b | t n]; cbn [perform].
  - destruct (stored w p) as [data|] eqn:Hs.
    + pose proof (Hc data Hs) as Hp.
      destruct (addTask_run w p data subject Hs Hp) as (d & Hd & ->). cbn [fst snd].
      split; [apply consistent_written; exact Hp|].
      rewrite stored_tasks_written by exact Hp.
      unfold stored_tasks at 1. rewrite Hs. apply step_add.
    + destruct (addTask_absent w p subject Hs)
        as [(e & w' & -> & Hw') | (w' & data & -> & Hs' & Hp & Ht)]; cbn [fst snd].
      * unfold stored_tasks, consistent. rewrite Hs.
        destruct Hw' as [-> | (data & -> & Hp & ->)].
        -- split; [discriminate | apply step_none].
        -- split; [intros ? [= <-]; exact Hp | apply step_none].
      * unfold stored_tasks, consistent. rewrite Hs, Hs', Ht.
        split; [intros ? [= <-]; exact Hp | apply (step_add [])].
  - destruct (unresolved_cases w p t) as [(data & i & task & Hs & Hf) | Hn].
    + pose proof (Hc data Hs) as Hp.
      destruct (updateTaskStatus_run w p data t st i task Hs Hp Hf) as (d & Hd & ->).
      cbn [fst snd]. split; [apply consistent_written; exact Hp|].
      rewrite stored_tasks_written by exact Hp.
      unfold stored_tasks. rewrite Hs. apply step_status. exact Hf.
    + destruct (not_found_runs w p t Hn t st "") as (_ & _ & -> & _). cbn [snd].
      split; [exact Hc | apply step_none].
  - destruct (unresolved_cases w p t) as [(data & i & task & Hs & Hf) | Hn].
    + destruct (unresolved_cases w p b) as [(data' & j & blocker & Hs' & Hf') | Hn].
      * rewrite Hs in Hs'. injection Hs' as <-.
        pose proof (Hc data Hs) as Hp.
        destruct (setBlocker_run w p data t b i task j blocker Hs Hp Hf Hf')
          as (d & Hd & ->).
        cbn [fst snd]. split; [apply consistent_written; exact Hp|].
        rewrite stored_tasks_written by exact Hp.
        unfold stored_tasks. rewrite Hs. apply step_link with blocker; assumption.
      * destruct (not_found_runs w p b Hn t pending "") as (_ & -> & _). cbn [snd].
        split; [exact Hc | apply step_none].
    + destruct (not_found_runs w p t Hn b pending "") as (-> & _). cbn [snd].
      split; [exact Hc | apply step_none].
  - destruct (unresolved_cases w p t) as [(data & i & task & Hs & Hf) | Hn].
    + pose proof (Hc data Hs) as Hp.
      destruct (updateTaskNotes_run w p data t n i task Hs Hp Hf) as (d & Hd & ->).
      cbn [fst snd]. split; [apply consistent_written; exact Hp|].
      rewrite stored_tasks_written by exact Hp.
      unfold stored_tasks. rewrite Hs. apply step_notes. exact Hf.
    + destruct (not_found_runs w p t Hn t pending n) as (_ & _ & _ & ->). cbn [snd].
      split; [exact Hc | apply step_none].
Qed.

Lemma session_cons p c cs w :
  session p (c :: cs) w =
  (match (perform p c w).1 with
   | Some t => t :: (session p cs (perform p c w).2).1
   | None => (session p cs (perform p c w).2).1
   end,
   (session p cs (perform p c w).2).2).
Proof.
  cbn [session]. destruct (perform p c w) as [r w']. cbn [fst snd].
  destruct (session p cs w') as [made w'']. reflexivity.
Qed.

(** A property of the tasks that every call keeps holds after a session. *)
Lemma session_invariant (I : list Task → Prop) (allowed : call → Prop) p :
  (∀ ts c r ts', allowed c → I ts → step ts c r ts' → I ts') →
  ∀ cs w, Forall allowed cs → consistent w p → I (stored_tasks w p) →
  consistent (session p cs w).2 p ∧ I (stored_tasks (session p cs w).2 p).
Proof.
  intros Hstep. induction cs as [|c cs IH]; intros w Hall Hc HI.
  - split; assumption.
  - rewrite session_cons. cbn [snd].
    apply Forall_cons in Hall as [Hc0 Hall].
    destruct (perform_step p c w Hc) as [Hc' Hs].
    apply IH; [exact Hall | exact Hc' |].
    eapply Hstep; eassumption.
Qed.

Lemma step_ids ts c r ts' :
  step ts c r ts' →
  match r with
  | None => id <$> ts' = id <$> ts
  | Some t => ∃ subject, t = new_task ts subject ∧ ts' = ts ++ [t]
  end.
Proof.
  intros Hs. destruct Hs.
  - reflexivity.
  - eauto.
  - apply ids_change_status. apply find_Some in H as (Hi & _). exact Hi.
  - apply ids_link. apply find_Some in H as (Hi & _). exact Hi.
  - apply find_Some in H as (Hi & _). apply (ids_insert _ _ task); [exact Hi | reflexivity].
Qed.

(** The ids given along a session that starts with the greatest id at
    [exact_max] and stays below 2^53. *)
Lemma session_ids p cs w :
  consistent w p →
  exact_max (stored_tasks w p) + Z.of_nat (length cs) <= 2 ^ 53 →
  id <$> stored_tasks (session p cs w).2 p
    = (id <$> stored_tasks w p) ++ (id <$> (session p cs w).1) ∧
  exact_max (stored_tasks (session p cs w).2 p)
    = exact_max (stored_tasks w p) + Z.of_nat (length (session p cs w).1) ∧
  ∀ k t, (session p cs w).1 !! k = Some t →
    id t = dec (exact_max (stored_tasks w p) + 1 + Z.of_nat k) ∧
    status t = pending ∧ blockedBy t = [] ∧ blocks t = [] ∧ notes t = "".
Proof.
  revert w. induction cs as [|c cs IH]; intros w Hc Hb.
  - cbn [session fst snd length]. rewrite app_nil_r.
    split; [reflexivity|]. split; [lia|]. intros k t Hk. inversion Hk.
  - rewrite session_cons. cbn [fst snd].
    destruct (perform_step p c w Hc) as [Hc' Hs].
    apply step_ids in Hs.
    cbn [length] in Hb.
    destruct (perform p c w).1 as [t0|].
    + destruct Hs as (subject & Ht0 & Hts).
      assert (Hm : exact_max (stored_tasks (perform p c w).2 p)
                   = exact_max (stored_tasks w p) + 1).
      { rewrite Hts, Ht0. apply exact_max_new. lia. }
      destruct (IH (perform p c w).2 Hc') as (IA & IB & IC); [lia|].
      split; [|split].
      * rewrite IA, Hts, fmap_app, fmap_cons, <- app_assoc. reflexivity.
      * rewrite IB, Hm. cbn [length]. lia.
      * intros [|k] t Hk.
        -- injection Hk as <-. rewrite Ht0.
           rewrite new_task_id by lia. unfold next_id.
           repeat split. f_equal. lia.
        -- cbn in Hk. destruct (IC k t Hk) as (Hid & Hrest).
           split; [|exact Hrest]. rewrite Hid, Hm. f_equal. lia.
    + assert (Hm : exact_max (stored_tasks (perform p c w).2 p)
                   = exact_max (stored_tasks w p))
        by (apply exact_max_ids; exact Hs).
      destruct (IH (perform p c w).2 Hc') as (IA & IB & IC); [lia|].
      split; [|split].
      * rewrite IA, Hs. reflexivity.
      * rewrite IB, Hm. reflexivity.
      * intros k t Hk. rewrite <- Hm. apply IC, Hk.
Qed.

Lemma stored_tasks_empty w p :
  (stored w p = None ∨ ∃ data, stored w p = Some data ∧ project data = p ∧ tasks data = []) →
  consistent w p ∧ stored_tasks w p = [].
Proof.
  unfold consistent, stored_tasks. intros [-> | (data & -> & Hp & ->)].
  - split; [discriminate | reflexivity].
  - split; [intros ? [= <-]; exact Hp | reflexivity].
Qed.

(** ** The two edge sets *)

Lemma forward_grow ts ts' :
  id <$> ts' = id <$> ts →
  (∀ k x x', ts !! k = Some x → ts' !! k = Some x' →
     (∀ y, y ∈ blocks x → y ∈ blocks x') ∧
     (∀ y, y ∈ blockedBy x' →
        y ∈ blockedBy x ∨
        ∃ j blocker, find y ts' = Some (j, blocker) ∧ id x' ∈ blocks blocker)) →
  forward ts → forward ts'.
Proof.
  intros Hids Hpt HF t' b Hin Hb.
  apply list_elem_of_lookup in Hin as [k Hk'].
  destruct (lookup_same_ids _ _ _ _ Hids Hk') as (x & Hk & Hid).
  destruct (Hpt k x t' Hk Hk') as [_ Hbb].
  destruct (Hbb b Hb) as [Hold | Hnew]; [|exact Hnew].
  destruct (HF x b) as (j & blk & Hf & Hx); [apply list_elem_of_lookup; eauto | exact Hold |].
  destruct (find_same_ids _ _ _ _ _ Hids Hf) as (blk' & Hj' & Hf').
  exists j, blk'. split; [exact Hf'|].
  apply find_Some in Hf as (Hj & _).
  destruct (Hpt j blk blk' Hj Hj') as [Hinc _].
  rewrite <- Hid. apply Hinc, Hx.
Qed.

Lemma forward_add ts subject : forward ts → forward (ts ++ [new_task ts subject]).
Proof.
  intros HF t b Hin Hb. apply elem_of_app in Hin as [Hin | Hin].
  - destruct (HF t b Hin Hb) as (j & blk & Hf & Hx).
    exists j, blk. split; [apply find_app_old; exact Hf | exact Hx].
  - apply list_elem_of_singleton in Hin. subst t. inversion Hb.
Qed.

Lemma forward_link ts t b i task j blocker :
  find t ts = Some (i, task) → find b ts = Some (j, blocker) →
  forward ts → forward (link i task j t b ts).
Proof.
  intros Ht Hb.
  destruct (link_effect ts t b i task j blocker Ht Hb)
    as (task' & blocker' & Hids & Hi' & Hj' & Ht' & Hb' & H1 & H2 & _).
  pose proof (proj1 (find_Some _ _ _ _) Ht) as (Hi & Hidt & _).
  apply forward_grow; [exact Hids|].
  intros k x x' Hk Hk'.
  rewrite (link_imap _ _ _ _ _ _ Hi), list_lookup_imap, Hk in Hk'.
  injection Hk' as <-. rewrite link_at_blocks, link_at_blockedBy, link_at_id.
  split.
  - intros y Hy. destruct (decide _); [apply elem_of_app; left|]; exact Hy.
  - intros y Hy. destruct (decide (k = i ∧ b ∉ blockedBy x)) as [[-> _]|_]; [|left; exact Hy].
    apply elem_of_app in Hy as [Hy | Hy]; [left; exact Hy|].
    apply list_elem_of_singleton in Hy. subst y. right.
    exists j, blocker'. split; [exact Hb'|].
    rewrite Hi in Hk. injection Hk as <-. rewrite Hidt. exact H2.
Qed.

Lemma forward_status ts t st i task :
  find t ts = Some (i, task) → forward ts → forward (change_status i task t st ts).1.
Proof.
  intros Ht. pose proof (proj1 (find_Some _ _ _ _) Ht) as (Hi & _ & _).
  apply forward_grow; [apply ids_change_status; exact Hi|].
  intros k x x' Hk Hk'. rewrite change_status_eq in Hk'. cbv zeta in Hk'.
  destruct (decide (st = completed)); cbn [fst] in Hk'.
  - rewrite list_lookup_fmap in Hk'.
    destruct (<[i:=set_status st task]> ts !! k) as [x1|] eqn:Hk1; [|discriminate].
    injection Hk' as <-.
    destruct (relax_fields t x1) as (_ & _ & _ & -> & -> & _).
    destruct (insert_pointwise _ _ _ (set_status st) _ _ _ Hi Hk Hk1) as [[-> _] | ->].
    + split; [auto|]. intros y Hy. left.
      apply list_elem_of_filter in Hy as [_ Hy]. exact Hy.
    + split; [auto|]. intros y Hy. left.
      apply list_elem_of_filter in Hy as [_ Hy]. exact Hy.
  - destruct (insert_pointwise _ _ _ (set_status st) _ _ _ Hi Hk Hk') as [[-> _] | ->];
      (split; [auto | intros y Hy; left; exact Hy]).
Qed.

Lemma forward_notes ts t n i task :
  find t ts = Some (i, task) → forward ts → forward (<[i := set_notes n task]> ts).
Proof.
  intros Ht. pose proof (proj1 (find_Some _ _ _ _) Ht) as (Hi & _ & _).
  apply forward_grow; [apply (ids_insert _ _ task); [exact Hi | reflexivity]|].
  intros k x x' Hk Hk'.
  destruct (insert_pointwise _ _ _ (set_notes n) _ _ _ Hi Hk Hk') as [[-> _] | ->];
    (split; [auto | intros y Hy; left; exact Hy]).
Qed.

Lemma forward_step ts c r ts' : forward ts → step ts c r ts' → forward ts'.
Proof.
  intros HF Hs. destruct Hs.
  - exact HF.
  - apply forward_add, HF.
  - apply forward_status; assumption.
  - eapply forward_link; eassumption.
  - eapply forward_notes; eassumption.
Qed.

(** Tasks whose ids are the decimal strings of consecutive integers have
    distinct ids. *)
Lemma consecutive_ids_NoDup (made : list Task) m0 :
  0 <= m0 →
  (∀ k t, made !! k = Some t → id t = dec (m0 + 1 + Z.of_nat k)) →
  NoDup (id <$> made).
Proof.
  intros Hm IC. apply NoDup_alt. intros k1 k2 s H1 H2.
  rewrite list_lookup_fmap in H1, H2.
  destruct (made !! k1) as [t1|] eqn:E1; [|discriminate].
  destruct (made !! k2) as [t2|] eqn:E2; [|discriminate].
  injection H1 as H1. injection H2 as H2.
  pose proof (IC k1 t1 E1) as I1. pose proof (IC k2 t2 E2) as I2.
  assert (P : parseInteger (id t1) = parseInteger (id t2)) by congruence.
  rewrite I1, I2, !parseInteger_dec in P by lia.
  injection P as P. lia.
Qed.

Lemma backward_at_grow b ts ts' :
  id <$> ts' = id <$> ts →
  (∀ k x x', ts !! k = Some x → ts' !! k = Some x' →
     (b ∈ blockedBy x → b ∈ blockedBy x') ∧
     (∀ y, y ∈ blocks x' →
        y ∈ blocks x ∨
        ∃ i t, find y ts' = Some (i, t) ∧ id x' ∈ blockedBy t)) →
  backward_at b ts → backward_at b ts'.
Proof.
  intros Hids Hpt HB j blk' y Hf' Hy.
  destruct (find_same_ids ts' ts b j blk' (eq_sym Hids) Hf') as (blk & Hj & Hf).
  pose proof (proj1 (find_Some _ _ _ _) Hf') as (Hj' & Hidb & _).
  destruct (Hpt j blk blk' Hj Hj') as [_ Hbl].
  destruct (Hbl y Hy) as [Hold | Hnew].
  - destruct (HB j blk y Hf Hold) as (i & t & Hft & Hbt).
    destruct (find_same_ids _ _ _ _ _ Hids Hft) as (t' & Hi' & Hft').
    exists i, t'. split; [exact Hft'|].
    apply find_Some in Hft as (Hi & _).
    destruct (Hpt i t t' Hi Hi') as [Hinc _]. apply Hinc, Hbt.
  - rewrite Hidb in Hnew. exact Hnew.
Qed.

Lemma backward_at_add b ts subject :
  backward_at b ts → backward_at b (ts ++ [new_task ts subject]).
Proof.
  intros HB j blk x Hf Hx. unfold find in Hf.
  apply list_find_app_Some in Hf as [Hf | (Hnone & Hf)].
  - destruct (HB j blk x Hf Hx) as (i & t & Hft & Hbt).
    exists i, t. split; [apply find_app_old; exact Hft | exact Hbt].
  - destruct Hf as [_ Hf].
    apply list_find_Some in Hf as (Hl & _).
    apply list_elem_of_lookup_2, list_elem_of_singleton in Hl. subst blk.
    inversion Hx.
Qed.

Lemma backward_at_link y ts t b i task j blocker :
  find t ts = Some (i, task) → find b ts = Some (j, blocker) →
  backward_at y ts → backward_at y (link i task j t b ts).
Proof.
  intros Ht Hb.
  destruct (link_effect ts t b i task j blocker Ht Hb)
    as (task' & blocker' & Hids & Hi' & Hj' & Ht' & Hb' & H1 & H2 & _).
  pose proof (proj1 (find_Some _ _ _ _) Ht) as (Hi & _ & _).
  pose proof (proj1 (find_Some _ _ _ _) Hb) as (Hj & Hidb & _).
  apply backward_at_grow; [exact Hids|].
  intros k x x' Hk Hk'.
  rewrite (link_imap _ _ _ _ _ _ Hi), list_lookup_imap, Hk in Hk'.
  injection Hk' as <-. rewrite link_at_blocks, link_at_blockedBy, link_at_id.
  split.
  - intros Hy. destruct (decide _); [apply elem_of_app; left|]; exact Hy.
  - intros z Hz. destruct (decide (k = j ∧ t ∉ blocks x)) as [[-> _]|_]; [|left; exact Hz].
    apply elem_of_app in Hz as [Hz | Hz]; [left; exact Hz|].
    apply list_elem_of_singleton in Hz. subst z. right.
    exists i, task'. split; [exact Ht'|].
    rewrite Hj in Hk. injection Hk as <-. rewrite Hidb. exact H1.
Qed.

(** A change of status keeps the converse for [b], but for the completion
    of [b] itself, which keeps it when no task is in its [blocks]. *)
Lemma backward_at_status b ts t st i task :
  (st = completed → t = b → blocks task = []) →
  find t ts = Some (i, task) →
  backward_at b ts → backward_at b (change_status i task t st ts).1.
Proof.
  intros Hst Ht. pose proof (proj1 (find_Some _ _ _ _) Ht) as (Hi & Hidt & _).
  pose proof (ids_change_status i task t st ts Hi) as Hids.
  destruct (decide (st = completed ∧ t = b)) as [[-> ->]|Hne].
  - intros _ j blk' x Hf' Hx. exfalso.
    destruct (find_same_ids _ _ _ _ _ Hids Ht) as (task' & Hi' & Hft').
    rewrite Hft' in Hf'. injection Hf' as <- <-.
    rewrite change_status_eq in Hi'. cbv zeta in Hi'.
    rewrite decide_True in Hi' by reflexivity. cbn [fst] in Hi'.
    rewrite list_lookup_fmap, list_lookup_insert_eq in Hi'
      by (apply lookup_lt_is_Some; eauto).
    injection Hi' as <-.
    destruct (relax_fields b (set_status completed task)) as (_ & _ & _ & Hbl & _).
    rewrite Hbl in Hx. cbn [blocks set_status] in Hx.
    rewrite (Hst eq_refl eq_refl) in Hx. inversion Hx.
  - apply backward_at_grow; [exact Hids|].
    intros k x x' Hk Hk'. rewrite change_status_eq in Hk'. cbv zeta in Hk'.
    destruct (decide (st = completed)) as [->|Hc]; cbn [fst] in Hk'.
    + assert (Htb : t ≠ b) by (intros ->; apply Hne; auto).
      rewrite list_lookup_fmap in Hk'.
      destruct (<[i:=set_status completed task]> ts !! k) as [x1|] eqn:Hk1; [|discriminate].
      injection Hk' as <-.
      destruct (relax_fields t x1) as (_ & _ & _ & -> & -> & _).
      assert (E : blockedBy x1 = blockedBy x ∧ blocks x1 = blocks x).
      { destruct (insert_pointwise _ _ _ (set_status completed) _ _ _ Hi Hk Hk1)
          as [[-> _] | ->]; auto. }
      destruct E as [-> ->]. split.
      * intros Hy. apply list_elem_of_filter. split; [congruence | exact Hy].
      * intros y Hy. left. exact Hy.
    + destruct (insert_pointwise _ _ _ (set_status st) _ _ _ Hi Hk Hk') as [[-> _] | ->];
        (split; [auto | intros y Hy; left; exact Hy]).
Qed.

Lemma backward_at_notes b ts t n i task :
  find t ts = Some (i, task) →
  backward_at b ts → backward_at b (<[i := set_notes n task]> ts).
Proof.
  intros Ht. pose proof (proj1 (find_Some _ _ _ _) Ht) as (Hi & _ & _).
  apply backward_at_grow; [apply (ids_insert _ _ task); [exact Hi | reflexivity]|].
  intros k x x' Hk Hk'.
  destruct (insert_pointwise _ _ _ (set_notes n) _ _ _ Hi Hk Hk') as [[-> _] | ->];
    (split; [auto | intros y Hy; left; exact Hy]).
Qed.

Lemma backward_at_step b ts c r ts' :
  (c = UpdateTaskStatus b completed →
   ∀ j blocker, find b ts = Some (j, blocker) → blocks blocker = []) →
  backward_at b ts → step ts c r ts' → backward_at b ts'.
Proof.
  intros Hc HB Hs. destruct Hs.
  - exact HB.
  - apply backward_at_add, HB.
  - apply backward_at_status; [|assumption..].
    intros -> ->. exact (Hc eq_refl _ _ H).
  - eapply backward_at_link; eassumption.
  - eapply backward_at_notes; eassumption.
Qed.

(** The converse along a session, for an id that was not completed while
    tasks were waiting for it. *)
Lemma session_backward_at p b cs w :
  consistent w p → b ∉ completed_blockers p cs w →
  backward_at b (stored_tasks w p) →
  backward_at b (stored_tasks (session p cs w).2 p).
Proof.
  revert w. induction cs as [|c cs IH]; intros w Hc Hb HB; [exact HB|].
  rewrite session_cons. cbn [snd]. cbn [completed_blockers] in Hb.
  destruct (perform_step p c w Hc) as [Hc' Hs].
  apply IH; [exact Hc' | intros Hin; apply Hb, elem_of_app; right; exact Hin |].
  eapply backward_at_step; [|exact HB | exact Hs].
  intros -> j blocker Hf. rewrite Hf in Hb.
  destruct (blocks blocker) as [|x l]; [reflexivity|].
  exfalso. apply Hb, elem_of_app. left. cbn. apply list_elem_of_singleton. reflexivity.
Qed.

(** Where the ids are distinct, the two directions make the equivalence. *)
Lemma inverse_at_intro b ts :
  NoDup (id <$> ts) → forward ts → backward_at b ts → inverse_at b ts.
Proof.
  intros Hnd HF HB t j blk Hin Hf. split.
  - intros Hb. destruct (HF t b Hin Hb) as (j' & blk' & Hf' & Hx).
    rewrite Hf in Hf'. injection Hf' as _ <-. exact Hx.
  - intros Hx. destruct (HB j blk (id t) Hf Hx) as (i & t' & Hft & Hbt).
    apply list_elem_of_lookup in Hin as [k Hk].
    apply find_Some in Hft as (Hi & Hid & _).
    assert (k = i).
    { apply (NoDup_lookup _ k i (id t) Hnd); rewrite list_lookup_fmap.
      - rewrite Hk. reflexivity.
      - rewrite Hi. simpl. f_equal. exact Hid. }
    subst k. rewrite Hk in Hi. injection Hi as <-. exact Hbt.
Qed.

(** ** JSON texts *)

Lemma JSON_value_induction (P : JSON_value → Prop) :
  P JNull → (∀ b, P (JBool b)) → (∀ l, P (JNumber l)) → (∀ s, P (JString s)) →
  (∀ items, Forall P items → P (JArray items)) →
  (∀ ms, Forall (λ m, P m.2) ms → P (JObject ms)) →
  ∀ v, P v.
Proof.
  intros H1 H2 H3 H4 H5 H6. fix IH 1.
  intros [|b|l|s|items|ms]; [exact H1 | apply H2 | apply H3 | apply H4 | |].
  - apply H5. induction items as [|x xs IHl]; constructor; [apply IH | exact IHl].
  - apply H6. induction ms as [|[k x] ms IHl]; constructor; [apply IH | exact IHl].
Qed.

Lemma skip_ws_indent n s : skip_ws (indent n s) = skip_ws s.
Proof. induction n as [|n IH]; [reflexivity | exact IH]. Qed.

Lemma skip_ws_newline n s : skip_ws (newline n s) = skip_ws s.
Proof. apply skip_ws_indent. Qed.

Lemma length_indent n s : String.length (indent n s) = (2 * n + String.length s)%nat.
Proof. induction n as [|n IH]; cbn [indent String.length]; lia. Qed.

Lemma length_newline n s : String.length (newline n s) = S (2 * n + String.length s).
Proof. unfold newline. cbn [String.length]. rewrite length_indent. reflexivity. Qed.

Lemma length_quote_char a r : (String.length r < String.length (quote_char a r))%nat.
Proof.
  unfold quote_char. cbv zeta.
  repeat (match goal with |- context [if ?b then _ else _] => destruct b end);
    cbn [String.length]; lia.
Qed.

Lemma length_quote_chars s r : (String.length r ≤ String.length (quote_chars s r))%nat.
Proof.
  induction s as [|a s IH]; cbn [quote_chars]; [lia|].
  pose proof (length_quote_char a (quote_chars s r)). lia.
Qed.

Lemma length_quote s r : (String.length r + 2 ≤ String.length (quote s r))%nat.
Proof.
  unfold quote. cbn [String.length].
  pose proof (length_quote_chars s (String double_quote r)) as H.
  cbn [String.length] in H. lia.
Qed.

(** What [read_string] reads of a quoted character and of a quoted
    string. *)
Lemma read_quote_char a rest :
  read_string (quote_char a rest) = prepend (String a "") (read_string rest).
Proof. destruct a as [[] [] [] [] [] [] [] []]; reflexivity. Qed.

Lemma read_quote_chars s rest :
  read_string (quote_chars s (String double_quote rest)) = Some (s, rest).
Proof.
  induction s as [|a s IH]; [reflexivity|].
  cbn [quote_chars]. rewrite read_quote_char, IH. reflexivity.
Qed.

(** The text of a value without numbers starts with a character that is
    neither white space nor a closing bracket. *)
Lemma skip_ws_emit n v rest : plain v = true → skip_ws (emit n v rest) = emit n v rest.
Proof. destruct v as [|[]|l|s|[|x xs]|[|m ms]]; intros H; try discriminate H; reflexivity. Qed.

Lemma length_emit n v rest :
  plain v = true → (String.length rest < String.length (emit n v rest))%nat.
Proof.
  revert n rest. induction v as [|b|l|s|items IH|ms IH] using JSON_value_induction;
    intros n rest Hp.
  - cbn [emit]. cbv [String.append]. cbn [String.length]. lia.
  - destruct b; cbn [emit]; cbv [String.append]; cbn [String.length]; lia.
  - discriminate Hp.
  - cbn [emit]. pose proof (length_quote s rest). lia.
  - destruct items as [|x xs];
      [cbn [emit]; cbv [String.append]; cbn [String.length]; lia|].
    cbn [emit String.length]. rewrite length_newline.
    cbn [plain forallb] in Hp. apply andb_prop in Hp as [Hx Hxs].
    apply Forall_cons in IH as [IHx IHxs].
    pose proof (IHx (S n) (fold_right (λ y more, String "," (newline (S n) (emit (S n) y more)))
                                      (newline n (String "]" rest)) xs) Hx) as L1.
    assert (L2 : (String.length rest
                  < String.length
                      (fold_right (λ y more, String "," (newline (S n) (emit (S n) y more)))
                                  (newline n (String "]" rest)) xs))%nat).
    { clear L1 IHx Hx. induction xs as [|y ys IHl].
      - cbn [fold_right]. rewrite length_newline. cbn [String.length]. lia.
      - cbn [fold_right String.length]. rewrite length_newline.
        cbn [forallb] in Hxs. apply andb_prop in Hxs as [Hy Hys].
        apply Forall_cons in IHxs as [IHy IHys].
        specialize (IHl ltac:(assumption) ltac:(assumption)).
        pose proof (IHy (S n) (fold_right (λ y more, String "," (newline (S n) (emit (S n) y more)))
                                          (newline n (String "]" rest)) ys) Hy). lia. }
    lia.
  - destruct ms as [|m ms];
      [cbn [emit]; cbv [String.append]; cbn [String.length]; lia|].
    cbn [emit String.length]. rewrite length_newline.
    cbn [plain forallb] in Hp. apply andb_prop in Hp as [Hx Hxs].
    apply Forall_cons in IH as [IHx IHxs].
    set (tail := fold_right _ _ ms).
    pose proof (length_quote m.1 (String ":" (String " " (emit (S n) m.2 tail)))) as L0.
    cbn [String.length] in L0.
    pose proof (IHx (S n) tail Hx) as L1.
    assert (L2 : (String.length rest < String.length tail)%nat).
    { subst tail. clear L0 L1 IHx Hx. induction ms as [|y ys IHl].
      - cbn [fold_right]. rewrite length_newline. cbn [String.length]. lia.
      - cbn [fold_right String.length]. rewrite length_newline.
        cbn [forallb] in Hxs. apply andb_prop in Hxs as [Hy Hys].
        apply Forall_cons in IHxs as [IHy IHys].
        specialize (IHl ltac:(assumption) ltac:(assumption)).
        set (tail := fold_right _ _ ys) in *.
        pose proof (length_quote y.1 (String ":" (String " " (emit (S n) y.2 tail)))) as L0.
        cbn [String.length] in L0.
        pose proof (IHy (S n) tail Hy). lia. }
    lia.
Qed.

(** The equations of the parser. *)
Lemma read_value_string fuel s rest :
  read_value (S fuel) (quote s rest) = Some (JString s, rest).
Proof.
  change (read_value (S fuel) (quote s rest))
    with (match read_string (quote_chars s (String double_quote rest)) with
          | Some (str, r') => Some (JString str, r')
          | None => None
          end).
  rewrite read_quote_chars. reflexivity.
Qed.

Lemma read_value_array fuel n v tail :
  plain v = true →
  read_value (S fuel) (String "[" (newline n (emit n v tail)))
  = match read_elements fuel (emit n v tail) with
    | Some (vs, r) => Some (JArray vs, r)
    | None => None
    end.
Proof.
  intros Hp.
  change (read_value (S fuel) (String "[" (newline n (emit n v tail))))
    with (match skip_ws (newline n (emit n v tail)) with
          | String "]" r' => Some (JArray [], r')
          | r' => match read_elements fuel r' with
                  | Some (vs, r'') => Some (JArray vs, r'')
                  | None => None
                  end
          end).
  rewrite skip_ws_newline, (skip_ws_emit _ _ _ Hp).
  destruct v as [|[]|l|s|[|x xs]|[|m ms]]; try discriminate Hp; reflexivity.
Qed.

Lemma read_value_object fuel n k tail :
  read_value (S fuel) (String "{" (newline n (quote k tail)))
  = match read_members fuel (quote k tail) with
    | Some (ms, r) => Some (JObject ms, r)
    | None => None
    end.
Proof.
  change (read_value (S fuel) (String "{" (newline n (quote k tail))))
    with (match skip_ws (newline n (quote k tail)) with
          | String "}" r' => Some (JObject [], r')
          | r' => match read_members fuel r' with
                  | Some (ms, r'') => Some (JObject ms, r'')
                  | None => None
                  end
          end).
  rewrite skip_ws_newline. reflexivity.
Qed.

Lemma read_elements_last fuel s v n rest :
  read_value fuel s = Some (v, newline n (String "]" rest)) →
  read_elements (S fuel) s = Some ([v], rest).
Proof.
  intros H.
  change (read_elements (S fuel) s)
    with (match read_value fuel s with
          | Some (v, r) =>
              match skip_ws r with
              | String "," r' =>
                  match read_elements fuel (skip_ws r') with
                  | Some (vs, r'') => Some (v :: vs, r'')
                  | None => None
                  end
              | String "]" r' => Some ([v], r')
              | _ => None
              end
          | None => None
          end).
  rewrite H, skip_ws_newline. reflexivity.
Qed.

Lemma read_elements_more fuel s v n y tail vs rest :
  plain y = true →
  read_value fuel s = Some (v, String "," (newline n (emit n y tail))) →
  read_elements fuel (emit n y tail) = Some (vs, rest) →
  read_elements (S fuel) s = Some (v :: vs, rest).
Proof.
  intros Hp H1 H2.
  change (read_elements (S fuel) s)
    with (match read_value fuel s with
          | Some (v, r) =>
              match skip_ws r with
              | String "," r' =>
                  match read_elements fuel (skip_ws r') with
                  | Some (vs, r'') => Some (v :: vs, r'')
                  | None => None
                  end
              | String "]" r' => Some ([v], r')
              | _ => None
              end
          | None => None
          end).
  rewrite H1.
  change (skip_ws (String "," (newline n (emit n y tail))))
    with (String "," (newline n (emit n y tail))).
  cbv beta iota. rewrite skip_ws_newline, (skip_ws_emit _ _ _ Hp), H2. reflexivity.
Qed.

Lemma read_members_S fuel k s :
  read_members (S fuel) (quote k (String ":" (String " " s)))
  = match read_value fuel (skip_ws s) with
    | Some (v, r3) =>
        match skip_ws r3 with
        | String "," r4 =>
            match read_members fuel (skip_ws r4) with
            | Some (ms, r5) => Some ((k, v) :: ms, r5)
            | None => None
            end
        | String "}" r4 => Some ([(k, v)], r4)
        | _ => None
        end
    | None => None
    end.
Proof.
  change (read_members (S fuel) (quote k (String ":" (String " " s))))
    with (match read_string (quote_chars k (String double_quote (String ":" (String " " s)))) with
          | Some (k, r1) =>
              match skip_ws r1 with
              | String ":" r2 =>
                  match read_value fuel (skip_ws r2) with
                  | Some (v, r3) =>
                      match skip_ws r3 with
                      | String "," r4 =>
                          match read_members fuel (skip_ws r4) with
                          | Some (ms, r5) => Some ((k, v) :: ms, r5)
                          | None => None
                          end
                      | String "}" r4 => Some ([(k, v)], r4)
                      | _ => None
                      end
                  | None => None
                  end
              | _ => None
              end
          | None => None
          end).
  rewrite read_quote_chars. reflexivity.
Qed.

(** What follows the first element of an array, and the first member of an
    object, in the text of [emit]. *)
Lemma emit_array n x xs rest :
  emit n (JArray (x :: xs)) rest
  = String "[" (newline (S n) (emit (S n) x (more_elements n xs rest))).
Proof. reflexivity. Qed.

Lemma emit_object n m ms rest :
  emit n (JObject (m :: ms)) rest
  = String "{" (newline (S n)
                  (quote m.1 (String ":" (String " "
                     (emit (S n) m.2 (more_members n ms rest)))))).
Proof. reflexivity. Qed.

Lemma length_more_elements n xs rest :
  forallb plain xs = true →
  (String.length rest + 2 ≤ String.length (more_elements n xs rest))%nat.
Proof.
  intros Hp. induction xs as [|y ys IH]; unfold more_elements; cbn [fold_right].
  - rewrite length_newline. cbn [String.length]. lia.
  - cbn [forallb] in Hp. apply andb_prop in Hp as [Hy Hys].
    cbn [String.length]. rewrite length_newline.
    pose proof (length_emit (S n) y (more_elements n ys rest) Hy) as L.
    specialize (IH Hys). unfold more_elements in L, IH. lia.
Qed.

Lemma length_more_members n ms rest :
  forallb (λ m, plain m.2) ms = true →
  (String.length rest + 2 ≤ String.length (more_members n ms rest))%nat.
Proof.
  intros Hp. induction ms as [|y ys IH]; unfold more_members; cbn [fold_right].
  - rewrite length_newline. cbn [String.length]. lia.
  - cbn [forallb] in Hp. apply andb_prop in Hp as [Hy Hys].
    cbn [String.length]. rewrite length_newline.
    pose proof (length_quote y.1 (String ":" (String " "
                  (emit (S n) y.2 (more_members n ys rest))))) as L0.
    cbn [String.length] in L0.
    pose proof (length_emit (S n) y.2 (more_members n ys rest) Hy) as L.
    specialize (IH Hys). unfold more_members in L0, L, IH. lia.
Qed.

(** The parser reads back the text of a value without numbers, with what
    follows it, when it may go down as many levels as the text has
    characters. *)
Lemma read_emit v :
  plain v = true →
  ∀ n rest fuel,
    (String.length (emit n v rest) ≤ fuel + String.length rest)%nat →
    read_value fuel (emit n v rest) = Some (v, rest).
Proof.
  induction v as [|b|l|s|items IH|ms IH] using JSON_value_induction;
    intros Hp n rest fuel Hlen.
  - pose proof (length_emit n JNull rest Hp).
    destruct fuel as [|fuel]; [lia | reflexivity].
  - pose proof (length_emit n (JBool b) rest Hp).
    destruct fuel as [|fuel]; [lia | destruct b; reflexivity].
  - discriminate Hp.
  - pose proof (length_emit n (JString s) rest Hp).
    destruct fuel as [|fuel]; [lia | apply read_value_string].
  - pose proof (length_emit n (JArray items) rest Hp) as L.
    destruct fuel as [|fuel]; [lia|].
    destruct items as [|x xs]; [reflexivity|].
    cbn [plain forallb] in Hp. apply andb_prop in Hp as [Hx Hxs].
    apply Forall_cons in IH as [IHx IHxs].
    rewrite emit_array in *. rewrite (read_value_array _ _ _ _ Hx).
    cbn [String.length] in Hlen. rewrite length_newline in Hlen.
    assert (Hlen' : (String.length (emit (S n) x (more_elements n xs rest))
                     ≤ fuel + String.length rest)%nat) by lia.
    clear L Hlen.
    assert (R : read_elements fuel (emit (S n) x (more_elements n xs rest))
                = Some (x :: xs, rest)); [|rewrite R; reflexivity].
    revert x fuel Hx IHx Hlen'.
    induction xs as [|y ys IHl]; intros x fuel Hx IHx Hlen.
    + unfold more_elements in *. cbn [fold_right] in *.
      pose proof (length_emit (S n) x (newline n (String "]" rest)) Hx) as L.
      rewrite length_newline in L. cbn [String.length] in L.
      destruct fuel as [|fuel]; [lia|].
      apply read_elements_last with n. apply IHx; [exact Hx|].
      rewrite length_newline. cbn [String.length]. lia.
    + cbn [forallb] in Hxs. apply andb_prop in Hxs as [Hy Hys].
      apply Forall_cons in IHxs as [IHy IHys].
      change (more_elements n (y :: ys) rest)
        with (String "," (newline (S n) (emit (S n) y (more_elements n ys rest)))) in *.
      pose proof (length_emit (S n) x
                    (String "," (newline (S n) (emit (S n) y (more_elements n ys rest))))
                    Hx) as L.
      cbn [String.length] in L. rewrite length_newline in L.
      pose proof (length_emit (S n) y (more_elements n ys rest) Hy) as L1.
      pose proof (length_more_elements n ys rest Hys) as L2.
      destruct fuel as [|fuel]; [lia|].
      apply read_elements_more with (S n) y (more_elements n ys rest); [exact Hy | |].
      * apply IHx; [exact Hx|]. cbn [String.length]. rewrite length_newline. lia.
      * apply IHl; first [assumption | lia].
  - pose proof (length_emit n (JObject ms) rest Hp) as L.
    destruct fuel as [|fuel]; [lia|].
    destruct ms as [|[k x] ms]; [reflexivity|].
    cbn [plain forallb snd] in Hp. apply andb_prop in Hp as [Hx Hxs].
    apply Forall_cons in IH as [IHx IHxs]. cbn [snd] in IHx.
    rewrite emit_object in *. cbn [fst snd] in *. rewrite read_value_object.
    cbn [String.length] in Hlen. rewrite length_newline in Hlen.
    assert (Hlen' : (String.length
                       (quote k (String ":" (String " "
                          (emit (S n) x (more_members n ms rest)))))
                     ≤ fuel + String.length rest)%nat) by lia.
    clear L Hlen.
    assert (R : read_members fuel
                  (quote k (String ":" (String " " (emit (S n) x (more_members n ms rest)))))
                = Some ((k, x) :: ms, rest)); [|rewrite R; reflexivity].
    revert k x fuel Hx IHx Hlen'.
    induction ms as [|[k' y] ys IHl]; intros k x fuel Hx IHx Hlen.
    + unfold more_members in *. cbn [fold_right] in *.
      pose proof (length_quote k (String ":" (String " "
                    (emit (S n) x (newline n (String "}" rest)))))) as L0.
      cbn [String.length] in L0.
      pose proof (length_emit (S n) x (newline n (String "}" rest)) Hx) as L.
      rewrite length_newline in L. cbn [String.length] in L.
      destruct fuel as [|fuel]; [lia|].
      rewrite read_members_S, (skip_ws_emit _ _ _ Hx), IHx; [|exact Hx|].
      * rewrite skip_ws_newline. reflexivity.
      * rewrite length_newline. cbn [String.length]. lia.
    + cbn [forallb snd] in Hxs. apply andb_prop in Hxs as [Hy Hys].
      apply Forall_cons in IHxs as [IHy IHys]. cbn [snd] in IHy.
      change (more_members n ((k', y) :: ys) rest)
        with (String "," (newline (S n)
                (quote k' (String ":" (String " "
                   (emit (S n) y (more_members n ys rest))))))) in *.
      set (tail := more_members n ys rest) in *.
      pose proof (length_quote k (String ":" (String " "
                    (emit (S n) x
                       (String "," (newline (S n)
                          (quote k' (String ":" (String " " (emit (S n) y tail))))))))))
        as L0.
      cbn [String.length] in L0.
      pose proof (length_emit (S n) x
                    (String "," (newline (S n)
                       (quote k' (String ":" (String " " (emit (S n) y tail))))))
                    Hx) as L.
      cbn [String.length] in L. rewrite length_newline in L.
      pose proof (length_quote k' (String ":" (String " " (emit (S n) y tail)))) as L3.
      cbn [String.length] in L3.
      pose proof (length_emit (S n) y tail Hy) as L1.
      pose proof (length_more_members n ys rest Hys) as L2. fold tail in L2.
      destruct fuel as [|fuel]; [lia|].
      rewrite read_members_S, (skip_ws_emit _ _ _ Hx), IHx; [|exact Hx|].
      * change (skip_ws (String "," (newline (S n)
                  (quote k' (String ":" (String " " (emit (S n) y tail)))))))
          with (String "," (newline (S n)
                  (quote k' (String ":" (String " " (emit (S n) y tail)))))).
        cbv beta iota. rewrite skip_ws_newline.
        change (skip_ws (quote k' (String ":" (String " " (emit (S n) y tail)))))
          with (quote k' (String ":" (String " " (emit (S n) y tail)))).
        assert (R : read_members fuel
                      (quote k' (String ":" (String " " (emit (S n) y tail))))
                    = Some ((k', y) :: ys, rest))
          by (apply IHl; first [assumption | lia]).
        rewrite R. reflexivity.
      * cbn [String.length]. rewrite length_newline. lia.
Qed.

(** [JSON.parse] is the inverse of [JSON.stringify] on the values without
    numbers. *)
Lemma parse_stringify v : plain v = true → parse (stringify v) = Some v.
Proof.
  intros Hp. unfold parse, stringify.
  rewrite (skip_ws_emit _ _ _ Hp), (read_emit v Hp 0%nat "" _); [reflexivity|].
  cbn [String.length]. lia.
Qed.

(** The values of the records have no numbers, and read as the records. *)
Lemma plain_strings l : forallb plain (JString <$> l) = true.
Proof. induction l as [|s l IH]; [reflexivity | exact IH]. Qed.

Lemma plain_Task_value t : plain (Task_value t) = true.
Proof.
  unfold Task_value. cbn [plain forallb snd]. rewrite !plain_strings. reflexivity.
Qed.

Lemma plain_TaskProject_value data : plain (TaskProject_value data) = true.
Proof.
  unfold TaskProject_value. cbn [plain forallb snd].
  induction (tasks data) as [|t ts IH]; [reflexivity|].
  cbn [fmap list_fmap forallb]. rewrite plain_Task_value. exact IH.
Qed.

Lemma as_strings l : as_list as_string (JString <$> l) = Some l.
Proof.
  induction l as [|s l IH]; [reflexivity|].
  cbn [fmap list_fmap as_list as_string]. rewrite IH. reflexivity.
Qed.

Lemma as_Task_value t : as_Task (Task_value t) = Some t.
Proof.
  destruct t as [i s st bb bl n]. unfold Task_value, as_Task.
  cbn [id subject status blockedBy blocks notes].
  change (member "id" _) with (Some (JString i)).
  change (member "subject" _) with (Some (JString s)).
  change (member "status" _) with (Some (JString (status_name st))).
  change (member "blockedBy" _) with (Some (JArray (JString <$> bb))).
  change (member "blocks" _) with (Some (JArray (JString <$> bl))).
  change (member "notes" _) with (Some (JString n)).
  cbn [mbind option_bind as_string as_array]. rewrite !as_strings.
  destruct st; reflexivity.
Qed.

Lemma as_TaskProject_value data : as_TaskProject (TaskProject_value data) = Some data.
Proof.
  destruct data as [p st c u ts]. unfold TaskProject_value, as_TaskProject.
  cbn [project pstatus created updated tasks].
  change (member "project" _) with (Some (JString p)).
  change (member "status" _) with (Some (JString (pstatus_name st))).
  change (member "created" _) with (Some (JString c)).
  change (member "updated" _) with (Some (JString u)).
  change (member "tasks" _) with (Some (JArray (Task_value <$> ts))).
  cbn [mbind option_bind as_string as_array].
  assert (E : as_list as_Task (Task_value <$> ts) = Some ts).
  { induction ts as [|t ts IH]; [reflexivity|].
    cbn [fmap list_fmap as_list]. rewrite as_Task_value, IH. reflexivity. }
  rewrite E. destruct st; reflexivity.
Qed.

(** The text that [JSON.stringify] writes for a record is carried as the
    text that parses to the record: this is what [JSON_stringify] and
    [JSON_parse] stand for. *)
Lemma carried_record v data :
  plain v = true → as_TaskProject v = Some data →
  carried (stringify v) = Some (JSON_stringify data).
Proof.
  intros Hp Ha. unfold carried. rewrite (parse_stringify v Hp), Ha.
  destruct v; try reflexivity. discriminate Ha.
Qed.

(** ** Dates *)

Lemma all_from_spec check n : ∀ i,
  all_from check i n = true → ∀ j, i <= j < i + Z.of_nat n → check j = true.
Proof.
  induction n as [|n IH]; intros i H j Hj; [lia|].
  cbn [all_from] in H. apply andb_prop in H as [H0 H1].
  destruct (decide (j = i)) as [->|Hne]; [exact H0|].
  apply (IH (i + 1) H1). lia.
Qed.

(** The year, the month and the day within an era of 146097 days: the
    last 60 days of the era, from the first of January on, are in the year
    400. *)
Lemma within_era_bounds doe :
  0 <= doe < 146097 →
  ∃ y m d, within_era doe = (y, m, d) ∧
           0 <= y <= 400 ∧ (y = 400 ↔ 146037 <= doe) ∧ 1 <= m <= 12 ∧ 1 <= d <= 31.
Proof.
  intros H. unfold within_era. cbv zeta.
  set (yoe := (doe - doe / 1460 + doe / 36524 - doe / 146096) / 365).
  set (doy := doe - (365 * yoe + yoe / 4 - yoe / 100)).
  set (mp := (5 * doy + 2) / 153).
  assert (Hy : 0 <= yoe <= 399) by (subst yoe; Z.div_mod_to_equations; lia).
  assert (Hd : 0 <= doy <= 365) by (subst doy yoe; Z.div_mod_to_equations; lia).
  assert (Hm : 0 <= mp <= 11) by (subst mp; Z.div_mod_to_equations; lia).
  assert (Hdd : 1 <= doy - (153 * mp + 2) / 5 + 1 <= 31)
    by (subst mp; Z.div_mod_to_equations; lia).
  assert (Hc : yoe = 399 ∧ 10 <= mp ↔ 146037 <= doe)
    by (subst mp doy yoe; Z.div_mod_to_equations; lia).
  eexists _, _, _. split; [reflexivity|].
  destruct (Z.ltb_spec mp 10).
  - destruct (Z.leb_spec (mp + 3) 2); lia.
  - destruct (Z.leb_spec (mp - 9) 2); lia.
Qed.

Lemma civil_bounds day :
  ∃ y m d, civil day = (y, m, d) ∧ 1 <= m <= 12 ∧ 1 <= d <= 31 ∧
           (-719528 <= day <= 2932896 → 0 <= y <= 9999).
Proof.
  unfold civil. cbv zeta.
  pose proof (Z.mod_pos_bound (day + 719468) 146097 ltac:(lia)) as Hm.
  destruct (within_era_bounds _ Hm) as (y & m & d & -> & Hy & Hy' & Hmo & Hd).
  eexists _, m, d. split; [reflexivity|]. split; [exact Hmo|]. split; [exact Hd|].
  intros Hr.
  pose proof (Z.div_mod (day + 719468) 146097 ltac:(lia)) as E.
  assert (-1 <= (day + 719468) / 146097 <= 24) by lia.
  destruct (decide ((day + 719468) / 146097 = -1)) as [E1|N1].
  - assert (146037 <= (day + 719468) mod 146097) by lia.
    assert (y = 400) by (apply Hy'; assumption). lia.
  - destruct (decide ((day + 719468) / 146097 = 24)) as [E2|N2]; [|lia].
    assert (¬ 146037 <= (day + 719468) mod 146097) by lia.
    assert (y ≠ 400) by (intros Hy4; apply Hy' in Hy4; contradiction). lia.
Qed.

(** Padded numbers are made of digits, and have the width asked for when
    the number is not too great. *)
Lemma all_digits_app a b : all_digits a → all_digits b → all_digits (a +:+ b).
Proof.
  intros Ha Hb. induction a as [|c a IH]; [exact Hb|].
  destruct Ha as [Hc Ha]. split; [exact Hc | exact (IH Ha)].
Qed.

Lemma all_digits_zeros n : all_digits (zeros n).
Proof.
  induction n as [|n IH]; [exact I|]. split; [|exact IH].
  unfold is_digit. vm_compute. split; discriminate.
Qed.

Lemma all_digits_pad k n : 0 <= n → all_digits (pad k n).
Proof.
  intros Hn. apply all_digits_app; [apply all_digits_zeros|].
  apply all_digits_dec_go; [exact Hn | exact I].
Qed.

Lemma digits_pad4 n : 0 <= n <= 9999 → digits 4 (pad 4 n).
Proof.
  intros Hn. split; [|apply all_digits_pad; lia].
  assert (C : all_from (λ n, (String.length (pad 4 n) =? 4)%nat) 0 (Z.to_nat 10000) = true)
    by (vm_compute; reflexivity).
  apply Nat.eqb_eq. exact (all_from_spec _ _ _ C n ltac:(lia)).
Qed.

Lemma digits_pad2 n : 0 <= n <= 99 → digits 2 (pad 2 n).
Proof.
  intros Hn. split; [|apply all_digits_pad; lia].
  assert (C : all_from (λ n, (String.length (pad 2 n) =? 2)%nat) 0 (Z.to_nat 100) = true)
    by (vm_compute; reflexivity).
  apply Nat.eqb_eq. exact (all_from_spec _ _ _ C n ltac:(lia)).
Qed.

(** The part of a text before a character that it does not have. *)
Lemma without_app c a b : without c a → without c b → without c (a +:+ b).
Proof.
  intros Ha Hb. induction a as [|x a IH]; [exact Hb|].
  destruct Ha as [Hx Ha]. split; [exact Hx | exact (IH Ha)].
Qed.

Lemma without_digits s : all_digits s → without "T" s.
Proof.
  induction s as [|a s IH]; [exact (λ _, I)|].
  intros [Ha Hs]. split; [|exact (IH Hs)].
  intros ->. destruct Ha as [_ Ha]. vm_compute in Ha. apply Ha. reflexivity.
Qed.

Lemma before_app c x r : without c x → before c (x +:+ String c r) = x.
Proof.
  induction x as [|a x IH]; intros H.
  - change (before c (String c r) = "").
    cbn [before]. rewrite Ascii.eqb_refl. reflexivity.
  - destruct H as [Ha Hx].
    change (before c (String a (x +:+ String c r)) = String a x).
    cbn [before]. rewrite (proj2 (Ascii.eqb_neq a c) Ha), (IH Hx). reflexivity.
Qed.

(** The stamp is the date of the day: the time of the day is dropped. *)
Lemma without_ISO_date day : without "T" (ISO_date day).
Proof.
  unfold ISO_date.
  destruct (civil_bounds day) as (y & m & d & -> & Hm & Hd & _).
  assert (Hy : without "T" (ISO_year y)).
  { unfold ISO_year. destruct ((0 <=? y) && (y <=? 9999)) eqn:E.
    - apply andb_prop in E as [E _]. apply without_digits, all_digits_pad. lia.
    - apply without_app.
      + destruct (y <? 0); (split; [discriminate | exact I]).
      + apply without_digits, all_digits_pad. lia. }
  apply without_app; [exact Hy|].
  apply (without_app _ "-"); [split; [discriminate | exact I]|].
  apply without_app; [apply without_digits, all_digits_pad; lia|].
  apply (without_app _ "-"); [split; [discriminate | exact I]|].
  apply without_digits, all_digits_pad. lia.
Qed.

Lemma date_stamp_day t : date_stamp t = ISO_date (t / msPerDay).
Proof.
  unfold date_stamp, toISOString.
  change ("T" +:+ ISO_time (t mod msPerDay)) with (String "T" (ISO_time (t mod msPerDay))).
  apply before_app, without_ISO_date.
Qed.

(** From the year 0 to the year 9999 the stamp is written [YYYY-MM-DD]. *)
Lemma is_date_stamp t :
  -62167219200000 <= t < 253402300800000 → is_date (date_stamp t).
Proof.
  intros Ht. rewrite date_stamp_day. unfold ISO_date.
  destruct (civil_bounds (t / msPerDay)) as (y & m & d & -> & Hm & Hd & Hy).
  assert (Hr : -719528 <= t / msPerDay <= 2932896).
  { unfold msPerDay. split.
    - apply Z.div_le_lower_bound; lia.
    - assert (t / 86400000 < 2932897); [|lia].
      apply Z.div_lt_upper_bound; lia. }
  specialize (Hy Hr). unfold ISO_year.
  rewrite (proj2 (andb_true_iff _ _)) by (split; lia).
  exists (pad 4 y), (pad 2 m), (pad 2 d).
  split; [reflexivity|].
  split; [apply digits_pad4; lia|]. split; apply digits_pad2; lia.
Qed.

(** ** The properties of the specification *)

(** C1 (as amended): in every state of a project reached from an empty
    project by calls of [addTask], [setBlocker], [updateTaskStatus] and
    [updateTaskNotes], every id in the [blockedBy] of a task is the id of a
    task of the project, and the first task with that id has the id of the
    former in its [blocks].  Conversely, for every id [b] that no call has
    completed while tasks were in its [blocks] ([completed_blockers]),
    every id in the [blocks] of the task that [b] stands for is the id of a
    task that has [b] in its [blockedBy]; and in a session of at most 2^53
    calls, within which the ids are distinct, a task has such a [b] in its
    [blockedBy] exactly when the task of [b] has its id in its [blocks].
    So when such a session has completed no task that others were waiting
    for, the two sets are exact inverses. *)
Theorem edges_after_session p cs w :
  (stored w p = None ∨
   ∃ data, stored w p = Some data ∧ project data = p ∧ tasks data = []) →
  forward (stored_tasks (session p cs w).2 p) ∧
  (∀ b, b ∉ completed_blockers p cs w →
     backward_at b (stored_tasks (session p cs w).2 p) ∧
     (Z.of_nat (length cs) <= 2 ^ 53 →
        inverse_at b (stored_tasks (session p cs w).2 p))) ∧
  (completed_blockers p cs w = [] → Z.of_nat (length cs) <= 2 ^ 53 →
     exact_inverses (stored_tasks (session p cs w).2 p)).
Proof.
  intros H0. destruct (stored_tasks_empty w p H0) as [Hc He].
  assert (HF : forward (stored_tasks (session p cs w).2 p)).
  { apply (session_invariant forward (λ _, True) p).
    - intros ts c r ts' _. apply forward_step.
    - apply Forall_forall. auto.
    - exact Hc.
    - rewrite He. intros t b Hin. inversion Hin. }
  assert (HB : ∀ b, b ∉ completed_blockers p cs w →
                    backward_at b (stored_tasks (session p cs w).2 p)).
  { intros b Hb. apply session_backward_at; [exact Hc | exact Hb |].
    rewrite He. intros j blk x Hf. discriminate Hf. }
  assert (HE : ∀ b, b ∉ completed_blockers p cs w → Z.of_nat (length cs) <= 2 ^ 53 →
                    inverse_at b (stored_tasks (session p cs w).2 p)).
  { intros b Hb Hlen. apply inverse_at_intro; [|exact HF | exact (HB b Hb)].
    destruct (session_ids p cs w Hc) as (IA & _ & IC).
    { rewrite He. cbn. lia. }
    rewrite IA, He. cbn [fmap list_fmap app].
    apply (consecutive_ids_NoDup _ (exact_max (stored_tasks w p))).
    - apply exact_max_nonneg.
    - intros k t Hk. apply IC, Hk. }
  split; [exact HF|]. split.
  - intros b Hb. split; [exact (HB b Hb) | exact (HE b Hb)].
  - intros Hnone Hlen t b j blk. apply (HE b); [|exact Hlen].
    rewrite Hnone. intros Hin. inversion Hin.
Qed.

(** [edges_after_session] on a session that completes a task nothing waits
    for, and makes a call that throws: no id is in [completed_blockers],
    and the two sets are exact inverses. *)
Lemma edges_after_session_witness :
  (stored empty_store "p" = None ∨
   ∃ data, stored empty_store "p" = Some data ∧ project data = "p" ∧ tasks data = []) ∧
  completed_blockers "p" [AddTask "first"; AddTask "second"; AddTask "third";
                          SetBlocker "2" "1"; UpdateTaskStatus "3" completed;
                          UpdateTaskStatus "9" completed] empty_store = [] ∧
  forward (stored_tasks
             (session "p" [AddTask "first"; AddTask "second"; AddTask "third";
                           SetBlocker "2" "1"; UpdateTaskStatus "3" completed;
                           UpdateTaskStatus "9" completed] empty_store).2 "p") ∧
  backward_at "1" (stored_tasks
             (session "p" [AddTask "first"; AddTask "second"; AddTask "third";
                           SetBlocker "2" "1"; UpdateTaskStatus "3" completed;
                           UpdateTaskStatus "9" completed] empty_store).2 "p") ∧
  exact_inverses (stored_tasks
             (session "p" [AddTask "first"; AddTask "second"; AddTask "third";
                           SetBlocker "2" "1"; UpdateTaskStatus "3" completed;
                           UpdateTaskStatus "9" completed] empty_store).2 "p").
Proof.
  assert (H0 : stored empty_store "p" = None ∨
               ∃ data, stored empty_store "p" = Some data ∧ project data = "p"
                       ∧ tasks data = [])
    by (left; vm_compute; reflexivity).
  assert (H1 : completed_blockers "p"
                 [AddTask "first"; AddTask "second"; AddTask "third";
                  SetBlocker "2" "1"; UpdateTaskStatus "3" completed;
                  UpdateTaskStatus "9" completed] empty_store = [])
    by (vm_compute; reflexivity).
  split; [exact H0|]. split; [exact H1|].
  destruct (edges_after_session "p"
              [AddTask "first"; AddTask "second"; AddTask "third";
               SetBlocker "2" "1"; UpdateTaskStatus "3" completed;
               UpdateTaskStatus "9" completed] empty_store H0) as (F & B & E).
  split; [exact F|]. split.
  - apply B. rewrite H1. intros Hin. inversion Hin.
  - apply E; [exact H1|]. vm_compute. discriminate.
Defined.

(** Where a blocker has been completed, the converse still holds for the
    other blockers: after task 1 is completed, task 3 still has task 4 in
    its [blocks] and task 4 has task 3 in its [blockedBy]. *)
Example edges_beside_a_completion :
  completed_blockers "p" [AddTask "a"; AddTask "b"; AddTask "c"; AddTask "d";
                          SetBlocker "2" "1"; SetBlocker "4" "3";
                          UpdateTaskStatus "1" completed] empty_store = ["1"] ∧
  (blockedBy <$> stored_tasks
                   (session "p" [AddTask "a"; AddTask "b"; AddTask "c"; AddTask "d";
                                 SetBlocker "2" "1"; SetBlocker "4" "3";
                                 UpdateTaskStatus "1" completed] empty_store).2 "p")
  = [[]; []; []; ["3"]] ∧
  (blocks <$> stored_tasks
                (session "p" [AddTask "a"; AddTask "b"; AddTask "c"; AddTask "d";
                              SetBlocker "2" "1"; SetBlocker "4" "3";
                              UpdateTaskStatus "1" completed] empty_store).2 "p")
  = [["2"]; []; ["4"]; []].
Proof. repeat split; vm_compute; reflexivity. Qed.

(** C1 as the specification states it fails once a blocker is completed:
    task 1 keeps task 2 in its [blocks], task 2 no longer has task 1 in its
    [blockedBy]. *)
Lemma completion_leaves_blocks :
  ¬ exact_inverses
      (stored_tasks
         (session "p" [AddTask "first"; AddTask "second"; SetBlocker "2" "1";
                       UpdateTaskStatus "1" completed] empty_store).2 "p").
Proof.
  assert (E : stored_tasks
                (session "p" [AddTask "first"; AddTask "second"; SetBlocker "2" "1";
                              UpdateTaskStatus "1" completed] empty_store).2 "p"
              = [ {| id := "1"; subject := "first"; status := completed;
                     blockedBy := []; blocks := ["2"]; notes := "" |};
                  {| id := "2"; subject := "second"; status := pending;
                     blockedBy := []; blocks := []; notes := "" |} ])
    by (vm_compute; reflexivity).
  rewrite E. intros H.
  specialize (H {| id := "2"; subject := "second"; status := pending;
                   blockedBy := []; blocks := []; notes := "" |}
                "1" 0%nat
                {| id := "1"; subject := "first"; status := completed;
                   blockedBy := []; blocks := ["2"]; notes := "" |}).
  destruct H as [_ H];
    [apply (bool_decide_unpack _); vm_compute; exact I | reflexivity |].
  cbn [id blocks blockedBy] in H.
  assert (In1 : "1" ∈ @nil string) by (apply H, list_elem_of_singleton; reflexivity).
  inversion In1.
Qed.

(** C2: [updateTaskStatus] with [completed], on a task of a stored project.
    [before] is the task sequence once the status of the task has been set.
    Every task loses the id from its [blockedBy]; it becomes [pending] and
    its id is reported exactly when it listed the id, is left with no
    blocker and was [blocked] ([unblocks]), the reported ids coming in the
    order of the tasks; in every other case the status is kept, so a task
    left with no blocker that was not [blocked], or one with blockers left,
    stays as it is; and a task that does not list the id is not changed at
    all, which is what makes the cascade one hop deep. *)
Theorem updateTaskStatus_cascade w p data taskId i task :
  stored w p = Some data → project data = p →
  find taskId (tasks data) = Some (i, task) →
  ∃ w' data' ret unblocked before,
    updateTaskStatus p taskId completed w = (Returned (ret, unblocked), w') ∧
    stored w' p = Some data' ∧
    before = <[i := set_status completed task]> (tasks data) ∧
    length (tasks data') = length before ∧
    tasks data' !! i = Some ret ∧
    unblocked = id <$> filter (unblocks taskId) before ∧
    ∀ k t, before !! k = Some t →
      ∃ t', tasks data' !! k = Some t' ∧
        id t' = id t ∧ subject t' = subject t ∧ notes t' = notes t ∧
        blocks t' = blocks t ∧
        blockedBy t' = filter (λ id, id ≠ taskId) (blockedBy t) ∧
        status t' = (if decide (unblocks taskId t) then pending else status t) ∧
        (taskId ∉ blockedBy t → t' = t).
Proof.
  intros Hs Hp Ht.
  destruct (complete_effect _ _ _ _ _ _ Hs Hp Ht) as (d & Hd & Hrun).
  pose proof (proj1 (find_Some _ _ _ _) Ht) as (Hi & _ & _).
  eexists _, _, _, _, _.
  split; [exact Hrun|].
  split; [apply stored_written_same; exact Hp|].
  split; [reflexivity|]. simpl.
  split; [apply length_fmap|].
  split.
  { rewrite list_lookup_fmap, list_lookup_insert_eq
      by exact (lookup_lt_Some _ _ _ Hi). reflexivity. }
  split; [reflexivity|].
  intros k x Hk. exists (relax taskId x).
  split; [rewrite list_lookup_fmap, Hk; reflexivity|].
  destruct (relax_fields taskId x) as (H1 & H2 & H3 & H4 & H5 & H6).
  repeat (split; [assumption|]).
  apply relax_untouched.
Qed.

(** [updateTaskStatus_cascade] on the completion of task 1 of [linked]. *)
Lemma updateTaskStatus_cascade_witness :
  stored linked "p" = Some linked_record ∧
  project linked_record = "p" ∧
  find "1" (tasks linked_record)
    = Some (0%nat, {| id := "1"; subject := "first"; status := pending;
                      blockedBy := []; blocks := ["2"]; notes := "" |}) ∧
  ∃ w' data' ret unblocked before,
    updateTaskStatus "p" "1" completed linked = (Returned (ret, unblocked), w') ∧
    stored w' "p" = Some data' ∧
    before = <[0%nat := set_status completed
                          {| id := "1"; subject := "first"; status := pending;
                             blockedBy := []; blocks := ["2"]; notes := "" |}]>
               (tasks linked_record) ∧
    length (tasks data') = length before ∧
    tasks data' !! 0%nat = Some ret ∧
    unblocked = id <$> filter (unblocks "1") before ∧
    ∀ k t, before !! k = Some t →
      ∃ t', tasks data' !! k = Some t' ∧
        id t' = id t ∧ subject t' = subject t ∧ notes t' = notes t ∧
        blocks t' = blocks t ∧
        blockedBy t' = filter (λ id, id ≠ "1") (blockedBy t) ∧
        status t' = (if decide (unblocks "1" t) then pending else status t) ∧
        ("1" ∉ blockedBy t → t' = t).
Proof.
  assert (H1 : stored linked "p" = Some linked_record) by (vm_compute; reflexivity).
  assert (H2 : project linked_record = "p") by reflexivity.
  assert (H3 : find "1" (tasks linked_record)
               = Some (0%nat, {| id := "1"; subject := "first"; status := pending;
                                 blockedBy := []; blocks := ["2"]; notes := "" |}))
    by reflexivity.
  split; [exact H1|]. split; [exact H2|]. split; [exact H3|].
  exact (updateTaskStatus_cascade linked "p" linked_record "1" 0%nat _ H1 H2 H3).
Defined.

(** C3: once [setBlocker] has run on two tasks of a stored project, the
    blocker is among the task's [blockedBy] and the task among the blocker's
    [blocks]; if the blocker was not there before, the status of the task is
    [blocked], whatever it was (otherwise it is left as it was). *)
Theorem setBlocker_links w p data t b i task j blocker :
  stored w p = Some data → project data = p →
  find t (tasks data) = Some (i, task) →
  find b (tasks data) = Some (j, blocker) →
  ∃ w' data' task' blocker',
    setBlocker p t b w = (Returned tt, w') ∧
    stored w' p = Some data' ∧
    find t (tasks data') = Some (i, task') ∧
    find b (tasks data') = Some (j, blocker') ∧
    b ∈ blockedBy task' ∧
    t ∈ blocks blocker' ∧
    (b ∉ blockedBy task → status task' = blocked) ∧
    (b ∈ blockedBy task → status task' = status task).
Proof.
  intros Hs Hp Ht Hb.
  destruct (setBlocker_effect _ _ _ _ _ _ _ _ _ Hs Hp Ht Hb)
    as (d & task' & blocker' & Hd & Hrun & _ & _ & _ & Ht' & Hb' & H1 & H2 & H3 & H4).
  eexists _, _, task', blocker'.
  split; [exact Hrun|].
  split; [apply stored_written_same; exact Hp|].
  simpl. repeat split; assumption.
Qed.

(** [setBlocker_links] on the two tasks of [two_tasks]. *)
Lemma setBlocker_links_witness :
  stored two_tasks "p" = Some two_tasks_record ∧
  project two_tasks_record = "p" ∧
  find "2" (tasks two_tasks_record)
    = Some (1%nat, {| id := "2"; subject := "second"; status := pending;
                      blockedBy := []; blocks := []; notes := "" |}) ∧
  find "1" (tasks two_tasks_record)
    = Some (0%nat, {| id := "1"; subject := "first"; status := pending;
                      blockedBy := []; blocks := []; notes := "" |}) ∧
  ∃ w' data' task' blocker',
    setBlocker "p" "2" "1" two_tasks = (Returned tt, w') ∧
    stored w' "p" = Some data' ∧
    find "2" (tasks data') = Some (1%nat, task') ∧
    find "1" (tasks data') = Some (0%nat, blocker') ∧
    "1" ∈ blockedBy task' ∧
    "2" ∈ blocks blocker' ∧
    status task' = blocked.
Proof.
  assert (H1 : stored two_tasks "p" = Some two_tasks_record) by (vm_compute; reflexivity).
  assert (H2 : project two_tasks_record = "p") by reflexivity.
  assert (H3 : find "2" (tasks two_tasks_record)
               = Some (1%nat, {| id := "2"; subject := "second"; status := pending;
                                 blockedBy := []; blocks := []; notes := "" |}))
    by reflexivity.
  assert (H4 : find "1" (tasks two_tasks_record)
               = Some (0%nat, {| id := "1"; subject := "first"; status := pending;
                                 blockedBy := []; blocks := []; notes := "" |}))
    by reflexivity.
  split; [exact H1|]. split; [exact H2|]. split; [exact H3|]. split; [exact H4|].
  destruct (setBlocker_links two_tasks "p" two_tasks_record "2" "1" _ _ _ _ H1 H2 H3 H4)
    as (w' & data' & task' & blocker' & R & S & F1 & F2 & B1 & B2 & St & _).
  exists w', data', task', blocker'.
  repeat (split; [assumption|]). apply St. cbn [blockedBy]. apply not_elem_of_nil.
Defined.

(** C4 (as amended): [addTask] on a stored project whose ids, read as
    integers, are below 2^53 appends a task with status [pending], no
    [blockedBy], no [blocks], no notes, and with the id of the
    specification, the decimal string of one more than the greatest id
    (reading for 0 an id that is not a number, and taking 0 for no task).
    Consequently, along any session on one project that stays below 2^53,
    whatever calls come in between, the [k]-th task created has the id of
    the greatest id at the start plus [k]: the ids given are increasing
    positive integers, none is given twice, and none is the id of a task
    that was there. *)
Theorem addTask_ids p :
  (∀ w data subject,
     stored w p = Some data → project data = p →
     exact_max (tasks data) < 2 ^ 53 →
     ∃ w' data',
       addTask p subject w =
         (Returned {| id := dec (1 + exact_max (tasks data)); subject := subject;
                      status := pending; blockedBy := []; blocks := [];
                      notes := "" |}, w') ∧
       stored w' p = Some data' ∧
       tasks data' =
         tasks data ++ [{| id := dec (1 + exact_max (tasks data)); subject := subject;
                           status := pending; blockedBy := []; blocks := [];
                           notes := "" |}]) ∧
  (∀ cs w,
     consistent w p →
     exact_max (stored_tasks w p) + Z.of_nat (length cs) <= 2 ^ 53 →
     id <$> stored_tasks (session p cs w).2 p
       = (id <$> stored_tasks w p) ++ (id <$> (session p cs w).1) ∧
     (∀ k t, (session p cs w).1 !! k = Some t →
        id t = dec (exact_max (stored_tasks w p) + 1 + Z.of_nat k) ∧
        status t = pending ∧ blockedBy t = [] ∧ blocks t = [] ∧ notes t = "") ∧
     NoDup (id <$> (session p cs w).1) ∧
     (∀ t made, t ∈ stored_tasks w p → made ∈ (session p cs w).1 → id t ≠ id made)).
Proof.
  split.
  - intros w data subject Hs Hp Hm.
    destruct (addTask_run w p data subject Hs Hp) as (d & Hd & Hrun).
    assert (E : new_task (tasks data) subject =
                {| id := dec (1 + exact_max (tasks data)); subject := subject;
                   status := pending; blockedBy := []; blocks := []; notes := "" |}).
    { pose proof (new_task_id (tasks data) subject Hm) as Hid.
      unfold next_id in Hid. unfold new_task in *. cbn [id] in Hid.
      rewrite Hid. reflexivity. }
    rewrite E in Hrun. eexists _, _. split; [exact Hrun|].
    split; [apply stored_written_same; exact Hp | reflexivity].
  - intros cs w Hc Hb.
    destruct (session_ids p cs w Hc Hb) as (IA & IB & IC).
    pose proof (exact_max_nonneg (stored_tasks w p)) as Hnn.
    split; [exact IA|]. split; [exact IC|]. split.
    + apply (consecutive_ids_NoDup _ (exact_max (stored_tasks w p)) Hnn).
      intros k t Hk. apply IC, Hk.
    + intros t made Hin Hmade E.
      apply list_elem_of_lookup in Hmade as [k Hk].
      destruct (IC k made Hk) as [I1 _].
      pose proof (exact_max_bound _ t Hin) as Hle.
      rewrite E, I1, parseInteger_dec in Hle by lia.
      cbn [default from_option] in Hle. unfold Datatypes.id in Hle. lia.
Qed.

(** [addTask_ids] on [two_tasks]: a third task, and a session of three
    calls. *)
Lemma addTask_ids_witness :
  (stored two_tasks "p" = Some two_tasks_record ∧
   project two_tasks_record = "p" ∧
   exact_max (tasks two_tasks_record) < 2 ^ 53 ∧
   ∃ w' data',
     addTask "p" "third" two_tasks =
       (Returned {| id := "3"; subject := "third"; status := pending;
                    blockedBy := []; blocks := []; notes := "" |}, w') ∧
     stored w' "p" = Some data' ∧
     tasks data' =
       tasks two_tasks_record ++ [{| id := "3"; subject := "third"; status := pending;
                                     blockedBy := []; blocks := []; notes := "" |}]) ∧
  (consistent two_tasks "p" ∧
   exact_max (stored_tasks two_tasks "p")
   + Z.of_nat (length [AddTask "third"; UpdateTaskStatus "1" completed; AddTask "fourth"])
   <= 2 ^ 53 ∧
   ∀ k t, (session "p" [AddTask "third"; UpdateTaskStatus "1" completed; AddTask "fourth"]
             two_tasks).1 !! k = Some t →
     id t = dec (exact_max (stored_tasks two_tasks "p") + 1 + Z.of_nat k)).
Proof.
  assert (H1 : stored two_tasks "p" = Some two_tasks_record) by (vm_compute; reflexivity).
  assert (H2 : project two_tasks_record = "p") by reflexivity.
  assert (H3 : exact_max (tasks two_tasks_record) < 2 ^ 53) by (vm_compute; reflexivity).
  assert (H4 : consistent two_tasks "p").
  { intros data Hs. rewrite H1 in Hs. injection Hs as <-. reflexivity. }
  assert (H5 : exact_max (stored_tasks two_tasks "p")
               + Z.of_nat (length [AddTask "third"; UpdateTaskStatus "1" completed;
                                   AddTask "fourth"]) <= 2 ^ 53)
    by (vm_compute; discriminate).
  destruct (addTask_ids "p") as [A B].
  split.
  - split; [exact H1|]. split; [exact H2|]. split; [exact H3|].
    exact (A two_tasks two_tasks_record "third" H1 H2 H3).
  - split; [exact H4|]. split; [exact H5|].
    destruct (B _ two_tasks H4 H5) as (_ & I & _).
    intros k t Hk. apply (I k t Hk).
Defined.

(** C4 as the specification states it fails at 2^53: the id given is not
    the decimal string of one more than the greatest id, and it is given
    twice. *)
Lemma addTask_id_at_2_53 :
  stored big_store "big" = Some big_record ∧
  next_id (tasks big_record) = "9007199254740993" ∧
  id <$> (session "big" [AddTask "next"; AddTask "again"] big_store).1
  = ["9007199254740992"; "9007199254740992"].
Proof. repeat split; vm_compute; reflexivity. Qed.

(** C5: when the project is not stored, or an id it is given is not the id
    of a task of the project, each of [setBlocker] (for either of its two
    ids), [updateTaskStatus] and [updateTaskNotes] throws the not-found
    error, and the world is left exactly as it was. *)
Theorem not_found_unchanged w p x :
  ¬ resolves w p x →
  ∀ other st n,
    setBlocker p x other w = (Thrown (not_found w p "Task not found"), w) ∧
    setBlocker p other x w = (Thrown (not_found w p "Task not found"), w) ∧
    updateTaskStatus p x st w =
      (Thrown (not_found w p ("Task '" +:+ x +:+ "' not found in project '"
                              +:+ p +:+ "'")), w) ∧
    updateTaskNotes p x n w =
      (Thrown (not_found w p ("Task '" +:+ x +:+ "' not found")), w).
Proof. exact (not_found_runs w p x). Qed.

(** [not_found_unchanged] on an id that [two_tasks] does not have. *)
Lemma not_found_unchanged_witness :
  ¬ resolves two_tasks "p" "999" ∧
  setBlocker "p" "999" "1" two_tasks = (Thrown (Error "Task not found"), two_tasks) ∧
  setBlocker "p" "1" "999" two_tasks = (Thrown (Error "Task not found"), two_tasks) ∧
  updateTaskStatus "p" "999" completed two_tasks
    = (Thrown (Error "Task '999' not found in project 'p'"), two_tasks) ∧
  updateTaskNotes "p" "999" "late" two_tasks
    = (Thrown (Error "Task '999' not found"), two_tasks).
Proof.
  assert (H1 : stored two_tasks "p" = Some two_tasks_record) by (vm_compute; reflexivity).
  assert (H : ¬ resolves two_tasks "p" "999").
  { intros (data & i & t & Hs & Hf). rewrite H1 in Hs. injection Hs as <-.
    discriminate Hf. }
  split; [exact H|].
  pose proof (not_found_unchanged two_tasks "p" "999" H "1" completed "late") as R.
  unfold not_found in R. rewrite H1 in R. exact R.
Defined.




(** C7: a record whose name is one segment of a path ([segment]) is saved
    and read back, under its name, equal in every field to the record that
    was written, which is the record given with [updated] set to the date
    of the save.  The save returns whenever the directory is there and the
    entry of the project is not a directory; it reads the clock once and
    writes the one file of the project.  The text of that file is the text
    that [JSON.stringify] makes of the stamped record: whatever the value
    without numbers that reads as the record at the declared type, with
    its properties in the order of the code or in another, [JSON.parse]
    reads its text back as that value, so that the file is carried as the
    text that parses to the record.  The stamp is the date of the day of
    the save and nothing of the time of the day: when the clock reads what
    [new Date(t).toISOString().split("T")[0]] is at a time [t], it is the
    date of the day of [t], written [YYYY-MM-DD] from the year 0 to the
    year 9999.  Saving what was read back returns the same record again
    but for the stamp. *)
Theorem save_then_load w d data :
  tasksDir w = Some d →
  segment (project data) →
  d !! (project data +:+ ".json") ≠ Some Directory →
  ∃ w' saved c,
    saveProject data w = (Returned saved, w') ∧
    project saved = project data ∧ pstatus saved = pstatus data ∧
    created saved = created data ∧ tasks saved = tasks data ∧
    updated saved = clock w (ticks w) ∧
    (∀ t, clock w (ticks w) = date_stamp t →
       updated saved = ISO_date (t / msPerDay) ∧
       (-62167219200000 <= t < 253402300800000 → is_date (updated saved))) ∧
    plain (TaskProject_value saved) = true ∧
    as_TaskProject (TaskProject_value saved) = Some saved ∧
    (∀ v, plain v = true → as_TaskProject v = Some saved →
       parse (stringify v) = Some v ∧ carried (stringify v) = Some c) ∧
    tasksDir w' = Some (<[project data +:+ ".json" := File c]> d) ∧
    plansDir w' = plansDir w ∧ ticks w' = S (ticks w) ∧
    getProject (project data) w' = (Returned (Some saved), w') ∧
    ∃ w'' again,
      saveProject saved w' = (Returned again, w'') ∧
      project again = project saved ∧ pstatus again = pstatus saved ∧
      created again = created saved ∧ tasks again = tasks saved ∧
      updated again = clock w (S (ticks w)).
Proof.
  intros Hd _ Hn.
  set (saved := {| project := project data; pstatus := pstatus data;
                   created := created data; updated := clock w (ticks w);
                   tasks := tasks data |}).
  assert (Hrun : saveProject data w = (Returned saved, written saved d w))
    by (apply saveProject_run; assumption).
  exists (written saved d w), saved, (JSON_stringify saved).
  split; [exact Hrun|].
  do 5 (split; [reflexivity|]).
  split.
  { intros t Ht. cbn [updated saved]. rewrite Ht, date_stamp_day.
    split; [reflexivity|]. intros Hr. rewrite <- date_stamp_day.
    apply is_date_stamp, Hr. }
  split; [apply plain_TaskProject_value|].
  split; [apply as_TaskProject_value|].
  split; [intros v Hp Ha; split;
          [apply parse_stringify, Hp | apply carried_record; assumption]|].
  do 3 (split; [reflexivity|]).
  assert (Hs : stored (written saved d w) (project data) = Some saved)
    by (apply stored_written_same; reflexivity).
  split; [rewrite getProject_run, Hs; reflexivity|].
  destruct (saveProject_over (written saved d w) saved saved Hs) as (d' & _ & Hrun').
  eexists _, _. split; [exact Hrun'|]. repeat split.
Qed.

(** [save_then_load] on [linked_record], stamped the first of January and
    saved at noon on the second. *)
Lemma save_then_load_witness :
  tasksDir second_day = Some ∅ ∧
  segment (project linked_record) ∧
  (∅ : gmap string node) !! (project linked_record +:+ ".json") ≠ Some Directory ∧
  updated linked_record = "2026-01-01" ∧
  clock second_day (ticks second_day) = date_stamp 1767355200000 ∧
  ∃ w',
    saveProject linked_record second_day
    = (Returned {| project := "p"; pstatus := p_active;
                   created := "2026-01-01"; updated := "2026-01-02";
                   tasks := tasks linked_record |}, w') ∧
    getProject "p" w'
    = (Returned (Some {| project := "p"; pstatus := p_active;
                         created := "2026-01-01"; updated := "2026-01-02";
                         tasks := tasks linked_record |}), w') ∧
    is_date "2026-01-02".
Proof.
  assert (H1 : tasksDir second_day = Some ∅) by reflexivity.
  assert (H2 : segment (project linked_record))
    by (apply (bool_decide_unpack _); vm_compute; exact I).
  assert (H3 : (∅ : gmap string node) !! (project linked_record +:+ ".json")
               ≠ Some Directory) by (rewrite lookup_empty; discriminate).
  assert (H4 : clock second_day (ticks second_day) = date_stamp 1767355200000)
    by (vm_compute; reflexivity).
  split; [exact H1|]. split; [exact H2|]. split; [exact H3|].
  split; [reflexivity|]. split; [exact H4|].
  destruct (save_then_load second_day ∅ linked_record H1 H2 H3)
    as (w' & saved & c & R & E1 & E2 & E3 & E4 & E5 & D & _ & _ & _ & _ & _ & _ & G & _).
  assert (E : saved = {| project := "p"; pstatus := p_active;
                         created := "2026-01-01"; updated := "2026-01-02";
                         tasks := tasks linked_record |}).
  { destruct saved as [n s cr u ts]. cbn in E1, E2, E3, E4, E5.
    rewrite E1, E2, E3, E4, E5. reflexivity. }
  destruct (D 1767355200000 H4) as [_ Hdate].
  rewrite E in R, G, Hdate. exists w'.
  split; [exact R|]. split; [exact G|]. apply Hdate. lia.
Defined.

(** The text of a record, and values that are not of the declared type. *)
Example stringify_record :
  stringify (TaskProject_value
               {| project := "p"; pstatus := p_active; created := "2026-01-01";
                  updated := "2026-01-02";
                  tasks := [ {| id := "1"; subject := "first"; status := pending;
                                blockedBy := []; blocks := ["2"]; notes := "" |} ] |})
  = String.concat (String double_quote "")
      [ "{" +:+ nl +:+ "  "; "project"; ": "; "p"; "," +:+ nl +:+ "  ";
        "status"; ": "; "active"; "," +:+ nl +:+ "  ";
        "created"; ": "; "2026-01-01"; "," +:+ nl +:+ "  ";
        "updated"; ": "; "2026-01-02"; "," +:+ nl +:+ "  ";
        "tasks"; ": [" +:+ nl +:+ "    {" +:+ nl +:+ "      ";
        "id"; ": "; "1"; "," +:+ nl +:+ "      ";
        "subject"; ": "; "first"; "," +:+ nl +:+ "      ";
        "status"; ": "; "pending"; "," +:+ nl +:+ "      ";
        "blockedBy"; ": []," +:+ nl +:+ "      ";
        "blocks"; ": [" +:+ nl +:+ "        "; "2"; nl +:+ "      ]," +:+ nl +:+ "      ";
        "notes"; ": "; ""; nl +:+ "    }" +:+ nl +:+ "  ]" +:+ nl +:+ "}" ].
Proof. vm_compute. reflexivity. Qed.

Example parse_texts :
  parse "[1, 2.5e3 , true,null, -0.5E-2, {}, [ ] ]"
  = Some (JArray [JNumber "1"; JNumber "2.5e3"; JBool true; JNull; JNumber "-0.5E-2";
                  JObject []; JArray []]) ∧
  parse "[1,]" = None ∧ parse "01" = None ∧ parse "# my plan" = None ∧
  parse "{ project: " = None ∧ parse " null " = Some JNull ∧
  carried "# my plan" = Some (Plain "# my plan") ∧
  carried "null" = Some (Json None) ∧
  carried "{}" = None.
Proof. repeat split; vm_compute; reflexivity. Qed.

(** The stamps of some times: the first and the last millisecond of a day,
    a leap day, and the first day that is written with more than four
    digits for the year. *)
Example date_stamps :
  date_stamp 0 = "1970-01-01" ∧
  toISOString 1767355200000 = "2026-01-02T12:00:00.000Z" ∧
  date_stamp 1767312000000 = "2026-01-02" ∧
  date_stamp 1767398399999 = "2026-01-02" ∧
  date_stamp 1709164800000 = "2024-02-29" ∧
  date_stamp (-1) = "1969-12-31" ∧
  date_stamp 253402300799999 = "9999-12-31" ∧
  date_stamp 253402300800000 = "+010000-01-01".
Proof. repeat split; vm_compute; reflexivity. Qed.

(** C8: the reads throw nothing and change nothing.  [listProjects] and
    [getActiveProjects] return, and return the empty sequence when the
    directory is missing or cannot be read; [getActiveProjects] returns
    exactly the records that are stored under a listed name and are active,
    so what does not load is left out; [getProject] returns, and returns
    null for a missing file, for an entry that cannot be read as a file and
    for a text that does not parse. *)
Theorem reads_never_throw w :
  (∃ names, listProjects w = (Returned names, w) ∧
            (tasksDir w = None → names = []) ∧
     ∃ found, getActiveProjects w = (Returned found, w) ∧
              (tasksDir w = None → found = []) ∧
              ∀ data, data ∈ found ↔
                pstatus data = p_active ∧
                ∃ name, name ∈ names ∧ stored w name = Some data) ∧
  ∀ p, ∃ r, getProject p w = (Returned r, w) ∧
    (∀ d, tasksDir w = Some d →
       d !! (p +:+ ".json") = None ∨ d !! (p +:+ ".json") = Some Directory ∨
       (∃ s, d !! (p +:+ ".json") = Some (File (Plain s))) → r = None) ∧
    (tasksDir w = None → r = None).
Proof.
  split.
  - assert (L : ∃ names, listProjects w = (Returned names, w) ∧
                         (tasksDir w = None → names = [])).
    { unfold listProjects, try_catch, bind, readdirSync. simpl.
      destruct (tasksDir w) as [d|]; simpl.
      - eexists. split; [reflexivity|]. discriminate.
      - eexists. split; [reflexivity|]. reflexivity. }
    destruct L as (names & HL & Hnil).
    exists names. split; [exact HL|]. split; [exact Hnil|].
    unfold getActiveProjects, bind. rewrite HL, mapM_getProject. simpl.
    eexists. split; [reflexivity|]. split.
    + intros Hnone. rewrite (Hnil Hnone). reflexivity.
    + intros data. rewrite list_elem_of_omap. split.
      * intros (o & Ho & Hsome).
        destruct o as [data'|]; [|discriminate].
        destruct (decide (pstatus data' = p_active)) as [Ha|]; [|discriminate].
        injection Hsome as <-. split; [exact Ha|].
        apply list_elem_of_fmap in Ho as (name & Hst & Hname).
        exists name. split; [exact Hname | symmetry; exact Hst].
      * intros (Ha & name & Hname & Hst).
        exists (Some data). split.
        -- apply list_elem_of_fmap. exists name. split; [symmetry; exact Hst | exact Hname].
        -- rewrite decide_True by exact Ha. reflexivity.
  - intros p. exists (stored w p). split; [apply getProject_run|].
    rewrite stored_lookup. split.
    + intros d Hd. rewrite Hd. intros [H|[H|[s H]]]; rewrite H; reflexivity.
    + intros Hd. rewrite Hd. reflexivity.
Qed.



(** C10 (as amended): on a stored project whose ids, read as integers, are
    below 2^53, whatever else they are (not numbers, padded, repeated), the
    id [addTask] gives is the id of no task of the project. *)
Theorem addTask_fresh w p data subject :
  stored w p = Some data → project data = p →
  exact_max (tasks data) < 2 ^ 53 →
  ∃ w' task,
    addTask p subject w = (Returned task, w') ∧
    ∀ t, t ∈ tasks data → id t ≠ id task.
Proof.
  intros Hs Hp Hm.
  destruct (addTask_run w p data subject Hs Hp) as (d & Hd & Hrun).
  eexists _, _. split; [exact Hrun|].
  intros t Hin. rewrite new_task_id by exact Hm. apply next_id_fresh, Hin.
Qed.

(** [addTask_fresh] on [two_tasks]. *)
Lemma addTask_fresh_witness :
  stored two_tasks "p" = Some two_tasks_record ∧
  project two_tasks_record = "p" ∧
  exact_max (tasks two_tasks_record) < 2 ^ 53 ∧
  ∃ w' task,
    addTask "p" "third" two_tasks = (Returned task, w') ∧
    ∀ t, t ∈ tasks two_tasks_record → id t ≠ id task.
Proof.
  assert (H1 : stored two_tasks "p" = Some two_tasks_record) by (vm_compute; reflexivity).
  assert (H2 : project two_tasks_record = "p") by reflexivity.
  assert (H3 : exact_max (tasks two_tasks_record) < 2 ^ 53) by (vm_compute; reflexivity).
  split; [exact H1|]. split; [exact H2|]. split; [exact H3|].
  exact (addTask_fresh two_tasks "p" two_tasks_record "third" H1 H2 H3).
Defined.

(** C10 as stated fails at 2^53: the id given is the id of the task that
    is there. *)
Lemma addTask_repeats_id_at_2_53 :
  stored big_store "big" = Some big_record ∧
  ∃ task w',
    addTask "big" "next" big_store = (Returned task, w') ∧
    id task ∈ (id <$> tasks big_record).
Proof.
  split; [vm_compute; reflexivity|].
  destruct (addTask "big" "next" big_store) as [o w'] eqn:E.
  assert (E1 : o = Returned {| id := "9007199254740992"; subject := "next";
                               status := pending; blockedBy := []; blocks := [];
                               notes := "" |}).
  { apply (f_equal fst) in E. cbn [fst] in E. rewrite <- E. vm_compute. reflexivity. }
  subst o. eexists _, w'. split; [reflexivity|].
  apply (bool_decide_unpack _). vm_compute. exact I.
Qed.

(** * Further properties of the code *)
(** ** The names of the projects *)

Lemma append_cons a (p s : string) : String a p +:+ s = String a (p +:+ s).
Proof. reflexivity. Qed.

Lemma append_empty_r (s : string) : s +:+ "" = s.
Proof.
  induction s as [|a s IH]; [reflexivity|]. rewrite append_cons. f_equal. exact IH.
Qed.

Lemma append_assoc_string (a b c : string) : (a +:+ b) +:+ c = a +:+ (b +:+ c).
Proof.
  induction a as [|x a IH]; [reflexivity|]. rewrite !append_cons. f_equal. exact IH.
Qed.

Lemma substring_zero_length n s : substring n 0 s = "".
Proof.
  revert n. induction s as [|a s IH]; intros [|n]; simpl; try reflexivity. apply IH.
Qed.

Lemma substring_all (s : string) : substring 0 (String.length s) s = s.
Proof. induction s as [|a s IH]; simpl; [reflexivity | now rewrite IH]. Qed.

Lemma substring_app_l (p s : string) : substring 0 (String.length p) (p +:+ s) = p.
Proof.
  induction p as [|a p IH]; [apply (substring_zero_length 0)|].
  rewrite append_cons. simpl. f_equal. exact IH.
Qed.

Lemma substring_app_r (p s : string) n m :
  substring (String.length p + n) m (p +:+ s) = substring n m s.
Proof. induction p as [|a p IH]; [reflexivity | rewrite append_cons; exact IH]. Qed.

Lemma substring_split (s : string) n :
  (n <= String.length s)%nat →
  s = substring 0 n s +:+ substring n (String.length s - n) s.
Proof.
  revert n. induction s as [|a s IH]; intros [|n] H; simpl in *; try reflexivity.
  - change ("" +:+ String a (substring 0 (String.length s) s))
      with (String a (substring 0 (String.length s) s)).
    f_equal. symmetry. apply substring_all.
  - rewrite append_cons. f_equal. apply IH. lia.
Qed.

(** A string ends with a suffix when it is something followed by it. *)
Lemma endsWith_app (g s : string) : endsWith (g +:+ s) s = true.
Proof.
  unfold endsWith. rewrite length_app_string.
  apply andb_true_iff. split; [apply Nat.leb_le; lia|].
  apply bool_decide_eq_true.
  replace (String.length g + String.length s - String.length s)%nat
    with (String.length g + 0)%nat by lia.
  rewrite substring_app_r. apply substring_all.
Qed.

Lemma endsWith_inv (f s : string) : endsWith f s = true → ∃ g, f = g +:+ s.
Proof.
  unfold endsWith. intros [Hle He%bool_decide_eq_true]%andb_true_iff.
  apply Nat.leb_le in Hle.
  exists (substring 0 (String.length f - String.length s) f).
  pose proof (substring_split f (String.length f - String.length s)) as E.
  replace (String.length f - (String.length f - String.length s))%nat
    with (String.length s) in E by lia.
  rewrite He in E. apply E. lia.
Qed.

Lemma prefix_app (p s : string) : String.prefix p (p +:+ s) = true.
Proof.
  induction p as [|a p IH]; [destruct s; reflexivity|].
  rewrite append_cons. cbn [String.prefix].
  destruct (ascii_dec a a); [exact IH | contradiction].
Qed.

Lemma prefix_inv (p s : string) : String.prefix p s = true → ∃ r, s = p +:+ r.
Proof.
  revert s. induction p as [|a p IH]; intros s H.
  - exists s. reflexivity.
  - destruct s as [|b s]; [discriminate|]. cbn [String.prefix] in H.
    destruct (ascii_dec a b) as [->|]; [|discriminate].
    destruct (IH s H) as [r ->]. exists r. reflexivity.
Qed.

(** An occurrence of [.json] in a string followed by [.json] does not
    straddle the two: it starts the string or the whole. *)
Lemma json_no_straddle (s : string) :
  String.prefix ".json" (s +:+ ".json") = true →
  s = "" ∨ String.prefix ".json" s = true.
Proof.
  intros [r Hr]%prefix_inv.
  change (".json" +:+ r)
    with (String "." (String "j" (String "s" (String "o" (String "n" r))))) in Hr.
  destruct s as [|a [|b [|c [|d [|e s]]]]]; [left; reflexivity|..]; right;
    rewrite ?append_cons in Hr; change ("" +:+ ".json") with ".json" in Hr;
    try discriminate Hr.
  injection Hr as -> -> -> -> -> _.
  apply (prefix_app ".json" s).
Qed.

Lemma index_cons pat a s :
  index 0 pat (String a s) =
  if String.prefix pat (String a s) then Some 0%nat
  else match index 0 pat s with Some n => Some (S n) | None => None end.
Proof. reflexivity. Qed.

(** A string followed by [.json] has an occurrence of [.json]. *)
Lemma index_app_is_Some (g pat : string) :
  pat ≠ "" → index 0 pat (g +:+ pat) ≠ None.
Proof.
  intros Hp H.
  apply (index_correct3 0 (String.length g + 0) pat _ H Hp); [lia|].
  rewrite substring_app_r. apply substring_all.
Qed.

Lemma remove_first_at (pat f : string) i :
  index 0 pat f = Some i →
  remove_first f pat =
    substring 0 i f
    +:+ substring (i + String.length pat) (String.length f - (i + String.length pat)) f.
Proof. intros H. unfold remove_first. rewrite H. reflexivity. Qed.

(** The name of a project without [.json] in it is what [listProjects]
    makes of the name of its file. *)
Lemma remove_first_name (p : string) :
  index 0 ".json" p = None → remove_first (p +:+ ".json") ".json" = p.
Proof.
  intros H.
  assert (E : index 0 ".json" (p +:+ ".json") = Some (String.length p)).
  { induction p as [|a p IH]; [reflexivity|].
    rewrite index_cons in H.
    destruct (String.prefix ".json" (String a p)) eqn:Hpre; [discriminate|].
    destruct (index 0 ".json" p) eqn:Hi; [discriminate|].
    change (String a p +:+ ".json") with (String a (p +:+ ".json")).
    rewrite index_cons.
    destruct (String.prefix ".json" (String a (p +:+ ".json"))) eqn:Hpre2.
    - destruct (json_no_straddle (String a p) Hpre2); congruence.
    - rewrite IH by reflexivity. reflexivity. }
  rewrite (remove_first_at _ _ _ E), substring_app_l, length_app_string.
  replace (String.length p + String.length ".json"
           - (String.length p + String.length ".json"))%nat with 0%nat by lia.
  rewrite substring_zero_length. apply append_empty_r.
Qed.

Lemma remove_first_prefix (pat r : string) :
  pat ≠ "" → remove_first (pat +:+ r) pat = r.
Proof.
  intros Hp.
  assert (E : index 0 pat (pat +:+ r) = Some 0%nat).
  { destruct pat as [|a pat]; [contradiction|].
    rewrite append_cons, index_cons, <- append_cons, prefix_app. reflexivity. }
  rewrite (remove_first_at _ _ _ E), length_app_string.
  rewrite (substring_zero_length 0).
  replace (0 + String.length pat)%nat with (String.length pat + 0)%nat by lia.
  rewrite substring_app_r.
  replace (String.length pat + String.length r - (String.length pat + 0))%nat
    with (String.length r) by lia.
  apply substring_all.
Qed.

(** And no other file gives that name. *)
Lemma remove_first_name_inv (g : string) :
  index 0 ".json" (remove_first (g +:+ ".json") ".json") = None →
  remove_first (g +:+ ".json") ".json" = g.
Proof.
  induction g as [|a g IH]; intros H; [reflexivity|].
  destruct (String.prefix ".json" (String a g +:+ ".json")) eqn:Hpre.
  - exfalso.
    destruct (json_no_straddle (String a g) Hpre) as [?|Hp]; [discriminate|].
    destruct (prefix_inv _ _ Hp) as [r Hr].
    rewrite Hr, append_assoc_string, remove_first_prefix in H by discriminate.
    exact (index_app_is_Some r ".json" ltac:(discriminate) H).
  - destruct (index 0 ".json" (g +:+ ".json")) as [i|] eqn:Hi.
    2:{ exfalso. exact (index_app_is_Some g ".json" ltac:(discriminate) Hi). }
    assert (E : index 0 ".json" (String a g +:+ ".json") = Some (S i)).
    { rewrite append_cons, index_cons, <- append_cons, Hpre, Hi. reflexivity. }
    assert (R : remove_first (String a g +:+ ".json") ".json"
                = String a (remove_first (g +:+ ".json") ".json")).
    { rewrite (remove_first_at _ _ _ E), (remove_first_at _ _ _ Hi).
      rewrite append_cons. reflexivity. }
    rewrite R in *. rewrite index_cons in H.
    destruct (String.prefix ".json" _) in H; [discriminate|].
    destruct (index 0 ".json" (remove_first (g +:+ ".json") ".json")) eqn:Hin;
      [discriminate|].
    f_equal. apply IH. reflexivity.
Qed.

Lemma listProjects_run w :
  listProjects w =
  (Returned match tasksDir w with
            | Some d => List.map (λ f, remove_first f ".json")
                          (List.filter (λ f, endsWith f ".json") (map_to_list d).*1)
            | None => []
            end, w).
Proof.
  unfold listProjects, try_catch, bind, readdirSync. simpl.
  destruct (tasksDir w); reflexivity.
Qed.

Lemma listed_in_dir (d : gmap string node) name :
  name ∈ List.map (λ f, remove_first f ".json")
           (List.filter (λ f, endsWith f ".json") (map_to_list d).*1) ↔
  ∃ f, is_Some (d !! f) ∧ endsWith f ".json" = true ∧ remove_first f ".json" = name.
Proof.
  rewrite list_elem_of_In, in_map_iff. split.
  - intros (f & Hr & Hin). apply filter_In in Hin as [Hin He].
    apply list_elem_of_In, list_elem_of_fmap in Hin as ([f' x] & -> & Hin).
    apply elem_of_map_to_list in Hin. simpl in *.
    exists f'. repeat split; eauto.
  - intros (f & [x Hx] & He & Hr).
    exists f. split; [exact Hr|]. apply filter_In. split; [|exact He].
    apply list_elem_of_In, list_elem_of_fmap. exists (f, x).
    split; [reflexivity|]. apply elem_of_map_to_list. exact Hx.
Qed.

(** A name without [.json] in it is listed exactly when its file is there. *)
Lemma listed_name (d : gmap string node) p :
  index 0 ".json" p = None →
  p ∈ List.map (λ f, remove_first f ".json")
        (List.filter (λ f, endsWith f ".json") (map_to_list d).*1) ↔
  is_Some (d !! (p +:+ ".json")).
Proof.
  intros Hp. rewrite listed_in_dir. split.
  - intros (f & Hf & He & Hr).
    destruct (endsWith_inv _ _ He) as [g ->].
    rewrite <- Hr in Hp. rewrite (remove_first_name_inv g Hp) in Hr.
    subst g. exact Hf.
  - intros Hf. exists (p +:+ ".json").
    split; [exact Hf|]. split; [apply endsWith_app | apply remove_first_name, Hp].
Qed.

(** ** Creation of a project *)

Lemma createProject_eq w p :
  createProject p w =
  match tasksDir w with
  | Some d =>
      match d !! (p +:+ ".json") with
      | Some Directory => (Thrown SystemError, tick (tick w))
      | _ =>
          let w1 := written (created_record w p) d (tick w) in
          match plansDir w with
          | Some pd =>
              match pd !! (p +:+ ".md") with
              | Some Directory => (Thrown SystemError, w1)
              | _ => (Returned (created_record w p),
                      planned p (clock w (ticks w)) pd w1)
              end
          | None => (Thrown SystemError, w1)
          end
      end
  | None => (Thrown SystemError, tick (tick w))
  end.
Proof.
  destruct w as [td pd clk n].
  unfold createProject, saveProject, bind, today, writeFileSync, ret, tick, written,
    planned, created_record, set_dir, projectPath, planPath, set_updated;
    cbn [tasksDir plansDir clock ticks project fst snd dir_of].
  destruct td as [d|]; [|reflexivity].
  destruct (d !! (p +:+ ".json")) as [[c|]|]; try reflexivity;
    cbn [plansDir]; (destruct pd as [pd|]; [|reflexivity]);
    destruct (pd !! (p +:+ ".md")) as [[c'|]|]; reflexivity.
Qed.

(** ** What a call leaves alone *)

Lemma same_elsewhere_refl p w : same_elsewhere p w w.
Proof. intros q _. split; reflexivity. Qed.

Lemma same_elsewhere_trans p w1 w2 w3 :
  same_elsewhere p w1 w2 → same_elsewhere p w2 w3 → same_elsewhere p w1 w3.
Proof.
  intros H1 H2 q Hq. destruct (H1 q Hq) as [A B]. destruct (H2 q Hq) as [C D].
  split; congruence.
Qed.

Lemma same_elsewhere_tick p w : same_elsewhere p w (tick w).
Proof. intros q _. split; [apply stored_same_dir|]; reflexivity. Qed.

Lemma same_elsewhere_written p data d w :
  tasksDir w = Some d → project data = p → same_elsewhere p w (written data d w).
Proof.
  intros Hd Hp q Hq. split; [|reflexivity].
  apply stored_written_other; [exact Hd | congruence].
Qed.

Lemma plan_planned p today pd w q :
  plan (planned p today pd w) q =
  if decide (q = p) then Some (File (Plain (planContent p today)))
  else pd !! (q +:+ ".md").
Proof.
  unfold plan, planned. cbn [set_dir plansDir planPath snd mbind option_bind].
  destruct (decide (q = p)) as [->|Hne].
  - apply lookup_insert_eq.
  - apply lookup_insert_ne. intros H. apply Hne. symmetry. exact (app_inj_r _ _ _ H).
Qed.

Lemma same_elsewhere_planned p today pd w :
  plansDir w = Some pd → same_elsewhere p w (planned p today pd w).
Proof.
  intros Hpd q Hq. split; [apply stored_same_dir; reflexivity|].
  rewrite plan_planned, decide_False by exact Hq.
  unfold plan. rewrite Hpd. reflexivity.
Qed.

Lemma saveProject_elsewhere data w :
  same_elsewhere (project data) w (saveProject data w).2.
Proof.
  rewrite saveProject_cases.
  destruct (tasksDir w) as [d|] eqn:Hd; [|apply same_elsewhere_tick].
  destruct (d !! (project data +:+ ".json")) as [[c|]|]; cbn [snd];
    try apply same_elsewhere_tick;
    apply same_elsewhere_written; [exact Hd | reflexivity | exact Hd | reflexivity].
Qed.

Lemma createProject_elsewhere p w : same_elsewhere p w (createProject p w).2.
Proof.
  rewrite createProject_eq.
  assert (T2 : same_elsewhere p w (tick (tick w))).
  { eapply same_elsewhere_trans; apply same_elsewhere_tick. }
  destruct (tasksDir w) as [d|] eqn:Hd; [|exact T2].
  assert (W1 : same_elsewhere p w (written (created_record w p) d (tick w))).
  { eapply same_elsewhere_trans; [apply same_elsewhere_tick|].
    apply same_elsewhere_written; [exact Hd | reflexivity]. }
  assert (W2 : ∀ pd, plansDir w = Some pd →
            same_elsewhere p w
              (planned p (clock w (ticks w)) pd (written (created_record w p) d (tick w)))).
  { intros pd Hpd. eapply same_elsewhere_trans; [exact W1|].
    apply same_elsewhere_planned. exact Hpd. }
  destruct (d !! (p +:+ ".json")) as [[c|]|]; cbv zeta; try exact T2;
    (destruct (plansDir w) as [pd|] eqn:Hpd; [|exact W1]);
    destruct (pd !! (p +:+ ".md")) as [[c'|]|]; cbn [snd];
    try exact W1; apply W2; reflexivity.
Qed.

Lemma createProject_returns p w data w' :
  createProject p w = (Returned data, w') → data = created_record w p.
Proof.
  rewrite createProject_eq.
  destruct (tasksDir w) as [d|]; [|discriminate].
  destruct (d !! (p +:+ ".json")) as [[c|]|]; cbv zeta; try discriminate;
    (destruct (plansDir w) as [pd|]; [|discriminate]);
    destruct (pd !! (p +:+ ".md")) as [[c'|]|]; try discriminate;
    intros [= <- _]; reflexivity.
Qed.

(** One call on a project leaves the other projects and their plans as
    they are, when the record of the project carries its name. *)
Lemma perform_elsewhere p c w :
  consistent w p → same_elsewhere p w (perform p c w).2.
Proof.
  intros Hc. destruct c as [subject | t st | t b | t n]; cbn [perform].
  - destruct (stored w p) as [data|] eqn:Hs.
    + pose proof (Hc data Hs) as Hp.
      destruct (addTask_run w p data subject Hs Hp) as (d & Hd & ->). cbn [snd].
      apply same_elsewhere_written; [exact Hd | exact Hp].
    + rewrite (addTask_absent_eq w p subject Hs).
      pose proof (createProject_elsewhere p w) as H1.
      destruct (createProject p w) as [[data|e] w1] eqn:Hcr; cbn [snd] in *.
      2:{ exact H1. }
      apply createProject_returns in Hcr. subst data.
      pose proof (saveProject_elsewhere
                    (set_tasks (tasks (created_record w p)
                                ++ [new_task (tasks (created_record w p)) subject])
                               (created_record w p)) w1) as H2.
      cbn [project set_tasks created_record] in H2.
      destruct (saveProject _ w1) as [[r|e] w2]; cbn [snd] in *;
        eapply same_elsewhere_trans; eassumption.
  - destruct (unresolved_cases w p t) as [(data & i & task & Hs & Hf) | Hn].
    + pose proof (Hc data Hs) as Hp.
      destruct (updateTaskStatus_run w p data t st i task Hs Hp Hf) as (d & Hd & ->).
      cbn [snd]. apply same_elsewhere_written; [exact Hd | exact Hp].
    + destruct (not_found_runs w p t Hn t st "") as (_ & _ & -> & _). cbn [snd].
      apply same_elsewhere_refl.
  - destruct (unresolved_cases w p t) as [(data & i & task & Hs & Hf) | Hn].
    + destruct (unresolved_cases w p b) as [(data' & j & blocker & Hs' & Hf') | Hn].
      * rewrite Hs in Hs'. injection Hs' as <-.
        pose proof (Hc data Hs) as Hp.
        destruct (setBlocker_run w p data t b i task j blocker Hs Hp Hf Hf')
          as (d & Hd & ->).
        cbn [snd]. apply same_elsewhere_written; [exact Hd | exact Hp].
      * destruct (not_found_runs w p b Hn t pending "") as (_ & -> & _). cbn [snd].
        apply same_elsewhere_refl.
    + destruct (not_found_runs w p t Hn b pending "") as (-> & _). cbn [snd].
      apply same_elsewhere_refl.
  - destruct (unresolved_cases w p t) as [(data & i & task & Hs & Hf) | Hn].
    + pose proof (Hc data Hs) as Hp.
      destruct (updateTaskNotes_run w p data t n i task Hs Hp Hf) as (d & Hd & ->).
      cbn [snd]. apply same_elsewhere_written; [exact Hd | exact Hp].
    + destruct (not_found_runs w p t Hn t pending n) as (_ & _ & _ & ->). cbn [snd].
      apply same_elsewhere_refl.
Qed.

Lemma session_elsewhere p cs w :
  consistent w p → same_elsewhere p w (session p cs w).2.
Proof.
  revert w. induction cs as [|c cs IH]; intros w Hc; [apply same_elsewhere_refl|].
  rewrite session_cons. cbn [snd].
  destruct (perform_step p c w Hc) as [Hc' _].
  eapply same_elsewhere_trans; [apply perform_elsewhere, Hc | apply IH, Hc'].
Qed.

(** ** The record of a project along a session *)

Lemma perform_record p c w data :
  stored w p = Some data → project data = p →
  ∃ data', stored (perform p c w).2 p = Some data' ∧ project data' = p ∧
           pstatus data' = pstatus data ∧ created data' = created data.
Proof.
  intros Hs Hp.
  assert (W : ∀ ts d stamp,
            ∃ data', stored (written (set_updated stamp (set_tasks ts data)) d w) p
                     = Some data' ∧ project data' = p ∧
                     pstatus data' = pstatus data ∧ created data' = created data).
  { intros ts d stamp. eexists. split; [apply stored_written_same; exact Hp|].
    repeat split. exact Hp. }
  assert (U : ∃ data', stored w p = Some data' ∧ project data' = p ∧
                       pstatus data' = pstatus data ∧ created data' = created data)
    by (exists data; auto).
  destruct c as [subject | t st | t b | t n]; cbn [perform].
  - destruct (addTask_run w p data subject Hs Hp) as (d & Hd & ->). apply W.
  - destruct (find t (tasks data)) as [[i task]|] eqn:Hf.
    + destruct (updateTaskStatus_run w p data t st i task Hs Hp Hf) as (d & Hd & ->).
      apply W.
    + destruct (not_found_runs w p t) with (other := t) (st := st) (n := "")
        as (_ & _ & -> & _); [|exact U].
      intros (data' & i & x & Hs' & Hx). congruence.
  - destruct (find t (tasks data)) as [[i task]|] eqn:Hf.
    + destruct (find b (tasks data)) as [[j blocker]|] eqn:Hb.
      * destruct (setBlocker_run w p data t b i task j blocker Hs Hp Hf Hb)
          as (d & Hd & ->). apply W.
      * destruct (not_found_runs w p b) with (other := t) (st := pending) (n := "")
          as (_ & -> & _); [|exact U].
        intros (data' & i' & x & Hs' & Hx). congruence.
    + destruct (not_found_runs w p t) with (other := b) (st := pending) (n := "")
        as (-> & _); [|exact U].
      intros (data' & i & x & Hs' & Hx). congruence.
  - destruct (find t (tasks data)) as [[i task]|] eqn:Hf.
    + destruct (updateTaskNotes_run w p data t n i task Hs Hp Hf) as (d & Hd & ->).
      apply W.
    + destruct (not_found_runs w p t) with (other := t) (st := pending) (n := n)
        as (_ & _ & _ & ->); [|exact U].
      intros (data' & i & x & Hs' & Hx). congruence.
Qed.

(** A call on a name under which nothing is stored leaves nothing there or
    a project that is active. *)
Lemma perform_absent p c w :
  stored w p = None →
  stored (perform p c w).2 p = None ∨
  ∃ data, stored (perform p c w).2 p = Some data ∧ project data = p
          ∧ pstatus data = p_active.
Proof.
  intros Hs.
  assert (Hn : ∀ x, ¬ resolves w p x).
  { intros x (data & i & t & Hs' & _). congruence. }
  destruct c as [subject | t st | t b | t n]; cbn [perform].
  - rewrite (addTask_absent_eq w p subject Hs), createProject_eq.
    destruct (tasksDir w) as [d|] eqn:Hd.
    2:{ left. cbn [snd]. rewrite stored_lookup. cbn [tick tasksDir]. now rewrite Hd. }
    rewrite stored_lookup, Hd in Hs.
    assert (A : ∀ w0, ∃ data, stored (written (created_record w p) d w0) p = Some data
                              ∧ project data = p ∧ pstatus data = p_active).
    { intros w0. eexists. split; [apply stored_written_same; reflexivity|]. auto. }
    destruct (d !! (p +:+ ".json")) as [[c|]|] eqn:Hl; cbv zeta.
    2:{ left. cbn [snd]. rewrite stored_lookup. cbn [tick tasksDir]. now rewrite Hd, Hl. }
    all: destruct (plansDir w) as [pd|]; [|right; apply A];
      destruct (pd !! (p +:+ ".md")) as [[c'|]|]; try (right; apply A);
      rewrite saveProject_cases; cbn [planned set_dir written tasksDir project
                                        set_tasks created_record];
      rewrite lookup_insert_eq; cbn [snd]; right;
      (eexists; split; [apply stored_written_same; reflexivity|]; auto).
  - destruct (not_found_runs w p t (Hn t) t st "") as (_ & _ & -> & _). auto.
  - destruct (not_found_runs w p t (Hn t) b pending "") as (-> & _). auto.
  - destruct (not_found_runs w p t (Hn t) t pending n) as (_ & _ & _ & ->). auto.
Qed.

Lemma session_active p cs w :
  (∀ data, stored w p = Some data → project data = p ∧ pstatus data = p_active) →
  ∀ data, stored (session p cs w).2 p = Some data →
          project data = p ∧ pstatus data = p_active.
Proof.
  revert w. induction cs as [|c cs IH]; intros w H; [exact H|].
  rewrite session_cons. cbn [snd]. apply IH.
  intros data1 Hs1.
  destruct (stored w p) as [data|] eqn:Hs.
  - destruct (H data eq_refl) as [Hp Ha].
    destruct (perform_record p c w data Hs Hp) as (data' & Hs' & Hp' & Hst' & _).
    rewrite Hs1 in Hs'. injection Hs' as <-. split; congruence.
  - destruct (perform_absent p c w Hs) as [Hn | (data' & Hs' & Hp' & Ha')];
      [congruence|].
    rewrite Hs1 in Hs'. injection Hs' as <-. auto.
Qed.

Lemma getActiveProjects_run w names :
  listProjects w = (Returned names, w) →
  getActiveProjects w =
  (Returned (omap (λ p : option TaskProject,
                     match p with
                     | Some data =>
                         if decide (pstatus data = p_active) then Some data else None
                     | None => None
                     end) (stored w <$> names)), w).
Proof.
  intros HL. unfold getActiveProjects, bind. rewrite HL, mapM_getProject. reflexivity.
Qed.

(** A stored active project whose name has no [.json] in it is among the
    active projects. *)
Lemma active_listed w p data :
  stored w p = Some data → pstatus data = p_active → index 0 ".json" p = None →
  ∃ found, getActiveProjects w = (Returned found, w) ∧ data ∈ found.
Proof.
  intros Hs Ha Hp. destruct (stored_Some _ _ _ Hs) as (d & Hd & Hl).
  pose proof (listProjects_run w) as HL. rewrite Hd in HL.
  rewrite (getActiveProjects_run _ _ HL).
  eexists. split; [reflexivity|].
  apply list_elem_of_omap. exists (Some data). split.
  - apply list_elem_of_fmap. exists p. split; [symmetry; exact Hs|].
    apply listed_name; [exact Hp|]. rewrite Hl. eauto.
  - rewrite decide_True by exact Ha. reflexivity.
Qed.

(** ** The tasks of a project along a session *)

Lemma link_at_subject i j t b k x : subject (link_at i j t b k x) = subject x.
Proof. unfold link_at. repeat destruct (decide _); reflexivity. Qed.

Lemma link_at_notes i j t b k x : notes (link_at i j t b k x) = notes x.
Proof. unfold link_at. repeat destruct (decide _); reflexivity. Qed.

Lemma set_status_same s x : status x = s → set_status s x = x.
Proof. intros <-. destruct x; reflexivity. Qed.

(** The task at a place after [updateTaskStatus] has changed the tasks. *)
Lemma change_status_lookup i task t st ts k x :
  ts !! i = Some task → ts !! k = Some x →
  (change_status i task t st ts).1 !! k =
  Some (let x1 := if decide (k = i) then set_status st task else x in
        if decide (st = completed) then relax t x1 else x1).
Proof.
  intros Hi Hk. rewrite change_status_eq. cbv zeta.
  assert (E : <[i := set_status st task]> ts !! k
              = Some (if decide (k = i) then set_status st task else x)).
  { destruct (decide (k = i)) as [->|Hne].
    - apply list_lookup_insert_eq. exact (lookup_lt_Some _ _ _ Hi).
    - rewrite list_lookup_insert_ne by congruence. exact Hk. }
  destruct (decide (st = completed)); cbn [fst].
  - rewrite list_lookup_fmap, E. reflexivity.
  - exact E.
Qed.

Lemma link_lookup i task j t b ts k x :
  ts !! i = Some task → ts !! k = Some x →
  link i task j t b ts !! k = Some (link_at i j t b k x).
Proof.
  intros Hi Hk. rewrite (link_imap _ _ _ _ _ _ Hi), list_lookup_imap, Hk. reflexivity.
Qed.

Lemma notes_lookup i task n (ts : list Task) k x :
  ts !! i = Some task → ts !! k = Some x →
  <[i := set_notes n task]> ts !! k = Some (if decide (k = i) then set_notes n x else x).
Proof.
  intros Hi Hk. destruct (decide (k = i)) as [->|Hne].
  - rewrite Hi in Hk. injection Hk as <-.
    apply list_lookup_insert_eq. exact (lookup_lt_Some _ _ _ Hi).
  - rewrite list_lookup_insert_ne by congruence. exact Hk.
Qed.

(** A call keeps every task in its place, with its id and its subject, and
    with its notes unless it is an [updateTaskNotes]. *)
Lemma step_keeps ts c r ts' k x :
  step ts c r ts' → ts !! k = Some x →
  ∃ x', ts' !! k = Some x' ∧ id x' = id x ∧ subject x' = subject x ∧
        ((∀ t n, c ≠ UpdateTaskNotes t n) → notes x' = notes x).
Proof.
  intros Hs Hk. destruct Hs as [ts c | ts s | ts t st i task Hf | ts t b i task j blocker Hf Hb
                                | ts t n i task Hf].
  - exists x. auto.
  - exists x. split; [apply lookup_app_l_Some; exact Hk | auto].
  - apply find_Some in Hf as (Hi & _).
    eexists. split; [apply (change_status_lookup _ _ _ _ _ _ _ Hi Hk)|].
    cbv zeta.
    assert (E : id (if decide (k = i) then set_status st task else x) = id x
                ∧ subject (if decide (k = i) then set_status st task else x) = subject x
                ∧ notes (if decide (k = i) then set_status st task else x) = notes x).
    { destruct (decide (k = i)) as [->|]; [|auto].
      rewrite Hi in Hk. injection Hk as <-. auto. }
    destruct E as (E1 & E2 & E3).
    destruct (decide (st = completed)); [|auto].
    destruct (relax_fields t (if decide (k = i) then set_status st task else x))
      as (R1 & R2 & R3 & _).
    rewrite R1, R2, R3. auto.
  - apply find_Some in Hf as (Hi & _).
    eexists. split; [apply (link_lookup _ _ _ _ _ _ _ _ Hi Hk)|].
    rewrite link_at_id, link_at_subject, link_at_notes. auto.
  - apply find_Some in Hf as (Hi & _).
    eexists. split; [apply (notes_lookup _ _ _ _ _ _ Hi Hk)|].
    destruct (decide (k = i)); [|auto].
    repeat split. intros Hc. exfalso. exact (Hc t n eq_refl).
Qed.

(** A call other than setting the status [blocked] by hand leaves no task
    blocked without a blocker. *)
Lemma step_blocked ts c r ts' :
  (∀ t, c ≠ UpdateTaskStatus t blocked) →
  (∀ x, x ∈ ts → status x = blocked → blockedBy x ≠ []) →
  step ts c r ts' →
  ∀ x, x ∈ ts' → status x = blocked → blockedBy x ≠ [].
Proof.
  intros Hc HI Hs.
  destruct Hs as [ts c | ts s | ts t st i task Hf | ts t b i task j blocker Hf Hb
                  | ts t n i task Hf]; intros x' Hin Hst.
  - exact (HI x' Hin Hst).
  - apply elem_of_app in Hin as [Hin|Hin]; [exact (HI x' Hin Hst)|].
    apply list_elem_of_singleton in Hin. subst x'. discriminate Hst.
  - apply find_Some in Hf as (Hi & _).
    apply list_elem_of_lookup in Hin as [k Hk].
    assert (Hlen : length (change_status i task t st ts).1 = length ts).
    { rewrite <- (length_fmap id), (ids_change_status _ _ _ _ _ Hi). apply length_fmap. }
    destruct (ts !! k) as [x|] eqn:Hx.
    2:{ apply lookup_ge_None in Hx. apply lookup_lt_Some in Hk. lia. }
    rewrite (change_status_lookup _ _ _ _ _ _ _ Hi Hx) in Hk. injection Hk as <-.
    cbv zeta in *.
    assert (Hne : st ≠ blocked) by (intros ->; exact (Hc t eq_refl)).
    set (x1 := if decide (k = i) then set_status st task else x) in *.
    assert (H1 : status x1 = blocked → blockedBy x1 ≠ []).
    { subst x1. destruct (decide (k = i)) as [->|].
      - cbn [set_status status]. intros E. contradiction.
      - apply HI. apply list_elem_of_lookup. eauto. }
    destruct (decide (st = completed)) as [->|]; [|exact (H1 Hst)].
    destruct (relax_fields t x1) as (_ & _ & _ & _ & R5 & R6).
    rewrite R6 in Hst. rewrite R5.
    destruct (decide (unblocks t x1)) as [U|U]; [discriminate|].
    intros Hnil. destruct (decide (t ∈ blockedBy x1)) as [Hin|Hout].
    + apply U. split; [exact Hin|]. split; [exact Hnil | exact Hst].
    + pose proof (relax_untouched t x1 Hout) as E.
      apply (f_equal blockedBy) in E. rewrite R5, Hnil in E.
      exact (H1 Hst (eq_sym E)).
  - apply find_Some in Hf as (Hi & _).
    apply list_elem_of_lookup in Hin as [k Hk].
    destruct (ts !! k) as [x|] eqn:Hx.
    2:{ apply lookup_ge_None in Hx. apply lookup_lt_Some in Hk.
        rewrite <- (length_fmap id), (ids_link _ _ _ _ _ _ Hi), length_fmap in Hk. lia. }
    rewrite (link_lookup _ _ _ _ _ _ _ _ Hi Hx) in Hk. injection Hk as <-.
    rewrite link_at_status in Hst. rewrite link_at_blockedBy.
    destruct (decide (k = i ∧ b ∉ blockedBy x)).
    + intros E. apply app_eq_nil in E as [_ E]. discriminate E.
    + apply HI; [|exact Hst]. apply list_elem_of_lookup. eauto.
  - apply find_Some in Hf as (Hi & _).
    apply list_elem_of_lookup in Hin as [k Hk].
    destruct (ts !! k) as [x|] eqn:Hx.
    2:{ apply lookup_ge_None in Hx. apply lookup_lt_Some in Hk.
        rewrite length_insert in Hk. lia. }
    rewrite (notes_lookup _ _ _ _ _ _ Hi Hx) in Hk. injection Hk as <-.
    assert (Hx' : x ∈ ts) by (apply list_elem_of_lookup; eauto).
    destruct (decide (k = i)); [|exact (HI x Hx' Hst)].
    cbn [set_notes blockedBy status] in *. exact (HI x Hx' Hst).
Qed.

(** ** More on [updateTaskStatus] *)

(** The task found by its id stays the first with that id when the tasks
    keep their ids. *)
Lemma find_after ts ts' t i x x' :
  id <$> ts' = id <$> ts → find t ts = Some (i, x) → ts' !! i = Some x' →
  find t ts' = Some (i, x').
Proof.
  intros Hids Hf Hi'. destruct (find_same_ids _ _ _ _ _ Hids Hf) as (y & Hy & Hfy).
  rewrite Hi' in Hy. injection Hy as <-. exact Hfy.
Qed.

Lemma relax_fixed t (ts : list Task) :
  (∀ x, x ∈ ts → t ∉ blockedBy x) →
  relax t <$> ts = ts ∧ filter (unblocks t) ts = [].
Proof.
  intros H. split.
  - rewrite <- (list_fmap_id ts) at 2. apply list_fmap_ext.
    intros k x Hk. apply relax_untouched, H, list_elem_of_lookup. eauto.
  - induction ts as [|x ts IH]; [reflexivity|].
    rewrite filter_cons_False.
    + apply IH. intros y Hy. apply H. now right.
    + intros [Hin _]. exact (H x ltac:(left) Hin).
Qed.

Lemma relax_clears t x : t ∉ blockedBy (relax t x).
Proof.
  destruct (relax_fields t x) as (_ & _ & _ & _ & R5 & _). rewrite R5.
  intros Hin. apply list_elem_of_filter in Hin as [Hne _]. apply Hne. reflexivity.
Qed.

(** A call leaves no id twice in a [blockedBy] or in a [blocks]. *)
Lemma step_NoDup ts c r ts' :
  (∀ x, x ∈ ts → NoDup (blockedBy x) ∧ NoDup (blocks x)) →
  step ts c r ts' →
  ∀ x, x ∈ ts' → NoDup (blockedBy x) ∧ NoDup (blocks x).
Proof.
  intros HI Hs.
  destruct Hs as [ts c | ts s | ts t st i task Hf | ts t b i task j blocker Hf Hb
                  | ts t n i task Hf]; intros x' Hin.
  - exact (HI x' Hin).
  - apply elem_of_app in Hin as [Hin|Hin]; [exact (HI x' Hin)|].
    apply list_elem_of_singleton in Hin. subst x'. split; apply NoDup_nil; exact I.
  - apply find_Some in Hf as (Hi & _).
    apply list_elem_of_lookup in Hin as [k Hk].
    destruct (ts !! k) as [x|] eqn:Hx.
    2:{ apply lookup_ge_None in Hx. apply lookup_lt_Some in Hk.
        rewrite <- (length_fmap id), (ids_change_status _ _ _ _ _ Hi), length_fmap in Hk.
        lia. }
    rewrite (change_status_lookup _ _ _ _ _ _ _ Hi Hx) in Hk. injection Hk as <-.
    cbv zeta.
    set (x1 := if decide (k = i) then set_status st task else x).
    assert (H1 : NoDup (blockedBy x1) ∧ NoDup (blocks x1)).
    { subst x1. destruct (decide (k = i)) as [->|].
      - cbn [set_status blockedBy blocks]. apply HI, list_elem_of_lookup. eauto.
      - apply HI, list_elem_of_lookup. eauto. }
    destruct (decide (st = completed)); [|exact H1].
    destruct (relax_fields t x1) as (_ & _ & _ & R4 & R5 & _).
    rewrite R4, R5. destruct H1 as [A B]. split; [apply NoDup_filter, A | exact B].
  - apply find_Some in Hf as (Hi & _).
    apply list_elem_of_lookup in Hin as [k Hk].
    destruct (ts !! k) as [x|] eqn:Hx.
    2:{ apply lookup_ge_None in Hx. apply lookup_lt_Some in Hk.
        rewrite <- (length_fmap id), (ids_link _ _ _ _ _ _ Hi), length_fmap in Hk. lia. }
    rewrite (link_lookup _ _ _ _ _ _ _ _ Hi Hx) in Hk. injection Hk as <-.
    rewrite link_at_blockedBy, link_at_blocks.
    destruct (HI x) as [A B]; [apply list_elem_of_lookup; eauto|].
    split.
    + destruct (decide (k = i ∧ b ∉ blockedBy x)) as [[_ Hout]|]; [|exact A].
      apply NoDup_app. split; [exact A|]. split; [|apply NoDup_singleton].
      intros y Hy ->%list_elem_of_singleton. contradiction.
    + destruct (decide (k = j ∧ t ∉ blocks x)) as [[_ Hout]|]; [|exact B].
      apply NoDup_app. split; [exact B|]. split; [|apply NoDup_singleton].
      intros y Hy ->%list_elem_of_singleton. contradiction.
  - apply find_Some in Hf as (Hi & _).
    apply list_elem_of_lookup in Hin as [k Hk].
    destruct (ts !! k) as [x|] eqn:Hx.
    2:{ apply lookup_ge_None in Hx. apply lookup_lt_Some in Hk.
        rewrite length_insert in Hk. lia. }
    rewrite (notes_lookup _ _ _ _ _ _ Hi Hx) in Hk. injection Hk as <-.
    assert (Hx' : x ∈ ts) by (apply list_elem_of_lookup; eauto).
    destruct (decide (k = i)); exact (HI x Hx').
Qed.

(** ** The tools *)

Lemma change_status_found i task t st ts :
  find t ts = Some (i, task) →
  ∃ ret, (change_status i task t st ts).1 !! i = Some ret ∧
         find t (change_status i task t st ts).1 = Some (i, ret) ∧
         status ret = st ∧ id ret = t ∧ subject ret = subject task ∧
         notes ret = notes task ∧ blocks ret = blocks task.
Proof.
  intros Hf. pose proof (proj1 (find_Some _ _ _ _) Hf) as (Hi & Hid & _).
  pose proof (change_status_lookup i task t st ts i task Hi Hi) as Hl.
  cbv zeta in Hl. destruct (decide (i = i)) as [_|]; [|contradiction].
  eexists. split; [exact Hl|]. split.
  { apply (find_after ts _ t i task);
      [apply ids_change_status; exact Hi | exact Hf | exact Hl]. }
  destruct (decide (st = completed)) as [->|]; [|repeat split; exact Hid].
  destruct (relax_fields t (set_status completed task)) as (R1 & R2 & R3 & R4 & _ & R6).
  rewrite R1, R2, R3, R4, R6.
  rewrite decide_False by (intros (_ & _ & E); discriminate E).
  repeat split. exact Hid.
Qed.

Lemma notes_found i task t n ts :
  find t ts = Some (i, task) →
  find t (<[i := set_notes n task]> ts) = Some (i, set_notes n task).
Proof.
  intros Hf. pose proof (proj1 (find_Some _ _ _ _) Hf) as (Hi & _).
  apply (find_after ts _ t i task); [|exact Hf|].
  - apply (ids_insert _ _ task); [exact Hi | reflexivity].
  - apply list_lookup_insert_eq. exact (lookup_lt_Some _ _ _ Hi).
Qed.

Lemma task_get_found w p data t i task :
  stored w p = Some data → find t (tasks data) = Some (i, task) →
  ∃ c, task_get p t w = (Returned {| content := c; details := Got task |}, w).
Proof.
  intros Hs Hf. unfold task_get, bind. rewrite getProject_run, Hs, Hf.
  eexists. reflexivity.
Qed.

Lemma task_get_not_found w p t :
  ¬ resolves w p t →
  ∃ m, not_found w p ("Task '" +:+ t +:+ "' not found in project '" +:+ p +:+ "'")
       = Error m ∧
       task_get p t w = (Returned {| content := m; details := NotFound |}, w).
Proof.
  intros Hn. unfold task_get, bind, not_found. rewrite getProject_run.
  destruct (stored w p) as [data|] eqn:Hs.
  - destruct (find t (tasks data)) as [[i x]|] eqn:Hf.
    + exfalso. apply Hn. exists data, i, x. auto.
    + eexists. split; reflexivity.
  - eexists. split; reflexivity.
Qed.

(** One turn of the loop of [task_create], seen on the tasks. *)
Lemma try_link_step ts tid b i task :
  find tid ts = Some (i, task) →
  ∃ task' extra,
    id <$> try_link tid ts b = id <$> ts ∧
    find tid (try_link tid ts b) = Some (i, task') ∧
    subject task' = subject task ∧
    blockedBy task' = blockedBy task ++ extra ∧
    (∀ x, x ∈ extra ↔ x = b ∧ b ∈ (id <$> ts) ∧ b ∉ blockedBy task) ∧
    NoDup extra ∧
    (extra = [] → status task' = status task) ∧
    (extra ≠ [] → status task' = blocked) ∧
    (∀ k x, ts !! k = Some x →
       ∃ x', try_link tid ts b !! k = Some x' ∧ ∀ y, y ∈ blocks x → y ∈ blocks x') ∧
    (∀ j blocker', find b (try_link tid ts b) = Some (j, blocker') →
       tid ∈ blocks blocker').
Proof.
  intros Hf. pose proof (proj1 (find_Some _ _ _ _) Hf) as (Hi & Hid & _).
  unfold try_link. rewrite Hf.
  destruct (find b ts) as [[j blocker]|] eqn:Hb.
  - pose proof (proj1 (find_Some _ _ _ _) Hb) as (Hj & Hjd & _).
    assert (Hin : b ∈ id <$> ts).
    { apply list_elem_of_fmap. exists blocker. split; [congruence|].
      apply list_elem_of_lookup. eauto. }
    destruct (link_effect ts tid b i task j blocker Hf Hb)
      as (task' & blocker' & Hids & Hi' & Hj' & Hft & Hfb & _ & Hblk & _).
    rewrite (link_lookup _ _ _ _ _ _ _ _ Hi Hi) in Hi'. injection Hi' as <-.
    exists (link_at i j tid b i task),
           (if decide (b ∉ blockedBy task) then [b] else []).
    split; [exact Hids|]. split; [exact Hft|].
    split; [apply link_at_subject|].
    rewrite link_at_blockedBy, link_at_status.
    destruct (decide (b ∉ blockedBy task)) as [Hout|Hinb].
    + rewrite !decide_True by (split; [reflexivity | exact Hout]).
      split; [reflexivity|].
      split; [intros x; rewrite list_elem_of_singleton; tauto|].
      split; [apply NoDup_singleton|].
      split; [discriminate|]. split; [reflexivity|].
      split.
      * intros k x Hk. eexists. split; [apply (link_lookup _ _ _ _ _ _ _ _ Hi Hk)|].
        intros y Hy. rewrite link_at_blocks. destruct (decide _); [|exact Hy].
        apply elem_of_app. left. exact Hy.
      * intros j' b' Hfb'. rewrite Hfb in Hfb'. injection Hfb' as _ <-. exact Hblk.
    + rewrite !decide_False by (intros [_ H]; contradiction).
      split; [symmetry; apply app_nil_r|].
      split; [intros x; split; [intros H; inversion H | intros (_ & _ & H); contradiction]|].
      split; [apply NoDup_nil; exact I|].
      split; [reflexivity|]. split; [intros H; contradiction|].
      split.
      * intros k x Hk. eexists. split; [apply (link_lookup _ _ _ _ _ _ _ _ Hi Hk)|].
        intros y Hy. rewrite link_at_blocks. destruct (decide _); [|exact Hy].
        apply elem_of_app. left. exact Hy.
      * intros j' b' Hfb'. rewrite Hfb in Hfb'. injection Hfb' as _ <-. exact Hblk.
  - exists task, [].
    split; [reflexivity|]. split; [exact Hf|]. split; [reflexivity|].
    split; [symmetry; apply app_nil_r|].
    split.
    { intros x. split; [intros H; inversion H|]. intros (_ & Hin & _).
      apply list_elem_of_fmap in Hin as (y & -> & Hy).
      exfalso. exact (proj1 (find_None _ _) Hb y Hy eq_refl). }
    split; [apply NoDup_nil; exact I|].
    split; [reflexivity|]. split; [intros H; contradiction|].
    split; [intros k x Hk; exists x; auto|].
    intros j' b' Hfb'. congruence.
Qed.

(** The whole loop, seen on the tasks. *)
Lemma try_link_fold tid i bs : ∀ ts task,
  find tid ts = Some (i, task) →
  ∃ task' extra,
    id <$> fold_left (try_link tid) bs ts = id <$> ts ∧
    find tid (fold_left (try_link tid) bs ts) = Some (i, task') ∧
    subject task' = subject task ∧
    blockedBy task' = blockedBy task ++ extra ∧
    (∀ x, x ∈ extra ↔ x ∈ bs ∧ x ∈ (id <$> ts) ∧ x ∉ blockedBy task) ∧
    NoDup extra ∧
    (extra = [] → status task' = status task) ∧
    (extra ≠ [] → status task' = blocked) ∧
    (∀ k x, ts !! k = Some x →
       ∃ x', fold_left (try_link tid) bs ts !! k = Some x'
             ∧ ∀ y, y ∈ blocks x → y ∈ blocks x') ∧
    (∀ b j blocker', b ∈ bs →
       find b (fold_left (try_link tid) bs ts) = Some (j, blocker') →
       tid ∈ blocks blocker').
Proof.
  induction bs as [|b bs IH]; intros ts task Hf.
  - exists task, []. cbn [fold_left].
    split; [reflexivity|]. split; [exact Hf|]. split; [reflexivity|].
    split; [symmetry; apply app_nil_r|].
    split; [intros x; split; [intros H; inversion H | intros (H & _); inversion H]|].
    split; [apply NoDup_nil; exact I|].
    split; [reflexivity|]. split; [intros H; contradiction|].
    split; [intros k x Hk; exists x; auto|].
    intros b j blk H. inversion H.
  - cbn [fold_left].
    destruct (try_link_step ts tid b i task Hf)
      as (task1 & e1 & Hids1 & Hf1 & Hsub1 & Hb1 & He1 & Hnd1 & Hs1 & Hs1' & Hm1 & Hk1).
    destruct (IH _ task1 Hf1)
      as (task2 & e2 & Hids2 & Hf2 & Hsub2 & Hb2 & He2 & Hnd2 & Hs2 & Hs2' & Hm2 & Hk2).
    exists task2, (e1 ++ e2).
    split; [congruence|]. split; [exact Hf2|]. split; [congruence|].
    split; [rewrite Hb2, Hb1, app_assoc; reflexivity|].
    assert (Hmem : ∀ x, x ∈ e1 ++ e2 ↔
                        x ∈ b :: bs ∧ x ∈ (id <$> ts) ∧ x ∉ blockedBy task).
    { intros x. rewrite elem_of_app, He1, He2, Hids1, Hb1, elem_of_cons, not_elem_of_app, He1.
      split.
      - intros [(-> & H1 & H2) | (H1 & H2 & H3 & H4)]; tauto.
      - intros ([-> | Hin] & H2 & H3).
        + left. tauto.
        + destruct (decide (x = b)) as [->|Hne]; [left; tauto|].
          right. repeat split; try assumption. intros (E & _). contradiction. }
    split; [exact Hmem|].
    split.
    { apply NoDup_app. split; [exact Hnd1|]. split; [|exact Hnd2].
      intros x Hx1 Hx2. apply He2 in Hx2 as (_ & _ & Hout).
      apply Hout. rewrite Hb1. apply elem_of_app. right. exact Hx1. }
    split.
    { intros E. apply app_eq_nil in E as [E1 E2]. rewrite (Hs2 E2). exact (Hs1 E1). }
    split.
    { intros E. destruct e2 as [|y e2]; [|apply Hs2'; discriminate].
      rewrite (Hs2 eq_refl). apply Hs1'. intros ->. apply E. reflexivity. }
    split.
    { intros k x Hk. destruct (Hm1 k x Hk) as (x1 & Hx1 & Hsub).
      destruct (Hm2 k x1 Hx1) as (x2 & Hx2 & Hsub').
      exists x2. split; [exact Hx2|]. intros y Hy. apply Hsub', Hsub, Hy. }
    intros b' j blk [->|Hin]%elem_of_cons Hfb; [|exact (Hk2 b' j blk Hin Hfb)].
    destruct (find_same_ids _ (try_link tid ts b) b j blk (eq_sym Hids2) Hfb)
      as (blk1 & Hj1 & Hfb1).
    pose proof (Hk1 j blk1 Hfb1) as Hin1.
    destruct (Hm2 j blk1 Hj1) as (x2 & Hx2 & Hsub).
    apply find_Some in Hfb as (Hj & _). rewrite Hj in Hx2. injection Hx2 as <-.
    apply Hsub, Hin1.
Qed.

(** The loop of [task_create] on a stored project. *)
Lemma link_blockers_run p tid bs : ∀ w data,
  stored w p = Some data → project data = p →
  ∃ w' data',
    for_each bs (λ blockerId, try_catch (setBlocker p tid blockerId) (ret tt)) w
      = (Returned tt, w') ∧
    stored w' p = Some data' ∧ project data' = p ∧
    tasks data' = fold_left (try_link tid) bs (tasks data).
Proof.
  induction bs as [|b bs IH]; intros w data Hs Hp.
  - exists w, data. auto.
  - cbn [for_each fold_left]. unfold bind at 1, try_catch at 1.
    assert (Hthrow : try_link tid (tasks data) b = tasks data →
              ∃ w' data',
                for_each bs (λ blockerId, try_catch (setBlocker p tid blockerId) (ret tt)) w
                  = (Returned tt, w') ∧
                stored w' p = Some data' ∧ project data' = p ∧
                tasks data' = fold_left (try_link tid) bs (try_link tid (tasks data) b)).
    { intros E. rewrite E. apply IH; assumption. }
    destruct (find tid (tasks data)) as [[i task]|] eqn:Hf.
    + destruct (find b (tasks data)) as [[j blocker]|] eqn:Hb.
      * destruct (setBlocker_run w p data tid b i task j blocker Hs Hp Hf Hb)
          as (d & Hd & ->).
        unfold try_link. rewrite Hf, Hb.
        set (data1 := set_updated (clock w (ticks w))
                        (set_tasks (link i task j tid b (tasks data)) data)).
        destruct (IH (written data1 d w) data1) as (w' & data' & R & S & P & T);
          [apply stored_written_same; exact Hp | exact Hp |].
        exists w', data'. auto.
      * destruct (not_found_runs w p b) with (other := tid) (st := pending) (n := "")
          as (_ & -> & _).
        { intros (data' & j & x & Hs' & Hx). congruence. }
        unfold ret at 1. apply Hthrow.
        unfold try_link. rewrite Hf, Hb. reflexivity.
    + destruct (not_found_runs w p tid) with (other := b) (st := pending) (n := "")
        as (-> & _).
      { intros (data' & j & x & Hs' & Hx). congruence. }
      unfold ret at 1. apply Hthrow.
      unfold try_link. rewrite Hf. reflexivity.
Qed.

(** The task [addTask] appends is found by its id when the ids read below
    2^53. *)
Lemma find_new_task ts s :
  exact_max ts < 2 ^ 53 →
  find (id (new_task ts s)) (ts ++ [new_task ts s]) = Some (length ts, new_task ts s).
Proof.
  intros Hm. apply find_Some.
  split; [rewrite lookup_app_r, Nat.sub_diag by lia; reflexivity|].
  split; [reflexivity|].
  intros j y Hj Hlt. rewrite lookup_app_l in Hj by exact Hlt.
  rewrite new_task_id by exact Hm. apply next_id_fresh, list_elem_of_lookup. eauto.
Qed.

Lemma filter_absent (b : string) (l : list string) :
  b ∉ l → filter (λ x, x ≠ b) l = l.
Proof.
  induction l as [|a l IH]; intros H; [reflexivity|].
  rewrite not_elem_of_cons in H. destruct H as [Ha Hl].
  rewrite filter_cons_True by congruence. f_equal. apply IH, Hl.
Qed.

(** ** The texts *)

Lemma nonempty_true s : nonempty s = true ↔ s ≠ "".
Proof.
  unfold nonempty. rewrite negb_true_iff, bool_decide_eq_false. reflexivity.
Qed.

Lemma or_string_eq s d : or_string s d = if decide (s = "") then d else s.
Proof.
  unfold or_string, nonempty. destruct (decide (s = "")) as [E|E].
  - rewrite bool_decide_eq_true_2 by exact E. reflexivity.
  - rewrite bool_decide_eq_false_2 by exact E. reflexivity.
Qed.

Lemma given_Some s : s ≠ "" → given (Some s) = Some s.
Proof. intros H. unfold given. apply nonempty_true in H. rewrite H. reflexivity. Qed.

Lemma join_cons x l sep :
  join (x :: l) sep = match l with [] => x | _ => x +:+ sep +:+ join l sep end.
Proof. destruct l; reflexivity. Qed.

(** The characters of a string. *)
Lemma chars_app (u v : string) :
  list_ascii_of_string (u +:+ v) = list_ascii_of_string u ++ list_ascii_of_string v.
Proof.
  induction u as [|a u IH]; [reflexivity|].
  rewrite append_cons. cbn [list_ascii_of_string]. rewrite IH. reflexivity.
Qed.

Lemma In_chars_app a (u v : string) :
  In a (list_ascii_of_string (u +:+ v)) ↔
  In a (list_ascii_of_string u) ∨ In a (list_ascii_of_string v).
Proof. rewrite chars_app. apply in_app_iff. Qed.

Lemma In_chars_join a x l sep :
  In a (list_ascii_of_string x) → In a (list_ascii_of_string (join (x :: l) sep)).
Proof.
  intros H. rewrite join_cons. destruct l; [exact H|].
  apply In_chars_app. left. exact H.
Qed.

(** A computation that reads and returns, mapped over a list. *)
Lemma mapM_reads {A B} (f : A → M B) (g : A → B) l w :
  (∀ a, f a w = (Returned (g a), w)) → mapM f l w = (Returned (g <$> l), w).
Proof.
  intros H. induction l as [|a l IH]; [reflexivity|].
  cbn [mapM]. unfold bind. rewrite H.
  unfold bind in IH. rewrite IH. reflexivity.
Qed.

(** The line of a project in the list of all projects has a colon. *)
Lemma project_line_colon p data : In ":"%char (list_ascii_of_string (project_line p data)).
Proof.
  unfold project_line. cbv zeta.
  apply In_chars_app. right. apply In_chars_app. right. apply In_chars_app. right.
  apply In_chars_app. left. cbn. auto.
Qed.

Lemma status_name_inj s s' : status_name s = status_name s' → s = s'.
Proof. destruct s, s'; simpl; intros H; try reflexivity; discriminate H. Qed.

(** A loop that pushes one line per element. *)
Lemma fold_push {A} (f : A → string) (l : list A) (acc : list string) :
  fold_left (λ lines a, lines ++ [f a]) l acc = acc ++ (f <$> l).
Proof.
  revert acc. induction l as [|a l IH]; intros acc; cbn [fold_left fmap list_fmap].
  - rewrite app_nil_r. reflexivity.
  - rewrite IH, <- app_assoc. reflexivity.
Qed.

Lemma formatTaskList_eq data :
  formatTaskList data
  = join (("=== " +:+ project data +:+ " ===") :: (task_line <$> tasks data)) nl.
Proof. unfold formatTaskList. cbv zeta. rewrite fold_push. reflexivity. Qed.

Lemma summary_lines_app lines data :
  summary_lines lines data = lines ++ summary_lines [] data.
Proof.
  unfold summary_lines. cbv zeta. rewrite !fold_push.
  repeat match goal with |- context [if ?c then _ else _] => destruct c end;
    cbn [app]; rewrite <- ?app_assoc; reflexivity.
Qed.

Lemma fold_summary ps lines :
  fold_left summary_lines ps lines = lines ++ concat (summary_lines [] <$> ps).
Proof.
  revert lines. induction ps as [|p ps IH]; intros lines; cbn [fold_left fmap list_fmap concat].
  - rewrite app_nil_r. reflexivity.
  - rewrite IH, summary_lines_app, <- app_assoc. reflexivity.
Qed.

Lemma summary_nonempty p ps : formatActiveTasksSummary (p :: ps) ≠ "".
Proof.
  unfold formatActiveTasksSummary. cbn [length Nat.eqb]. cbv zeta.
  rewrite fold_summary. cbn [app]. rewrite join_cons. discriminate.
Qed.

(** The lines of a project depend on what is [shown] of it. *)
Lemma summary_lines_shown p q : shown p = shown q → summary_lines [] p = summary_lines [] q.
Proof.
  unfold shown. intros [= Hn Hi Hp Hb].
  unfold summary_lines. cbv zeta. rewrite !fold_push.
  rewrite Hn, Hp, Hb.
  assert (L : length (filter (λ t, status t = in_progress) (tasks p))
              = length (filter (λ t, status t = in_progress) (tasks q))).
  { rewrite <- (length_fmap (λ t, (id t, subject t))), Hi. apply length_fmap. }
  assert (E : (λ t, "  - #" +:+ id t +:+ ": " +:+ subject t)
                <$> filter (λ t, status t = in_progress) (tasks p)
              = (λ t, "  - #" +:+ id t +:+ ": " +:+ subject t)
                <$> filter (λ t, status t = in_progress) (tasks q)).
  { change (λ t : Task, "  - #" +:+ id t +:+ ": " +:+ subject t)
      with ((λ x : string * string, "  - #" +:+ x.1 +:+ ": " +:+ x.2)
            ∘ (λ t, (id t, subject t))).
    rewrite !list_fmap_compose, Hi. reflexivity. }
  rewrite L, E. reflexivity.
Qed.

Lemma length_omap_le {A B} (f : A → option B) (l : list A) :
  (length (omap f l) ≤ length l)%nat.
Proof.
  induction l as [|a l IH]; [reflexivity|]. cbn [omap list_omap length].
  destruct (f a); cbn [length]; lia.
Qed.

Lemma join_snoc l x sep :
  l ≠ [] → join (l ++ [x]) sep = join l sep +:+ sep +:+ x.
Proof.
  induction l as [|a l IH]; intros Hne; [contradiction|].
  destruct l as [|b l]; [reflexivity|].
  change ((a :: b :: l) ++ [x]) with (a :: ((b :: l) ++ [x])).
  rewrite (join_cons a ((b :: l) ++ [x])), IH by discriminate.
  rewrite (join_cons a (b :: l)).
  cbn [app]. rewrite !append_assoc_string. reflexivity.
Qed.

(** ** Properties of the store, the tools and the texts *)

(** X1.  [listProjects] and the names of the files: when the directory of
    the projects is there, a name that is one segment of a path
    ([segment]) and does not contain [.json] is listed exactly when the
    directory has an entry of that name followed by [.json], which for such
    a name is the path [projectPath] gives its record.  The call returns
    and changes nothing. *)
Theorem listProjects_names w d p :
  tasksDir w = Some d → segment p → index 0 ".json" p = None →
  ∃ names, listProjects w = (Returned names, w) ∧
           (p ∈ names ↔ is_Some (d !! (p +:+ ".json"))) ∧
           projectPath p = (TasksDir, p +:+ ".json").
Proof.
  intros Hd _ Hp. rewrite listProjects_run, Hd.
  eexists. split; [reflexivity|]. split; [apply listed_name, Hp | reflexivity].
Qed.

(** [listProjects_names] on the project of [big_store]. *)
Lemma listProjects_names_witness :
  tasksDir big_store = Some {[ "big.json" := File (JSON_stringify big_record) ]} ∧
  segment "big" ∧ index 0 ".json" "big" = None ∧
  ∃ names, listProjects big_store = (Returned names, big_store) ∧ "big" ∈ names.
Proof.
  assert (Hseg : segment "big") by (apply (bool_decide_unpack _); vm_compute; exact I).
  split; [reflexivity|]. split; [exact Hseg|]. split; [reflexivity|].
  destruct (listProjects_names big_store _ "big" eq_refl Hseg eq_refl)
    as (names & R & Hin & _).
  exists names. split; [exact R|]. apply Hin.
  eexists. apply lookup_singleton_eq.
Defined.

(** A name with [.json] inside is not read back: the file of the project
    [x.jsonb] is listed as [xb.json]. *)
Example listProjects_json_inside :
  (listProjects (createProject "x.jsonb" empty_store).2).1 = Returned ["xb.json"].
Proof. vm_compute. reflexivity. Qed.

(** X2.  A project that the store has created stays active and is found:
    when nothing is stored under a name that is one segment of a path
    ([segment]), then after any calls on that name the record stored under
    it, if there is one, carries the name and is active, and (the name
    having no [.json] in it) [getActiveProjects] returns it. *)
Theorem created_project_is_active p cs w :
  segment p → stored w p = None →
  ∀ data, stored (session p cs w).2 p = Some data →
    project data = p ∧ pstatus data = p_active ∧
    (index 0 ".json" p = None →
     ∃ found, getActiveProjects (session p cs w).2 = (Returned found, (session p cs w).2)
              ∧ data ∈ found).
Proof.
  intros _ Hs data Hd.
  destruct (session_active p cs w) with (data := data) as [Hp Ha];
    [intros ? H; congruence | exact Hd |].
  split; [exact Hp|]. split; [exact Ha|].
  intros Hj. exact (active_listed _ p data Hd Ha Hj).
Qed.

(** [created_project_is_active] on the project made by two calls of
    [addTask]. *)
Lemma created_project_is_active_witness :
  segment "p" ∧ stored empty_store "p" = None ∧
  stored (session "p" [AddTask "first"; AddTask "second"] empty_store).2 "p"
    = Some two_tasks_record ∧
  pstatus two_tasks_record = p_active ∧
  ∃ found, getActiveProjects two_tasks = (Returned found, two_tasks)
           ∧ two_tasks_record ∈ found.
Proof.
  assert (H1 : stored empty_store "p" = None) by (vm_compute; reflexivity).
  assert (H2 : stored (session "p" [AddTask "first"; AddTask "second"] empty_store).2 "p"
               = Some two_tasks_record) by (vm_compute; reflexivity).
  assert (Hseg : segment "p") by (apply (bool_decide_unpack _); vm_compute; exact I).
  split; [exact Hseg|]. split; [exact H1|]. split; [exact H2|].
  destruct (created_project_is_active "p" [AddTask "first"; AddTask "second"]
              empty_store Hseg H1 two_tasks_record H2) as (_ & Ha & Hf).
  split; [exact Ha|]. apply Hf. reflexivity.
Defined.

(** X3.  The calls on one project touch no other: for two different names
    that are each one segment of a path ([segment]), when the record
    stored under the first carries that name, then after any calls on the
    first the second holds the record and the plan it held. *)
Theorem other_projects_untouched p cs w q :
  segment p → segment q → consistent w p → q ≠ p →
  stored (session p cs w).2 q = stored w q ∧ plan (session p cs w).2 q = plan w q.
Proof. intros _ _ Hc Hq. exact (session_elsewhere p cs w Hc q Hq). Qed.

(** [other_projects_untouched] on [big_store], where a second project is
    made and worked on. *)
Lemma other_projects_untouched_witness :
  segment "p" ∧ segment "big" ∧ consistent big_store "p" ∧ "big" ≠ "p" ∧
  stored (session "p" [AddTask "first"; AddTask "second"; SetBlocker "2" "1";
                       UpdateTaskStatus "1" completed] big_store).2 "big"
  = stored big_store "big".
Proof.
  assert (H1 : consistent big_store "p") by (intros data H; vm_compute in H; discriminate H).
  assert (H2 : "big" ≠ "p") by discriminate.
  assert (Hp : segment "p") by (apply (bool_decide_unpack _); vm_compute; exact I).
  assert (Hq : segment "big") by (apply (bool_decide_unpack _); vm_compute; exact I).
  split; [exact Hp|]. split; [exact Hq|]. split; [exact H1|]. split; [exact H2|].
  exact (proj1 (other_projects_untouched "p" _ big_store "big" Hp Hq H1 H2)).
Defined.

(** X4.  A record is saved under the name it carries, not under the name it
    was read from: when the record stored under [p] carries another name,
    both names being one segment of a path ([segment]), no call on [p]
    changes what is stored under [p]; and when the entry of the other name
    in the directory of the projects is not a directory, [addTask] returns
    a task that it stores under the other name, replacing what was
    there. *)
Theorem saved_under_the_name_in_the_record w d p data :
  segment p → segment (project data) →
  tasksDir w = Some d → stored w p = Some data → project data ≠ p →
  (∀ c, stored (perform p c w).2 p = Some data) ∧
  (d !! (project data +:+ ".json") ≠ Some Directory →
   ∀ subject, ∃ w',
     addTask p subject w = (Returned (new_task (tasks data) subject), w') ∧
     stored w' (project data) =
       Some (set_updated (clock w (ticks w))
               (set_tasks (tasks data ++ [new_task (tasks data) subject]) data))).
Proof.
  intros _ _ Hd Hs Hp.
  assert (S1 : ∀ ts, stored (saveProject (set_tasks ts data) w).2 p = Some data).
  { intros ts.
    destruct (saveProject_elsewhere (set_tasks ts data) w p) as [E _];
      [cbn [project set_tasks]; congruence|].
    rewrite E. exact Hs. }
  split.
  - intros [subject | t st | t b | t n]; cbn [perform].
    + unfold addTask, bind. rewrite getProject_run, Hs. unfold ret at 1.
      specialize (S1 (tasks data ++ [new_task (tasks data) subject])).
      destruct (saveProject _ w) as [[r|e] w']; exact S1.
    + unfold updateTaskStatus, bind. rewrite getProject_run, Hs.
      destruct (find t (tasks data)) as [[i task]|]; [|exact Hs].
      destruct (change_status i task t st (tasks data)) as [ts u].
      specialize (S1 ts). destruct (saveProject _ w) as [[r|e] w']; exact S1.
    + unfold setBlocker, bind. rewrite getProject_run, Hs.
      destruct (find t (tasks data)) as [[i task]|]; [|exact Hs].
      destruct (find b (tasks data)) as [[j blocker]|]; [|exact Hs].
      specialize (S1 (link i task j t b (tasks data))).
      destruct (saveProject _ w) as [[r|e] w']; exact S1.
    + unfold updateTaskNotes, bind. rewrite getProject_run, Hs.
      destruct (find t (tasks data)) as [[i task]|]; [|exact Hs].
      specialize (S1 (<[i := set_notes n task]> (tasks data))).
      destruct (saveProject _ w) as [[r|e] w']; exact S1.
  - intros Hn subject. unfold addTask, bind. rewrite getProject_run, Hs.
    unfold ret at 1.
    rewrite (saveProject_run w _ d Hd) by exact Hn.
    eexists. split; [reflexivity|]. apply stored_written_same. reflexivity.
Qed.

(** [saved_under_the_name_in_the_record] on [copied_store]: the task added
    to [copy] goes to [big]. *)
Lemma saved_under_the_name_in_the_record_witness :
  segment "copy" ∧ segment (project big_record) ∧
  tasksDir copied_store = Some {[ "copy.json" := File (JSON_stringify big_record) ]} ∧
  stored copied_store "copy" = Some big_record ∧
  project big_record ≠ "copy" ∧
  stored (perform "copy" (AddTask "more") copied_store).2 "copy" = Some big_record ∧
  ∃ w', addTask "copy" "more" copied_store
          = (Returned (new_task (tasks big_record) "more"), w') ∧
        stored w' "big" =
          Some (set_updated "2026-01-01"
                  (set_tasks (tasks big_record ++ [new_task (tasks big_record) "more"])
                             big_record)).
Proof.
  assert (H1 : tasksDir copied_store
               = Some {[ "copy.json" := File (JSON_stringify big_record) ]})
    by reflexivity.
  assert (H2 : stored copied_store "copy" = Some big_record) by (vm_compute; reflexivity).
  assert (H3 : project big_record ≠ "copy") by discriminate.
  assert (Hp : segment "copy") by (apply (bool_decide_unpack _); vm_compute; exact I).
  assert (Hq : segment (project big_record))
    by (apply (bool_decide_unpack _); vm_compute; exact I).
  split; [exact Hp|]. split; [exact Hq|].
  split; [exact H1|]. split; [exact H2|]. split; [exact H3|].
  destruct (saved_under_the_name_in_the_record copied_store _ "copy" big_record
              Hp Hq H1 H2 H3) as [A B].
  split; [apply A|]. apply B.
  cbn [project big_record].
  rewrite lookup_singleton_ne by discriminate. discriminate.
Defined.

(** X5.  [createProject] starts the project afresh whatever is there: for
    a name that is one segment of a path ([segment]), when the two
    directories are there and neither the entry of the record nor the
    entry of the plan is a directory, it returns and stores a record with
    the name, the status active, the date of the call as the date of
    creation, the next reading of the clock as the date of update and no
    tasks, in place of any record stored under the name, and it replaces
    the plan by the template; it reads the clock twice and touches no
    other project whose name is one segment. *)
Theorem createProject_starts_afresh w d pd p :
  segment p →
  tasksDir w = Some d → plansDir w = Some pd →
  d !! (p +:+ ".json") ≠ Some Directory →
  pd !! (p +:+ ".md") ≠ Some Directory →
  ∃ w' data,
    createProject p w = (Returned data, w') ∧
    project data = p ∧ pstatus data = p_active ∧
    created data = clock w (ticks w) ∧ updated data = clock w (S (ticks w)) ∧
    tasks data = [] ∧
    stored w' p = Some data ∧
    plan w' p = Some (File (Plain (planContent p (clock w (ticks w))))) ∧
    ticks w' = S (S (ticks w)) ∧
    ∀ q, segment q → q ≠ p → stored w' q = stored w q ∧ plan w' q = plan w q.
Proof.
  intros _ Hd Hpd Hn Hm.
  cut (∃ w', createProject p w = (Returned (created_record w p), w') ∧
        stored w' p = Some (created_record w p) ∧
        plan w' p = Some (File (Plain (planContent p (clock w (ticks w))))) ∧
        ticks w' = S (S (ticks w)) ∧
        ∀ q, q ≠ p → stored w' q = stored w q ∧ plan w' q = plan w q).
  { intros (w' & R & S & P & T & E). exists w', (created_record w p).
    repeat (split; [first [assumption | reflexivity]|]). intros q _. apply E. }
  pose proof (createProject_elsewhere p w) as He.
  rewrite createProject_eq, Hd, Hpd in *.
  destruct (d !! (p +:+ ".json")) as [[c|]|]; try contradiction;
    (destruct (pd !! (p +:+ ".md")) as [[c'|]|]; try contradiction);
    cbv zeta in *; cbn [snd] in He;
    (eexists; split; [reflexivity|];
     split; [rewrite <- (stored_written_same (created_record w p) d (tick w) p eq_refl);
             apply stored_same_dir; reflexivity|];
     split; [rewrite plan_planned, decide_True by reflexivity; reflexivity|];
     split; [reflexivity | exact He]).
Qed.

(** [createProject_starts_afresh] on the project of [two_tasks], which loses
    its two tasks. *)
Lemma createProject_starts_afresh_witness :
  segment "p" ∧ tasksDir two_tasks ≠ None ∧ plansDir two_tasks ≠ None ∧
  (∃ data, stored two_tasks "p" = Some data ∧ length (tasks data) = 2%nat) ∧
  ∃ w', createProject "p" two_tasks
          = (Returned {| project := "p"; pstatus := p_active; created := "2026-01-01";
                         updated := "2026-01-02"; tasks := [] |}, w') ∧
        stored w' "p" = Some {| project := "p"; pstatus := p_active;
                                created := "2026-01-01"; updated := "2026-01-02";
                                tasks := [] |}.
Proof.
  destruct (tasksDir two_tasks) as [d|] eqn:Hd; [|vm_compute in Hd; discriminate Hd].
  destruct (plansDir two_tasks) as [pd|] eqn:Hpd; [|vm_compute in Hpd; discriminate Hpd].
  assert (Hseg : segment "p") by (apply (bool_decide_unpack _); vm_compute; exact I).
  split; [exact Hseg|]. split; [discriminate|]. split; [discriminate|].
  split; [exists two_tasks_record; split; [vm_compute|]; reflexivity|].
  assert (H3 : d !! ("p" +:+ ".json") ≠ Some Directory).
  { intros H. assert (S : stored two_tasks "p" = None).
    { rewrite stored_lookup, Hd. rewrite H. reflexivity. }
    vm_compute in S. discriminate S. }
  assert (H4 : pd !! ("p" +:+ ".md") ≠ Some Directory).
  { intros H. assert (P : plan two_tasks "p" = Some Directory).
    { unfold plan. rewrite Hpd. exact H. }
    vm_compute in P. discriminate P. }
  destruct (createProject_starts_afresh two_tasks d pd "p" Hseg Hd Hpd H3 H4)
    as (w' & data & R & E1 & E2 & E3 & E4 & E5 & S & _).
  assert (E : data = {| project := "p"; pstatus := p_active; created := "2026-01-01";
                        updated := "2026-01-02"; tasks := [] |}).
  { destruct data as [n s c u ts]. cbn in E1, E2, E3, E4, E5.
    rewrite E1, E2, E3, E4, E5. vm_compute. reflexivity. }
  rewrite E in R, S. exists w'. split; [exact R | exact S].
Defined.

(** X6.  [addTask] on a name under which no record can be read (no file, a
    text that does not parse, the text [null]) creates the project and adds
    the task with the id 1, provided that the name is one segment of a path
    ([segment]), that the two directories are there, and that neither the
    entry of the record nor the entry of the plan is a directory: whatever
    the file and the plan held is replaced.  The record carries the first
    reading of the clock as [created] and the third as [updated]. *)
Theorem addTask_creates_project w d pd p subject :
  segment p →
  tasksDir w = Some d → plansDir w = Some pd →
  stored w p = None →
  d !! (p +:+ ".json") ≠ Some Directory →
  pd !! (p +:+ ".md") ≠ Some Directory →
  ∃ w', addTask p subject w
          = (Returned {| id := "1"; subject := subject; status := pending;
                         blockedBy := []; blocks := []; notes := "" |}, w') ∧
        stored w' p
          = Some {| project := p; pstatus := p_active;
                    created := clock w (ticks w);
                    updated := clock w (S (S (ticks w)));
                    tasks := [{| id := "1"; subject := subject; status := pending;
                                 blockedBy := []; blocks := []; notes := "" |}] |} ∧
        plan w' p = Some (File (Plain (planContent p (clock w (ticks w))))).
Proof.
  intros _ Hd Hpd Hs Hn Hm.
  rewrite (addTask_absent_eq w p subject Hs), createProject_eq, Hd, Hpd.
  destruct (d !! (p +:+ ".json")) as [[c|]|]; try contradiction;
    (destruct (pd !! (p +:+ ".md")) as [[c'|]|]; try contradiction);
    cbv beta iota zeta; rewrite saveProject_cases;
    cbn [planned set_dir written tasksDir project set_tasks created_record tasks];
    rewrite lookup_insert_eq; cbn [app];
    (eexists; split; [reflexivity|]; split;
     [rewrite stored_written_same by reflexivity; reflexivity
     |unfold plan; cbn [written plansDir mbind option_bind planPath snd];
      apply lookup_insert_eq]).
Qed.

(** [addTask_creates_project] on [damaged_store]: the file that does not
    parse and the plan of the user are replaced. *)
Lemma addTask_creates_project_witness :
  segment "p" ∧
  tasksDir damaged_store = Some {[ "p.json" := File (Plain "{ project: ") ]} ∧
  plansDir damaged_store = Some {[ "p.md" := File (Plain "# my plan") ]} ∧
  stored damaged_store "p" = None ∧
  ∃ w', addTask "p" "first" damaged_store
          = (Returned {| id := "1"; subject := "first"; status := pending;
                         blockedBy := []; blocks := []; notes := "" |}, w') ∧
        stored w' "p"
          = Some {| project := "p"; pstatus := p_active;
                    created := "2026-01-01"; updated := "2026-01-01";
                    tasks := [{| id := "1"; subject := "first"; status := pending;
                                 blockedBy := []; blocks := []; notes := "" |}] |} ∧
        plan w' "p" = Some (File (Plain (planContent "p" "2026-01-01"))).
Proof.
  assert (H1 : tasksDir damaged_store = Some {[ "p.json" := File (Plain "{ project: ") ]})
    by reflexivity.
  assert (H2 : plansDir damaged_store = Some {[ "p.md" := File (Plain "# my plan") ]})
    by reflexivity.
  assert (H3 : stored damaged_store "p" = None) by (vm_compute; reflexivity).
  assert (Hseg : segment "p") by (apply (bool_decide_unpack _); vm_compute; exact I).
  split; [exact Hseg|]. split; [exact H1|]. split; [exact H2|]. split; [exact H3|].
  apply (addTask_creates_project damaged_store _ _ "p" "first" Hseg H1 H2 H3);
    rewrite lookup_singleton_eq; discriminate.
Defined.

(** X7.  [addTask] is not undone when the plan cannot be written: on a name
    that is one segment of a path ([segment]) and under which no record
    can be read, when the directory of the projects is there and the entry
    of the record is not a directory, but the directory of the plans is
    missing or the entry of the plan is a directory, it throws the error
    of the file system, adds no task, and leaves the project created,
    active and empty; the same call made again returns the task with the
    id 1, and no plan is ever written. *)
Theorem addTask_fails_half_way w d p subject :
  segment p →
  tasksDir w = Some d → stored w p = None →
  d !! (p +:+ ".json") ≠ Some Directory →
  plan w p = Some Directory ∨ plansDir w = None →
  ∃ w' data,
    addTask p subject w = (Thrown SystemError, w') ∧
    stored w' p = Some data ∧
    project data = p ∧ pstatus data = p_active ∧ tasks data = [] ∧
    created data = clock w (ticks w) ∧ updated data = clock w (S (ticks w)) ∧
    plansDir w' = plansDir w ∧
    ∃ w'', addTask p subject w'
             = (Returned {| id := "1"; subject := subject; status := pending;
                            blockedBy := []; blocks := []; notes := "" |}, w'') ∧
           stored_tasks w'' p
             = [{| id := "1"; subject := subject; status := pending;
                   blockedBy := []; blocks := []; notes := "" |}] ∧
           plansDir w'' = plansDir w.
Proof.
  intros _ Hd Hs Hn Hplan.
  cut (∃ w', addTask p subject w = (Thrown SystemError, w') ∧
        stored w' p = Some (created_record w p) ∧
        plansDir w' = plansDir w ∧
        ∃ w'', addTask p subject w' = (Returned (new_task [] subject), w'') ∧
               stored_tasks w'' p = [new_task [] subject] ∧
               plansDir w'' = plansDir w).
  { intros (w' & R & S & P & w'' & R' & S' & P').
    exists w', (created_record w p).
    repeat (split; [first [assumption | reflexivity]|]).
    exists w''. split; [exact R'|]. split; [exact S' | exact P']. }
  assert (E : createProject p w
              = (Thrown SystemError, written (created_record w p) d (tick w))).
  { rewrite createProject_eq, Hd.
    destruct (d !! (p +:+ ".json")) as [[c|]|]; try contradiction; cbv zeta;
      (destruct Hplan as [Hp | Hp];
       [unfold plan in Hp; cbn [planPath snd] in Hp;
        destruct (plansDir w) as [pd|]; [|reflexivity];
        cbn [mbind option_bind] in Hp; rewrite Hp; reflexivity
       |rewrite Hp; reflexivity]). }
  rewrite (addTask_absent_eq w p subject Hs), E.
  set (w' := written (created_record w p) d (tick w)).
  assert (Hs' : stored w' p = Some (created_record w p))
    by (apply stored_written_same; reflexivity).
  exists w'. split; [reflexivity|]. split; [exact Hs'|]. split; [reflexivity|].
  destruct (addTask_run w' p (created_record w p) subject Hs' eq_refl) as (d' & Hd' & ->).
  eexists. split; [reflexivity|]. split; [|reflexivity].
  apply stored_tasks_written. reflexivity.
Qed.

(** [addTask_fails_half_way] on [no_plans]. *)
Lemma addTask_fails_half_way_witness :
  segment "p" ∧
  tasksDir no_plans = Some ∅ ∧ stored no_plans "p" = None ∧ plansDir no_plans = None ∧
  ∃ w', addTask "p" "first" no_plans = (Thrown SystemError, w') ∧
        stored w' "p" = Some {| project := "p"; pstatus := p_active;
                                created := "2026-01-01"; updated := "2026-01-01";
                                tasks := [] |}.
Proof.
  assert (Hseg : segment "p") by (apply (bool_decide_unpack _); vm_compute; exact I).
  assert (H1 : tasksDir no_plans = Some ∅) by reflexivity.
  assert (H2 : stored no_plans "p" = None) by (vm_compute; reflexivity).
  assert (H3 : plansDir no_plans = None) by reflexivity.
  split; [exact Hseg|]. split; [exact H1|]. split; [exact H2|]. split; [exact H3|].
  destruct (addTask_fails_half_way no_plans ∅ "p" "first" Hseg H1 H2)
    as (w' & data & R & S & E1 & E2 & E3 & E4 & E5 & _).
  - rewrite lookup_empty. discriminate.
  - right. exact H3.
  - assert (E : data = {| project := "p"; pstatus := p_active; created := "2026-01-01";
                          updated := "2026-01-01"; tasks := [] |}).
    { destruct data as [n s c u ts]. cbn in E1, E2, E3, E4, E5.
      rewrite E1, E2, E3, E4, E5. vm_compute. reflexivity. }
    rewrite E in S. exists w'. split; [exact R | exact S].
Defined.

(** X8.  A call either leaves everything as it was or stamps the record:
    on a stored project, each of the four calls either throws and leaves
    the world untouched, the clock not even read, or stores the record
    with [updated] set to the one date it reads, the name, the status and
    the date of creation of the project kept. *)
Theorem calls_stamp_or_leave p c w data :
  stored w p = Some data → project data = p →
  (perform p c w).2 = w ∨
  ∃ data', stored (perform p c w).2 p = Some data' ∧
           updated data' = clock w (ticks w) ∧
           ticks (perform p c w).2 = S (ticks w) ∧
           project data' = p ∧ pstatus data' = pstatus data ∧
           created data' = created data.
Proof.
  intros Hs Hp.
  assert (W : ∀ ts d,
            ∃ data', stored (written (set_updated (clock w (ticks w)) (set_tasks ts data))
                               d w) p = Some data' ∧
                     updated data' = clock w (ticks w) ∧
                     ticks (written (set_updated (clock w (ticks w)) (set_tasks ts data))
                              d w) = S (ticks w) ∧
                     project data' = p ∧ pstatus data' = pstatus data ∧
                     created data' = created data).
  { intros ts d. eexists. split; [apply stored_written_same; exact Hp|].
    repeat split. exact Hp. }
  destruct c as [subject | t st | t b | t n]; cbn [perform].
  - right. destruct (addTask_run w p data subject Hs Hp) as (d & Hd & ->). apply W.
  - destruct (find t (tasks data)) as [[i task]|] eqn:Hf.
    + right.
      destruct (updateTaskStatus_run w p data t st i task Hs Hp Hf) as (d & Hd & ->).
      apply W.
    + left. destruct (not_found_runs w p t) with (other := t) (st := st) (n := "")
        as (_ & _ & -> & _); [|reflexivity].
      intros (data' & i & x & Hs' & Hx). congruence.
  - destruct (find t (tasks data)) as [[i task]|] eqn:Hf.
    + destruct (find b (tasks data)) as [[j blocker]|] eqn:Hb.
      * right.
        destruct (setBlocker_run w p data t b i task j blocker Hs Hp Hf Hb)
          as (d & Hd & ->). apply W.
      * left. destruct (not_found_runs w p b) with (other := t) (st := pending) (n := "")
          as (_ & -> & _); [|reflexivity].
        intros (data' & i' & x & Hs' & Hx). congruence.
    + left. destruct (not_found_runs w p t) with (other := b) (st := pending) (n := "")
        as (-> & _); [|reflexivity].
      intros (data' & i & x & Hs' & Hx). congruence.
  - destruct (find t (tasks data)) as [[i task]|] eqn:Hf.
    + right.
      destruct (updateTaskNotes_run w p data t n i task Hs Hp Hf) as (d & Hd & ->).
      apply W.
    + left. destruct (not_found_runs w p t) with (other := t) (st := pending) (n := n)
        as (_ & _ & _ & ->); [|reflexivity].
      intros (data' & i & x & Hs' & Hx). congruence.
Qed.

(** [calls_stamp_or_leave] on [two_tasks]: a blocker that is not there, and
    one that is. *)
Lemma calls_stamp_or_leave_witness :
  stored two_tasks "p" = Some two_tasks_record ∧
  project two_tasks_record = "p" ∧
  (perform "p" (SetBlocker "2" "7") two_tasks).2 = two_tasks ∧
  ∃ data', stored (perform "p" (SetBlocker "2" "1") two_tasks).2 "p" = Some data' ∧
           updated data' = "2026-01-01" ∧
           created data' = created two_tasks_record.
Proof.
  assert (H1 : stored two_tasks "p" = Some two_tasks_record) by (vm_compute; reflexivity).
  assert (H2 : project two_tasks_record = "p") by reflexivity.
  split; [exact H1|]. split; [exact H2|]. split.
  - destruct (calls_stamp_or_leave "p" (SetBlocker "2" "7") two_tasks _ H1 H2)
      as [E | (data' & _ & _ & T & _)]; [exact E|].
    exfalso. vm_compute in T. discriminate T.
  - destruct (calls_stamp_or_leave "p" (SetBlocker "2" "1") two_tasks _ H1 H2)
      as [E | (data' & S & U & _ & _ & _ & C)].
    + exfalso. apply (f_equal ticks) in E. vm_compute in E. discriminate E.
    + exists data'. split; [exact S|]. split; [|exact C].
      rewrite U. vm_compute. reflexivity.
Defined.

(** X9.  No call removes or moves a task, or changes its id or subject:
    when the record of a project carries its name, every task keeps, after
    any calls on the project, its place, its id and its subject; and its
    notes as long as no call is an [updateTaskNotes]. *)
Theorem tasks_are_kept p cs w k x :
  consistent w p → stored_tasks w p !! k = Some x →
  ∃ x', stored_tasks (session p cs w).2 p !! k = Some x' ∧
        id x' = id x ∧ subject x' = subject x ∧
        (Forall (λ c, ∀ t n, c ≠ UpdateTaskNotes t n) cs → notes x' = notes x).
Proof.
  revert w x. induction cs as [|c cs IH]; intros w x Hc Hk.
  - exists x. auto.
  - rewrite session_cons. cbn [snd].
    destruct (perform_step p c w Hc) as [Hc' Hs].
    destruct (step_keeps _ _ _ _ k x Hs Hk) as (x1 & Hk1 & I1 & S1 & N1).
    destruct (IH _ x1 Hc' Hk1) as (x2 & Hk2 & I2 & S2 & N2).
    exists x2. split; [exact Hk2|]. split; [congruence|]. split; [congruence|].
    intros [H0 Hall]%Forall_cons. rewrite (N2 Hall). exact (N1 H0).
Qed.

(** [tasks_are_kept] on the second task of [two_tasks], along three calls. *)
Lemma tasks_are_kept_witness :
  consistent two_tasks "p" ∧
  stored_tasks two_tasks "p" !! 1%nat
    = Some {| id := "2"; subject := "second"; status := pending;
              blockedBy := []; blocks := []; notes := "" |} ∧
  ∃ x', stored_tasks (session "p" [SetBlocker "2" "1"; AddTask "third";
                                   UpdateTaskStatus "1" completed] two_tasks).2 "p"
          !! 1%nat = Some x' ∧
        id x' = "2" ∧ subject x' = "second" ∧ notes x' = "".
Proof.
  assert (H1 : consistent two_tasks "p").
  { intros data Hs. vm_compute in Hs. injection Hs as <-. reflexivity. }
  assert (H2 : stored_tasks two_tasks "p" !! 1%nat
               = Some {| id := "2"; subject := "second"; status := pending;
                         blockedBy := []; blocks := []; notes := "" |})
    by (vm_compute; reflexivity).
  split; [exact H1|]. split; [exact H2|].
  destruct (tasks_are_kept "p" [SetBlocker "2" "1"; AddTask "third";
                                UpdateTaskStatus "1" completed] two_tasks 1%nat _ H1 H2)
    as (x' & K & I & S & N).
  exists x'. repeat (split; [assumption|]). apply N.
  repeat constructor; discriminate.
Defined.

(** X10.  No task is left blocked without a blocker: when no task of a
    project is blocked with an empty [blockedBy], then after any calls on
    the project, none of which sets the status [blocked] by hand, there is
    still none; the cascade makes pending every blocked task whose last
    blocker it removes. *)
Theorem blocked_tasks_have_a_blocker p cs w :
  consistent w p →
  (∀ x, x ∈ stored_tasks w p → status x = blocked → blockedBy x ≠ []) →
  Forall (λ c, ∀ t, c ≠ UpdateTaskStatus t blocked) cs →
  ∀ x, x ∈ stored_tasks (session p cs w).2 p → status x = blocked → blockedBy x ≠ [].
Proof.
  intros Hc HI Hall.
  apply (session_invariant
           (λ ts, ∀ x, x ∈ ts → status x = blocked → blockedBy x ≠ [])
           (λ c, ∀ t, c ≠ UpdateTaskStatus t blocked) p); try assumption.
  intros ts c r ts' Ha H Hs. exact (step_blocked ts c r ts' Ha H Hs).
Qed.

(** [blocked_tasks_have_a_blocker] on a chain of three tasks whose first is
    completed. *)
Lemma blocked_tasks_have_a_blocker_witness :
  Forall (λ x, status x = blocked → blockedBy x ≠ [])
    (stored_tasks
       (session "p" [AddTask "first"; AddTask "second"; AddTask "third";
                     SetBlocker "2" "1"; SetBlocker "3" "2";
                     UpdateTaskStatus "1" completed] empty_store).2 "p").
Proof.
  apply Forall_forall.
  apply (blocked_tasks_have_a_blocker "p" _ empty_store).
  - intros data Hs. vm_compute in Hs. discriminate Hs.
  - intros x Hin. vm_compute in Hin. inversion Hin.
  - repeat constructor; discriminate.
Defined.

(** X11.  No id is listed twice: when no task of a project has an id twice
    in its [blockedBy] or in its [blocks] (as when it has no task), then
    after any calls on the project none has. *)
Theorem edges_have_no_duplicates p cs w :
  consistent w p →
  (∀ x, x ∈ stored_tasks w p → NoDup (blockedBy x) ∧ NoDup (blocks x)) →
  ∀ x, x ∈ stored_tasks (session p cs w).2 p → NoDup (blockedBy x) ∧ NoDup (blocks x).
Proof.
  intros Hc HI.
  apply (session_invariant
           (λ ts, ∀ x, x ∈ ts → NoDup (blockedBy x) ∧ NoDup (blocks x))
           (λ _, True) p); try assumption.
  - intros ts c r ts' _ H Hs. exact (step_NoDup ts c r ts' H Hs).
  - apply Forall_forall. auto.
Qed.

(** [edges_have_no_duplicates] on a session that links the same two tasks
    twice. *)
Lemma edges_have_no_duplicates_witness :
  Forall (λ x, NoDup (blockedBy x) ∧ NoDup (blocks x))
    (stored_tasks
       (session "p" [AddTask "first"; AddTask "second"; AddTask "third";
                     SetBlocker "3" "1"; SetBlocker "3" "2"; SetBlocker "3" "1";
                     UpdateTaskStatus "2" completed] empty_store).2 "p").
Proof.
  apply Forall_forall.
  apply (edges_have_no_duplicates "p" _ empty_store).
  - intros data Hs. vm_compute in Hs. discriminate Hs.
  - intros x Hin. vm_compute in Hin. inversion Hin.
Defined.

(** X12.  [updateTaskStatus] on a task of a stored project returns the task
    as it is stored, still the first with its id, and with the status asked
    for, whatever that is; and a status other than [completed] changes that
    one field of that one task: nothing is reported, no other task changes,
    and the blockers of the task stay, so that marking a blocked task
    pending or reopening a completed one moves no dependency. *)
Theorem updateTaskStatus_sets_the_status w p data taskId st i task :
  stored w p = Some data → project data = p →
  find taskId (tasks data) = Some (i, task) →
  ∃ w' data' ret unblocked,
    updateTaskStatus p taskId st w = (Returned (ret, unblocked), w') ∧
    stored w' p = Some data' ∧
    find taskId (tasks data') = Some (i, ret) ∧
    status ret = st ∧ id ret = taskId ∧ subject ret = subject task ∧
    notes ret = notes task ∧ blocks ret = blocks task ∧
    (st ≠ completed →
       unblocked = [] ∧ tasks data' = <[i := set_status st task]> (tasks data)).
Proof.
  intros Hs Hp Hf.
  destruct (updateTaskStatus_run _ _ _ _ st _ _ Hs Hp Hf) as (d & Hd & Hrun).
  destruct (change_status_found i task taskId st (tasks data) Hf)
    as (rt & Hl & Hfr & F1 & F2 & F3 & F4 & F5).
  rewrite Hl in Hrun. cbn [default from_option] in Hrun. unfold Datatypes.id in Hrun.
  eexists _, _, rt, _. split; [exact Hrun|].
  split; [apply stored_written_same; exact Hp|].
  cbn [tasks set_updated set_tasks].
  split; [exact Hfr|].
  repeat (split; [assumption|]).
  intros Hne. rewrite change_status_eq. cbv zeta.
  rewrite decide_False by exact Hne. split; reflexivity.
Qed.

(** [updateTaskStatus_sets_the_status] on the blocked task of [linked],
    marked pending by hand: it keeps its blocker. *)
Lemma updateTaskStatus_sets_the_status_witness :
  stored linked "p" = Some linked_record ∧
  project linked_record = "p" ∧
  find "2" (tasks linked_record)
    = Some (1%nat, {| id := "2"; subject := "second"; status := blocked;
                      blockedBy := ["1"]; blocks := []; notes := "" |}) ∧
  ∃ w' data' ret,
    updateTaskStatus "p" "2" pending linked = (Returned (ret, []), w') ∧
    stored w' "p" = Some data' ∧
    status ret = pending ∧
    tasks data' = [ {| id := "1"; subject := "first"; status := pending;
                       blockedBy := []; blocks := ["2"]; notes := "" |};
                    {| id := "2"; subject := "second"; status := pending;
                       blockedBy := ["1"]; blocks := []; notes := "" |} ].
Proof.
  assert (H1 : stored linked "p" = Some linked_record) by (vm_compute; reflexivity).
  assert (H2 : project linked_record = "p") by reflexivity.
  assert (H3 : find "2" (tasks linked_record)
               = Some (1%nat, {| id := "2"; subject := "second"; status := blocked;
                                 blockedBy := ["1"]; blocks := []; notes := "" |}))
    by reflexivity.
  split; [exact H1|]. split; [exact H2|]. split; [exact H3|].
  destruct (updateTaskStatus_sets_the_status linked "p" linked_record "2" pending
              1%nat _ H1 H2 H3)
    as (w' & data' & ret & u & R & S & _ & St & _ & _ & _ & _ & N).
  destruct N as [-> N]; [discriminate|].
  exists w', data', ret. split; [exact R|]. split; [exact S|]. split; [exact St|].
  rewrite N. reflexivity.
Defined.

(** X13.  Completing a task twice: the second [updateTaskStatus] with
    [completed] returns the same task, reports nothing, and stores the
    record the first one stored with [updated] set to the date of the
    second save. *)
Theorem complete_twice w p data t i task :
  stored w p = Some data → project data = p →
  find t (tasks data) = Some (i, task) →
  ∃ w1 data1 ret unblocked w2,
    updateTaskStatus p t completed w = (Returned (ret, unblocked), w1) ∧
    stored w1 p = Some data1 ∧
    updateTaskStatus p t completed w1 = (Returned (ret, []), w2) ∧
    stored w2 p = Some (set_updated (clock w1 (ticks w1)) data1).
Proof.
  intros Hs Hp Hf.
  destruct (complete_effect _ _ _ _ _ _ Hs Hp Hf) as (d & Hd & Hrun).
  pose proof (proj1 (find_Some _ _ _ _) Hf) as (Hi & Hid & _).
  set (before := <[i := set_status completed task]> (tasks data)) in *.
  set (data1 := set_updated (clock w (ticks w)) (set_tasks (relax t <$> before) data)) in *.
  set (w1 := written data1 d w) in *.
  set (ret := relax t (set_status completed task)) in *.
  assert (Hs1 : stored w1 p = Some data1) by (apply stored_written_same; exact Hp).
  assert (Hbi : before !! i = Some (set_status completed task)).
  { apply list_lookup_insert_eq. exact (lookup_lt_Some _ _ _ Hi). }
  assert (Hri : tasks data1 !! i = Some ret).
  { cbn [tasks data1 set_updated set_tasks]. rewrite list_lookup_fmap, Hbi. reflexivity. }
  assert (Hids : id <$> tasks data1 = id <$> tasks data).
  { cbn [tasks data1 set_updated set_tasks]. rewrite <- list_fmap_compose.
    rewrite (list_fmap_ext (id ∘ relax t) id) by (intros ? x _; apply relax_id).
    apply (ids_insert _ _ task); [exact Hi | reflexivity]. }
  assert (Hf1 : find t (tasks data1) = Some (i, ret))
    by exact (find_after _ _ _ _ _ _ Hids Hf Hri).
  destruct (complete_effect w1 p data1 t i ret Hs1 Hp Hf1) as (d1 & Hd1 & Hrun1).
  assert (Hst : status ret = completed).
  { destruct (relax_fields t (set_status completed task)) as (_ & _ & _ & _ & _ & R6).
    subst ret. rewrite R6, decide_False by (intros (_ & _ & E); discriminate E).
    reflexivity. }
  assert (Hsame : <[i := set_status completed ret]> (tasks data1) = tasks data1).
  { rewrite (set_status_same _ _ Hst). apply list_insert_id. exact Hri. }
  rewrite Hsame in Hrun1.
  destruct (relax_fixed t (tasks data1)) as [Rf Ru].
  { intros x Hx. cbn [tasks data1 set_updated set_tasks] in Hx.
    apply list_elem_of_fmap in Hx as (x0 & -> & _). apply relax_clears. }
  rewrite Rf, Ru, set_tasks_same in Hrun1.
  rewrite (set_status_same _ _ Hst) in Hrun1.
  assert (Hrr : relax t ret = ret).
  { apply relax_untouched. apply relax_clears. }
  rewrite Hrr in Hrun1.
  eexists w1, data1, ret, _, _.
  split; [exact Hrun|]. split; [exact Hs1|]. split; [exact Hrun1|].
  apply stored_written_same. exact Hp.
Qed.

(** [complete_twice] on the first task of [linked]. *)
Lemma complete_twice_witness :
  stored linked "p" = Some linked_record ∧
  project linked_record = "p" ∧
  find "1" (tasks linked_record)
    = Some (0%nat, {| id := "1"; subject := "first"; status := pending;
                      blockedBy := []; blocks := ["2"]; notes := "" |}) ∧
  ∃ w1 ret w2,
    updateTaskStatus "p" "1" completed linked = (Returned (ret, ["2"]), w1) ∧
    updateTaskStatus "p" "1" completed w1 = (Returned (ret, []), w2) ∧
    stored_tasks w2 "p" = stored_tasks w1 "p".
Proof.
  assert (H1 : stored linked "p" = Some linked_record) by (vm_compute; reflexivity).
  assert (H2 : project linked_record = "p") by reflexivity.
  assert (H3 : find "1" (tasks linked_record)
               = Some (0%nat, {| id := "1"; subject := "first"; status := pending;
                                 blockedBy := []; blocks := ["2"]; notes := "" |}))
    by reflexivity.
  split; [exact H1|]. split; [exact H2|]. split; [exact H3|].
  destruct (complete_twice linked "p" linked_record "1" 0%nat _ H1 H2 H3)
    as (w1 & data1 & ret & u & w2 & R1 & S1 & R2 & S2).
  assert (U : u = ["2"]).
  { apply (f_equal (λ r, match r.1 with Returned x => x.2 | Thrown _ => [] end)) in R1.
    vm_compute in R1. symmetry. exact R1. }
  subst u. exists w1, ret, w2. split; [exact R1|]. split; [exact R2|].
  unfold stored_tasks. rewrite S1, S2. reflexivity.
Defined.

(** X14.  What the cascade reports: every id that [updateTaskStatus] with
    [completed] returns as unblocked is the id of a task that is stored
    pending and with no blocker; and when the project satisfies the
    correspondence from [blockedBy] to [blocks] (as every project made by
    the store does), it is among the [blocks] of the completed task. *)
Theorem unblocked_tasks w p data t i task :
  stored w p = Some data → project data = p →
  find t (tasks data) = Some (i, task) →
  ∃ w' ret unblocked,
    updateTaskStatus p t completed w = (Returned (ret, unblocked), w') ∧
    ∀ x, x ∈ unblocked →
      (∃ k y, stored_tasks w' p !! k = Some y ∧ id y = x ∧ status y = pending
              ∧ blockedBy y = []) ∧
      (forward (tasks data) → x ∈ blocks ret).
Proof.
  intros Hs Hp Hf.
  destruct (complete_effect _ _ _ _ _ _ Hs Hp Hf) as (d & Hd & Hrun).
  pose proof (proj1 (find_Some _ _ _ _) Hf) as (Hi & Hid & _).
  eexists _, _, _. split; [exact Hrun|].
  intros x Hx.
  apply list_elem_of_fmap in Hx as (x0 & -> & Hx0).
  apply list_elem_of_filter in Hx0 as [Hu Hx0].
  apply list_elem_of_lookup in Hx0 as [k Hk].
  destruct (relax_fields t x0) as (R1 & _ & _ & _ & R5 & R6).
  split.
  - exists k, (relax t x0).
    rewrite stored_tasks_written by exact Hp. cbn [tasks set_updated set_tasks].
    rewrite list_lookup_fmap, Hk.
    split; [reflexivity|]. split; [exact R1|].
    rewrite R5, R6, decide_True by exact Hu.
    split; [reflexivity|]. destruct Hu as (_ & Hnil & _). exact Hnil.
  - intros Hfw.
    destruct (relax_fields t (set_status completed task)) as (_ & _ & _ & R4 & _).
    rewrite R4. cbn [set_status blocks].
    assert (Hk0 : tasks data !! k = Some x0).
    { rewrite list_lookup_insert in Hk.
      destruct (decide (i = k ∧ (i < length (tasks data))%nat)) as [[-> _]|_];
        [|exact Hk].
      injection Hk as <-. destruct Hu as (_ & _ & E). discriminate E. }
    destruct (Hfw x0 t) as (j & blocker & Hfb & Hin).
    + apply list_elem_of_lookup. eauto.
    + destruct Hu as (Hin & _). exact Hin.
    + rewrite Hf in Hfb. injection Hfb as _ <-. exact Hin.
Qed.

(** [unblocked_tasks] on the completion of the first task of [linked]. *)
Lemma unblocked_tasks_witness :
  stored linked "p" = Some linked_record ∧
  project linked_record = "p" ∧
  find "1" (tasks linked_record)
    = Some (0%nat, {| id := "1"; subject := "first"; status := pending;
                      blockedBy := []; blocks := ["2"]; notes := "" |}) ∧
  forward (tasks linked_record) ∧
  ∃ w' ret,
    updateTaskStatus "p" "1" completed linked = (Returned (ret, ["2"]), w') ∧
    "2" ∈ blocks ret ∧
    ∃ k y, stored_tasks w' "p" !! k = Some y ∧ id y = "2" ∧ status y = pending
           ∧ blockedBy y = [].
Proof.
  assert (H1 : stored linked "p" = Some linked_record) by (vm_compute; reflexivity).
  assert (H2 : project linked_record = "p") by reflexivity.
  assert (H3 : find "1" (tasks linked_record)
               = Some (0%nat, {| id := "1"; subject := "first"; status := pending;
                                 blockedBy := []; blocks := ["2"]; notes := "" |}))
    by reflexivity.
  assert (H4 : forward (tasks linked_record)).
  { intros t b Hin Hb. cbn [tasks linked_record] in Hin.
    apply elem_of_cons in Hin as [->|Hin]; [inversion Hb|].
    apply list_elem_of_singleton in Hin. subst t. cbn [blockedBy] in Hb.
    apply list_elem_of_singleton in Hb. subst b.
    eexists 0%nat, _. split; [reflexivity|]. cbn [id blocks].
    apply list_elem_of_singleton. reflexivity. }
  split; [exact H1|]. split; [exact H2|]. split; [exact H3|]. split; [exact H4|].
  destruct (unblocked_tasks linked "p" linked_record "1" 0%nat _ H1 H2 H3)
    as (w' & ret & u & R & U).
  assert (E : u = ["2"]).
  { apply (f_equal (λ r, match r.1 with Returned x => x.2 | Thrown _ => [] end)) in R.
    vm_compute in R. symmetry. exact R. }
  subst u. exists w', ret. split; [exact R|].
  destruct (U "2") as [A B]; [apply list_elem_of_singleton; reflexivity|].
  split; [exact (B H4) | exact A].
Defined.

(** X15.  [setBlocker] touches the two tasks and nothing else: on two tasks
    of a stored project, every task keeps its place, id, subject and notes;
    the blocker id is appended to the [blockedBy] of the task if it was not
    there, which then becomes blocked, and the task id to the [blocks] of
    the blocker if it was not there; nothing is removed or reordered, and
    every other task is left as it was. *)
Theorem setBlocker_touches_two w p data t b i task j blocker :
  stored w p = Some data → project data = p →
  find t (tasks data) = Some (i, task) →
  find b (tasks data) = Some (j, blocker) →
  ∃ w' data',
    setBlocker p t b w = (Returned tt, w') ∧
    stored w' p = Some data' ∧
    length (tasks data') = length (tasks data) ∧
    ∀ k x, tasks data !! k = Some x →
      ∃ x', tasks data' !! k = Some x' ∧
        id x' = id x ∧ subject x' = subject x ∧ notes x' = notes x ∧
        blockedBy x' = (if decide (k = i ∧ b ∉ blockedBy x)
                        then blockedBy x ++ [b] else blockedBy x) ∧
        blocks x' = (if decide (k = j ∧ t ∉ blocks x)
                     then blocks x ++ [t] else blocks x) ∧
        status x' = (if decide (k = i ∧ b ∉ blockedBy x) then blocked else status x) ∧
        (k ≠ i → k ≠ j → x' = x).
Proof.
  intros Hs Hp Ht Hb.
  destruct (setBlocker_run _ _ _ _ _ _ _ _ _ Hs Hp Ht Hb) as (d & Hd & Hrun).
  pose proof (proj1 (find_Some _ _ _ _) Ht) as (Hi & _).
  eexists _, _. split; [exact Hrun|].
  split; [apply stored_written_same; exact Hp|].
  cbn [tasks set_updated set_tasks].
  split.
  { rewrite <- (length_fmap id), (ids_link _ _ _ _ _ _ Hi). apply length_fmap. }
  intros k x Hk. exists (link_at i j t b k x).
  split; [apply (link_lookup _ _ _ _ _ _ _ _ Hi Hk)|].
  split; [apply link_at_id|]. split; [apply link_at_subject|].
  split; [apply link_at_notes|]. split; [apply link_at_blockedBy|].
  split; [apply link_at_blocks|]. split; [apply link_at_status|].
  intros Hki Hkj. unfold link_at.
  rewrite decide_False by (intros [E _]; contradiction). cbv zeta.
  rewrite decide_False by (intros [E _]; contradiction). reflexivity.
Qed.

(** [setBlocker_touches_two] on the two tasks of [two_tasks]. *)
Lemma setBlocker_touches_two_witness :
  stored two_tasks "p" = Some two_tasks_record ∧
  project two_tasks_record = "p" ∧
  find "2" (tasks two_tasks_record)
    = Some (1%nat, {| id := "2"; subject := "second"; status := pending;
                      blockedBy := []; blocks := []; notes := "" |}) ∧
  find "1" (tasks two_tasks_record)
    = Some (0%nat, {| id := "1"; subject := "first"; status := pending;
                      blockedBy := []; blocks := []; notes := "" |}) ∧
  ∃ w' data' x',
    setBlocker "p" "2" "1" two_tasks = (Returned tt, w') ∧
    stored w' "p" = Some data' ∧
    tasks data' !! 1%nat = Some x' ∧
    blockedBy x' = ["1"] ∧ blocks x' = [] ∧ status x' = blocked.
Proof.
  assert (H1 : stored two_tasks "p" = Some two_tasks_record) by (vm_compute; reflexivity).
  assert (H2 : project two_tasks_record = "p") by reflexivity.
  assert (H3 : find "2" (tasks two_tasks_record)
               = Some (1%nat, {| id := "2"; subject := "second"; status := pending;
                                 blockedBy := []; blocks := []; notes := "" |}))
    by reflexivity.
  assert (H4 : find "1" (tasks two_tasks_record)
               = Some (0%nat, {| id := "1"; subject := "first"; status := pending;
                                 blockedBy := []; blocks := []; notes := "" |}))
    by reflexivity.
  split; [exact H1|]. split; [exact H2|]. split; [exact H3|]. split; [exact H4|].
  destruct (setBlocker_touches_two two_tasks "p" two_tasks_record "2" "1" _ _ _ _
              H1 H2 H3 H4) as (w' & data' & R & S & _ & K).
  destruct (K 1%nat _ eq_refl) as (x' & L & _ & _ & _ & B1 & B2 & St & _).
  exists w', data', x'. split; [exact R|]. split; [exact S|]. split; [exact L|].
  rewrite B1, B2, St. repeat split.
Defined.

(** X16.  Blocking a task and then completing the blocker gives back its
    blockers but not its status: after [setBlocker] with a blocker that the
    task did not have, on two different tasks of a stored project, and
    [updateTaskStatus] of the blocker with [completed], the task has the
    [blockedBy] it had; it is pending, and reported as unblocked, when it
    had no blocker, and blocked when it had one, whatever its status was
    before, in progress or completed. *)
Theorem block_then_complete w p data t b i task j blocker :
  stored w p = Some data → project data = p →
  find t (tasks data) = Some (i, task) →
  find b (tasks data) = Some (j, blocker) →
  i ≠ j → b ∉ blockedBy task →
  ∃ w1 w2 ret unblocked task2,
    setBlocker p t b w = (Returned tt, w1) ∧
    updateTaskStatus p b completed w1 = (Returned (ret, unblocked), w2) ∧
    stored_tasks w2 p !! i = Some task2 ∧
    id task2 = t ∧ blockedBy task2 = blockedBy task ∧
    status task2 = (if decide (blockedBy task = []) then pending else blocked) ∧
    (blockedBy task = [] → t ∈ unblocked).
Proof.
  intros Hs Hp Ht Hb Hij Hout.
  destruct (setBlocker_run _ _ _ _ _ _ _ _ _ Hs Hp Ht Hb) as (d & Hd & Hrun).
  pose proof (proj1 (find_Some _ _ _ _) Ht) as (Hi & Hid & _).
  pose proof (proj1 (find_Some _ _ _ _) Hb) as (Hj & _).
  set (ts1 := link i task j t b (tasks data)) in *.
  set (data1 := set_updated (clock w (ticks w)) (set_tasks ts1 data)) in *.
  set (w1 := written data1 d w) in *.
  assert (Hs1 : stored w1 p = Some data1) by (apply stored_written_same; exact Hp).
  assert (Hi1 : ts1 !! i = Some (link_at i j t b i task))
    by exact (link_lookup _ _ _ _ _ _ _ _ Hi Hi).
  assert (Hj1 : ts1 !! j = Some (link_at i j t b j blocker))
    by exact (link_lookup _ _ _ _ _ _ _ _ Hi Hj).
  assert (Hb1 : find b (tasks data1) = Some (j, link_at i j t b j blocker)).
  { apply (find_after (tasks data) _ b j blocker);
      [apply ids_link; exact Hi | exact Hb | exact Hj1]. }
  destruct (complete_effect w1 p data1 b j _ Hs1 Hp Hb1) as (d1 & Hd1 & Hrun1).
  set (task1 := link_at i j t b i task) in *.
  assert (B1 : blockedBy task1 = blockedBy task ++ [b]).
  { unfold task1. rewrite link_at_blockedBy, decide_True by auto. reflexivity. }
  assert (S1 : status task1 = blocked).
  { unfold task1. rewrite link_at_status, decide_True by auto. reflexivity. }
  assert (F1 : filter (λ x, x ≠ b) (blockedBy task1) = blockedBy task).
  { rewrite B1, filter_app, (filter_absent b _ Hout).
    rewrite filter_cons_False by (intros H; apply H; reflexivity).
    apply app_nil_r. }
  assert (Hbefore : <[j := set_status completed (link_at i j t b j blocker)]>
                      (tasks data1) !! i = Some task1).
  { rewrite list_lookup_insert_ne by congruence. exact Hi1. }
  assert (U : blockedBy task = [] → unblocks b task1).
  { intros E. split; [rewrite B1; apply elem_of_app; right; now left|].
    split; [rewrite F1; exact E | exact S1]. }
  destruct (relax_fields b task1) as (R1 & _ & _ & _ & R5 & R6).
  eexists w1, _, _, _, (relax b task1).
  split; [exact Hrun|]. split; [exact Hrun1|].
  split.
  { rewrite stored_tasks_written by exact Hp. cbn [tasks set_updated set_tasks].
    rewrite list_lookup_fmap, Hbefore. reflexivity. }
  split; [rewrite R1; unfold task1; rewrite link_at_id; exact Hid|].
  split; [rewrite R5; exact F1|].
  split.
  - rewrite R6. destruct (decide (blockedBy task = [])) as [E|E].
    + rewrite decide_True by exact (U E). reflexivity.
    + rewrite decide_False; [exact S1|]. intros (_ & Hnil & _).
      apply E. rewrite <- F1. exact Hnil.
  - intros E. apply list_elem_of_fmap. exists task1.
    split; [unfold task1; rewrite link_at_id; symmetry; exact Hid|].
    apply list_elem_of_filter. split; [exact (U E)|].
    apply list_elem_of_lookup. eauto.
Qed.

(** [block_then_complete] on a task in progress: it comes back pending. *)
Lemma block_then_complete_witness :
  let w := (updateTaskStatus "p" "2" in_progress two_tasks).2 in
  let data := set_tasks [ {| id := "1"; subject := "first"; status := pending;
                             blockedBy := []; blocks := []; notes := "" |};
                          {| id := "2"; subject := "second"; status := in_progress;
                             blockedBy := []; blocks := []; notes := "" |} ]
                        two_tasks_record in
  stored w "p" = Some data ∧
  ∃ w1 w2 ret task2,
    setBlocker "p" "2" "1" w = (Returned tt, w1) ∧
    updateTaskStatus "p" "1" completed w1 = (Returned (ret, ["2"]), w2) ∧
    stored_tasks w2 "p" !! 1%nat = Some task2 ∧
    blockedBy task2 = [] ∧ status task2 = pending.
Proof.
  cbv zeta.
  assert (H1 : stored (updateTaskStatus "p" "2" in_progress two_tasks).2 "p"
               = Some (set_tasks
                         [ {| id := "1"; subject := "first"; status := pending;
                              blockedBy := []; blocks := []; notes := "" |};
                           {| id := "2"; subject := "second"; status := in_progress;
                              blockedBy := []; blocks := []; notes := "" |} ]
                         two_tasks_record))
    by (vm_compute; reflexivity).
  split; [exact H1|].
  destruct (block_then_complete _ "p" _ "2" "1" 1%nat _ 0%nat _ H1 eq_refl eq_refl eq_refl)
    as (w1 & w2 & ret & u & task2 & R1 & R2 & L & _ & B & St & _).
  { discriminate. }
  { apply not_elem_of_nil. }
  assert (E : u = ["2"]).
  { apply (f_equal (λ r, match r.1 with Returned x => x.2 | Thrown _ => [] end)) in R2.
    assert (W : w1 = (setBlocker "p" "2" "1"
                        (updateTaskStatus "p" "2" in_progress two_tasks).2).2)
      by (rewrite R1; reflexivity).
    rewrite W in R2. vm_compute in R2. symmetry. exact R2. }
  subst u. exists w1, w2, ret, task2.
  split; [exact R1|]. split; [exact R2|]. split; [exact L|].
  split; [exact B | exact St].
Defined.

(** X17.  [task_get] and [updateTaskStatus] agree on what is there.  On a
    stored project that has a task with the id, [task_get] returns the
    first such task; when [getProject] gives nothing for the name, and when
    the stored project has no task with the id, it returns a text that
    says so, which is the very message that [updateTaskStatus] throws for
    those arguments.  In the three cases [task_get] changes nothing. *)
Theorem task_get_reports w p t :
  (∀ data i task,
     stored w p = Some data → find t (tasks data) = Some (i, task) →
     ∃ c, task_get p t w = (Returned {| content := c; details := Got task |}, w)) ∧
  (stored w p = None →
     task_get p t w
       = (Returned {| content := "Project '" +:+ p +:+ "' not found";
                      details := NotFound |}, w) ∧
     ∀ st, updateTaskStatus p t st w
           = (Thrown (Error ("Project '" +:+ p +:+ "' not found")), w)) ∧
  (∀ data,
     stored w p = Some data → find t (tasks data) = None →
     task_get p t w
       = (Returned {| content := "Task '" +:+ t +:+ "' not found in project '"
                                 +:+ p +:+ "'";
                      details := NotFound |}, w) ∧
     ∀ st, updateTaskStatus p t st w
           = (Thrown (Error ("Task '" +:+ t +:+ "' not found in project '"
                             +:+ p +:+ "'")), w)).
Proof.
  split; [|split].
  - intros data i task Hs Hf. exact (task_get_found w p data t i task Hs Hf).
  - intros Hs.
    assert (Hn : ¬ resolves w p t).
    { intros (data & i & x & Hs' & _). congruence. }
    destruct (task_get_not_found w p t Hn) as (m & Hm & Hg).
    unfold not_found in Hm. rewrite Hs in Hm. injection Hm as <-.
    split; [exact Hg|]. intros st.
    destruct (not_found_runs w p t Hn t st "") as (_ & _ & -> & _).
    unfold not_found. rewrite Hs. reflexivity.
  - intros data Hs Hf.
    assert (Hn : ¬ resolves w p t).
    { intros (data' & i & x & Hs' & Hf'). congruence. }
    destruct (task_get_not_found w p t Hn) as (m & Hm & Hg).
    unfold not_found in Hm. rewrite Hs in Hm. injection Hm as <-.
    split; [exact Hg|]. intros st.
    destruct (not_found_runs w p t Hn t st "") as (_ & _ & -> & _).
    unfold not_found. rewrite Hs. reflexivity.
Qed.

(** [task_get] on [linked]: the second task, with its blocker, and an id
    that is not there. *)
Example task_get_on_linked :
  task_get "p" "2" linked
  = (Returned {| content := "Task #2: second" +:+ nl +:+ "Status: blocked" +:+ nl
                            +:+ "Blocked by: 1";
                 details := Got {| id := "2"; subject := "second"; status := blocked;
                                   blockedBy := ["1"]; blocks := []; notes := "" |} |},
     linked) ∧
  task_get "p" "3" linked
  = (Returned {| content := "Task '3' not found in project 'p'";
                 details := NotFound |}, linked).
Proof. split; vm_compute; reflexivity. Qed.

(** X18.  Notes are read back: [updateTaskNotes] on a task of a stored
    project replaces the notes of the first task with the id and changes
    nothing else in the tasks, and [task_get] then returns that task with the
    new notes. *)
Theorem notes_are_read_back w p data t n i task :
  stored w p = Some data → project data = p →
  find t (tasks data) = Some (i, task) →
  ∃ w' c,
    updateTaskNotes p t n w = (Returned tt, w') ∧
    stored_tasks w' p = <[i := set_notes n task]> (tasks data) ∧
    task_get p t w' = (Returned {| content := c; details := Got (set_notes n task) |}, w').
Proof.
  intros Hs Hp Hf.
  destruct (updateTaskNotes_run w p data t n i task Hs Hp Hf) as (d & Hd & Hrun).
  set (data' := set_updated (clock w (ticks w))
                  (set_tasks (<[i := set_notes n task]> (tasks data)) data)) in *.
  assert (Hs' : stored (written data' d w) p = Some data')
    by (apply stored_written_same; exact Hp).
  destruct (task_get_found _ p data' t i (set_notes n task) Hs') as [c Hc].
  { apply notes_found. exact Hf. }
  eexists _, c. split; [exact Hrun|]. split; [|exact Hc].
  apply stored_tasks_written. exact Hp.
Qed.

(** [notes_are_read_back] on the second task of [linked]. *)
Lemma notes_are_read_back_witness :
  stored linked "p" = Some linked_record ∧
  project linked_record = "p" ∧
  find "2" (tasks linked_record)
    = Some (1%nat, {| id := "2"; subject := "second"; status := blocked;
                      blockedBy := ["1"]; blocks := []; notes := "" |}) ∧
  ∃ w' c,
    updateTaskNotes "p" "2" "waits for the first" linked = (Returned tt, w') ∧
    task_get "p" "2" w'
    = (Returned {| content := c;
                   details := Got {| id := "2"; subject := "second"; status := blocked;
                                     blockedBy := ["1"]; blocks := [];
                                     notes := "waits for the first" |} |}, w').
Proof.
  assert (H1 : stored linked "p" = Some linked_record) by (vm_compute; reflexivity).
  assert (H2 : project linked_record = "p") by reflexivity.
  assert (H3 : find "2" (tasks linked_record)
               = Some (1%nat, {| id := "2"; subject := "second"; status := blocked;
                                 blockedBy := ["1"]; blocks := []; notes := "" |}))
    by reflexivity.
  split; [exact H1|]. split; [exact H2|]. split; [exact H3|].
  destruct (notes_are_read_back linked "p" linked_record "2" "waits for the first"
              1%nat _ H1 H2 H3) as (w' & c & R & _ & G).
  exists w', c. split; [exact R | exact G].
Defined.

(** X19.  A task that is added is found: on a stored project whose ids read
    below 2^53, [task_get] with the id of the task that [addTask] has just
    returned gives that very task. *)
Theorem added_task_is_found w p data s :
  stored w p = Some data → project data = p →
  exact_max (tasks data) < 2 ^ 53 →
  ∃ w' task c,
    addTask p s w = (Returned task, w') ∧
    task_get p (id task) w'
      = (Returned {| content := c; details := Got task |}, w').
Proof.
  intros Hs Hp Hm.
  destruct (addTask_run w p data s Hs Hp) as (d & Hd & Hrun).
  set (data' := set_updated (clock w (ticks w))
                  (set_tasks (tasks data ++ [new_task (tasks data) s]) data)) in *.
  assert (Hs' : stored (written data' d w) p = Some data')
    by (apply stored_written_same; exact Hp).
  destruct (task_get_found _ p data' (id (new_task (tasks data) s))
              (length (tasks data)) (new_task (tasks data) s) Hs') as [c Hc].
  { apply find_new_task. exact Hm. }
  eexists _, _, c. split; [exact Hrun | exact Hc].
Qed.

(** [added_task_is_found] on [two_tasks]. *)
Lemma added_task_is_found_witness :
  stored two_tasks "p" = Some two_tasks_record ∧
  project two_tasks_record = "p" ∧
  exact_max (tasks two_tasks_record) < 2 ^ 53 ∧
  ∃ w' task c,
    addTask "p" "third" two_tasks = (Returned task, w') ∧
    task_get "p" (id task) w'
      = (Returned {| content := c; details := Got task |}, w').
Proof.
  assert (H1 : stored two_tasks "p" = Some two_tasks_record) by (vm_compute; reflexivity).
  assert (H2 : project two_tasks_record = "p") by reflexivity.
  assert (H3 : exact_max (tasks two_tasks_record) < 2 ^ 53) by (vm_compute; reflexivity).
  split; [exact H1|]. split; [exact H2|]. split; [exact H3|].
  exact (added_task_is_found two_tasks "p" two_tasks_record "third" H1 H2 H3).
Defined.

(** At 2^53 the task that is found under the id is the one that was there,
    not the one that was added. *)
Example added_task_is_hidden_at_2_53 :
  let r := addTask "big" "next" big_store in
  subject <$> (match r.1 with Returned t => Some t | Thrown _ => None end) = Some "next" ∧
  (match (task_get "big" "9007199254740992" r.2).1 with
   | Returned {| details := Got task |} => Some (subject task)
   | _ => None
   end) = Some "imported".
Proof. split; vm_compute; reflexivity. Qed.

(** X20.  [task_update] does not stop half way: when the record of the
    project carries its name, the call either throws and leaves the store
    exactly as it was, or returns, and then the first task with the id has
    the status asked for, if one was given, and the notes asked for, if
    notes were given. *)
Theorem task_update_is_whole w p t st n :
  consistent w p →
  (∃ e, task_update p t st n w = (Thrown e, w)) ∨
  (∃ r w', task_update p t st n w = (Returned r, w') ∧
     (∀ s, st = Some s →
        ∃ i x, find t (stored_tasks w' p) = Some (i, x) ∧ status x = s) ∧
     (∀ m, n = Some m →
        ∃ i x, find t (stored_tasks w' p) = Some (i, x) ∧ notes x = m)).
Proof.
  intros Hc. unfold task_update, bind.
  destruct (unresolved_cases w p t) as [(data & i & task & Hs & Hf) | Hn].
  - right. pose proof (Hc data Hs) as Hp.
    destruct st as [s|]; destruct n as [m|].
    + destruct (updateTaskStatus_run w p data t s i task Hs Hp Hf) as (d & Hd & ->).
      destruct (change_status_found i task t s (tasks data) Hf)
        as (rt & Hl & Hfr & Hst & _).
      set (data1 := set_updated (clock w (ticks w))
                      (set_tasks (change_status i task t s (tasks data)).1 data)) in *.
      assert (Hs1 : stored (written data1 d w) p = Some data1)
        by (apply stored_written_same; exact Hp).
      unfold ret at 1.
      destruct (updateTaskNotes_run _ p data1 t m i rt Hs1 Hp Hfr) as (d1 & Hd1 & ->).
      unfold ret at 1 2. eexists _, _. split; [reflexivity|].
      rewrite stored_tasks_written by exact Hp.
      cbn [tasks set_updated set_tasks data1].
      pose proof (notes_found i rt t m _ Hfr) as Hfn.
      split; intros ? [= <-]; eexists i, _; (split; [exact Hfn|]);
        [exact Hst | reflexivity].
    + destruct (updateTaskStatus_run w p data t s i task Hs Hp Hf) as (d & Hd & ->).
      destruct (change_status_found i task t s (tasks data) Hf)
        as (rt & Hl & Hfr & Hst & _).
      unfold ret at 1 2 3. eexists _, _. split; [reflexivity|].
      rewrite stored_tasks_written by exact Hp.
      split; [|discriminate]. intros ? [= <-]. eauto.
    + unfold ret at 1.
      destruct (updateTaskNotes_run w p data t m i task Hs Hp Hf) as (d & Hd & ->).
      unfold ret at 1 2. eexists _, _. split; [reflexivity|].
      rewrite stored_tasks_written by exact Hp.
      split; [discriminate|]. intros ? [= <-].
      eexists i, _. split; [apply notes_found; exact Hf | reflexivity].
    + unfold ret. eexists _, _. split; [reflexivity|]. split; discriminate.
  - destruct st as [s|].
    + left. destruct (not_found_runs w p t Hn t s "") as (_ & _ & -> & _). eauto.
    + destruct n as [m|].
      * left. unfold ret at 1.
        destruct (not_found_runs w p t Hn t pending m) as (_ & _ & _ & ->). eauto.
      * right. unfold ret. eexists _, _. split; [reflexivity|]. split; discriminate.
Qed.

(** [task_update_is_whole] on [linked], with a status and notes. *)
Lemma task_update_is_whole_witness :
  consistent linked "p" ∧
  ∃ r w', task_update "p" "1" (Some completed) (Some "done") linked = (Returned r, w') ∧
    (∃ i x, find "1" (stored_tasks w' "p") = Some (i, x) ∧ status x = completed) ∧
    (∃ i x, find "1" (stored_tasks w' "p") = Some (i, x) ∧ notes x = "done").
Proof.
  assert (H1 : consistent linked "p").
  { intros data Hs. vm_compute in Hs. injection Hs as <-. reflexivity. }
  split; [exact H1|].
  destruct (task_update_is_whole linked "p" "1" (Some completed) (Some "done") H1)
    as [(e & He) | (r & w' & R & A & B)].
  - exfalso. apply (f_equal fst) in He. vm_compute in He. discriminate He.
  - exists r, w'. split; [exact R|]. split; [exact (A _ eq_refl) | exact (B _ eq_refl)].
Defined.

(** X21.  [task_create] with blockers, on a stored project whose ids read
    below 2^53: it returns whatever the ids given are, the task is appended
    with the id of [addTask], and its blockers are exactly the ids given
    that are ids of tasks of the project, the new one included, each once;
    an id that is no task's is dropped without a word.  The task is blocked
    when it has a blocker and pending otherwise, and every blocker has the
    new id in its [blocks]. *)
Theorem task_create_links w p data s bs :
  stored w p = Some data → project data = p →
  exact_max (tasks data) < 2 ^ 53 →
  ∃ w' data' task,
    task_create p s bs w
      = (Returned {| content := "Created task #" +:+ next_id (tasks data) +:+ ": "
                                +:+ s;
                     details := Created (next_id (tasks data)) p |}, w') ∧
    stored w' p = Some data' ∧
    id <$> tasks data' = (id <$> tasks data) ++ [next_id (tasks data)] ∧
    find (next_id (tasks data)) (tasks data') = Some (length (tasks data), task) ∧
    subject task = s ∧
    (∀ b, b ∈ blockedBy task ↔
          b ∈ default [] bs ∧ b ∈ (id <$> tasks data')) ∧
    NoDup (blockedBy task) ∧
    status task = (if decide (blockedBy task = []) then pending else blocked) ∧
    ∀ b, b ∈ blockedBy task →
      ∃ j blocker, find b (tasks data') = Some (j, blocker)
                   ∧ next_id (tasks data) ∈ blocks blocker.
Proof.
  intros Hs Hp Hm.
  destruct (addTask_run w p data s Hs Hp) as (d & Hd & Hrun).
  pose proof (new_task_id (tasks data) s Hm) as Hid.
  set (nt := new_task (tasks data) s) in *.
  set (data1 := set_updated (clock w (ticks w)) (set_tasks (tasks data ++ [nt]) data)) in *.
  assert (Hs1 : stored (written data1 d w) p = Some data1)
    by (apply stored_written_same; exact Hp).
  assert (Hf : find (next_id (tasks data)) (tasks data1) = Some (length (tasks data), nt)).
  { apply find_Some. cbn [tasks data1 set_updated set_tasks].
    split; [rewrite lookup_app_r, Nat.sub_diag by lia; reflexivity|].
    split; [exact Hid|].
    intros j y Hj Hlt. rewrite lookup_app_l in Hj by exact Hlt.
    apply next_id_fresh, list_elem_of_lookup. eauto. }
  destruct (link_blockers_run p (next_id (tasks data)) (default [] bs)
              (written data1 d w) data1 Hs1 Hp) as (w' & data' & Hloop & Hs' & Hp' & Ht').
  destruct (try_link_fold (next_id (tasks data)) (length (tasks data))
              (default [] bs) (tasks data1) nt Hf)
    as (task & extra & Hids & Hft & Hsub & Hbl & Hmem & Hnd & Hst & Hst' & _ & Hblk).
  rewrite <- Ht' in *.
  assert (Hids' : id <$> tasks data' = (id <$> tasks data) ++ [next_id (tasks data)]).
  { rewrite Hids. cbn [tasks data1 set_updated set_tasks].
    rewrite fmap_app. cbn [fmap list_fmap]. rewrite Hid. reflexivity. }
  change (blockedBy nt) with (@nil string) in Hbl. cbn [app] in Hbl.
  exists w', data', task.
  split.
  { unfold task_create, bind. rewrite Hrun. fold nt. rewrite Hid.
    destruct bs as [bs|]; cbn [default from_option] in Hloop.
    - destruct bs as [|b bs]; [cbn [length Nat.ltb Nat.leb]|
                               change (0 <? length (b :: bs))%nat with true; cbv iota].
      + cbn [for_each] in Hloop. unfold ret in Hloop. injection Hloop as <-.
        reflexivity.
      + unfold Datatypes.id in Hloop. rewrite Hloop. reflexivity.
    - cbn [for_each] in Hloop. unfold ret in Hloop. injection Hloop as <-.
      reflexivity. }
  split; [exact Hs'|]. split; [exact Hids'|]. split; [exact Hft|].
  split; [rewrite Hsub; reflexivity|].
  split.
  { intros b. rewrite Hbl, Hmem, Hids.
    change (blockedBy nt) with (@nil string).
    split; [intros (H1 & H2 & _); auto | intros (H1 & H2)].
    repeat split; [exact H1 | exact H2 | apply not_elem_of_nil]. }
  split; [rewrite Hbl; exact Hnd|].
  split.
  { rewrite Hbl. destruct (decide (extra = [])) as [E|E];
      [exact (Hst E) | exact (Hst' E)]. }
  intros b Hb. rewrite Hbl in Hb. apply Hmem in Hb as (Hin & Hknown & _).
  rewrite <- Hids in Hknown.
  apply list_elem_of_fmap in Hknown as (y & -> & Hy).
  destruct (find (id y) (tasks data')) as [[j blocker]|] eqn:Hfb.
  - exists j, blocker. split; [reflexivity|]. exact (Hblk _ j blocker Hin Hfb).
  - exfalso. exact (proj1 (find_None _ _) Hfb y Hy eq_refl).
Qed.

(** [task_create_links] on [two_tasks], with a blocker given twice, the id
    of the new task itself and an id that is not there. *)
Lemma task_create_links_witness :
  stored two_tasks "p" = Some two_tasks_record ∧
  project two_tasks_record = "p" ∧
  exact_max (tasks two_tasks_record) < 2 ^ 53 ∧
  ∃ w' data' task,
    task_create "p" "third" (Some ["1"; "9"; "3"; "1"]) two_tasks
      = (Returned {| content := "Created task #3: third"; details := Created "3" "p" |},
         w') ∧
    stored w' "p" = Some data' ∧
    find "3" (tasks data') = Some (2%nat, task) ∧
    "1" ∈ blockedBy task ∧ "3" ∈ blockedBy task ∧ ("9" ∉ blockedBy task) ∧
    status task = blocked.
Proof.
  assert (H1 : stored two_tasks "p" = Some two_tasks_record) by (vm_compute; reflexivity).
  assert (H2 : project two_tasks_record = "p") by reflexivity.
  assert (H3 : exact_max (tasks two_tasks_record) < 2 ^ 53) by (vm_compute; reflexivity).
  split; [exact H1|]. split; [exact H2|]. split; [exact H3|].
  destruct (task_create_links two_tasks "p" two_tasks_record "third"
              (Some ["1"; "9"; "3"; "1"]) H1 H2 H3)
    as (w' & data' & task & R & S & Hids & F & _ & B & _ & St & _).
  assert (N : next_id (tasks two_tasks_record) = "3") by (vm_compute; reflexivity).
  rewrite N in *. cbn [tasks two_tasks_record fmap list_fmap id app length] in Hids, F.
  cbn [default from_option] in B. unfold Datatypes.id in B.
  assert (B1 : "1" ∈ blockedBy task).
  { apply B. rewrite Hids. split; apply (bool_decide_unpack _); vm_compute; exact I. }
  exists w', data', task.
  split; [exact R|]. split; [exact S|]. split; [exact F|]. split; [exact B1|].
  split; [apply B; rewrite Hids; split; apply (bool_decide_unpack _); vm_compute; exact I|].
  split.
  { intros H%B. destruct H as [_ H]. rewrite Hids in H.
    apply (bool_decide_pack _) in H. vm_compute in H. exact H. }
  rewrite St. destruct (decide (blockedBy task = [])) as [E|]; [|reflexivity].
  rewrite E in B1. inversion B1.
Defined.

(** On a project that does not exist yet, the only id that can be a blocker
    is the one the new task gets: the task is created blocked by itself. *)
Example task_create_blocks_itself :
  tasks <$> stored (task_create "new" "alone" (Some ["1"]) empty_store).2 "new"
  = Some [ {| id := "1"; subject := "alone"; status := blocked;
              blockedBy := ["1"]; blocks := ["1"]; notes := "" |} ].
Proof. vm_compute. reflexivity. Qed.

(** X22.  The status filter of [task_list], on a stored project with a name
    that is not empty: an empty filter is no filter; a filter that names a
    status lists and counts the tasks with that status; and a filter that
    names no status lists nothing, the text being the heading alone and the
    count 0, with no complaint. *)
Theorem task_list_filter w p data :
  stored w p = Some data → p ≠ "" →
  task_list (Some p) (Some "") w = task_list (Some p) None w ∧
  (∀ s, task_list (Some p) (Some (status_name s)) w
        = (Returned
             {| content := formatTaskList
                             (set_tasks (filter (λ t, status t = s) (tasks data)) data);
                details := Listed p (length (filter (λ t, status t = s) (tasks data))) |},
           w)) ∧
  (∀ st, st ≠ "" → (∀ s, status_name s ≠ st) →
         task_list (Some p) (Some st) w
         = (Returned {| content := "=== " +:+ project data +:+ " ===";
                        details := Listed p 0 |}, w)).
Proof.
  intros Hs Hp. unfold task_list, bind. rewrite (given_Some p Hp), getProject_run, Hs.
  split; [reflexivity|]. split.
  - intros s. rewrite given_Some by (destruct s; discriminate). cbv zeta.
    assert (E : filter (λ t, status_name (status t) = status_name s) (tasks data)
                = filter (λ t, status t = s) (tasks data)).
    { apply list_filter_iff. intros t. split; [apply status_name_inj | congruence]. }
    rewrite E. reflexivity.
  - intros st Hst Hno. rewrite (given_Some st Hst). cbv zeta.
    assert (E : filter (λ t, status_name (status t) = st) (tasks data) = []).
    { induction (tasks data) as [|t ts IH]; [reflexivity|].
      rewrite filter_cons_False by apply Hno. exact IH. }
    rewrite E. reflexivity.
Qed.

(** [task_list_filter] on [linked]: the blocked tasks, and a status that
    does not exist. *)
Lemma task_list_filter_witness :
  stored linked "p" = Some linked_record ∧ "p" ≠ "" ∧
  task_list (Some "p") (Some "blocked") linked
  = (Returned {| content := formatTaskList
                              (set_tasks [{| id := "2"; subject := "second";
                                             status := blocked; blockedBy := ["1"];
                                             blocks := []; notes := "" |}]
                                         linked_record);
                 details := Listed "p" 1 |}, linked) ∧
  task_list (Some "p") (Some "done") linked
  = (Returned {| content := "=== p ==="; details := Listed "p" 0 |}, linked).
Proof.
  assert (H1 : stored linked "p" = Some linked_record) by (vm_compute; reflexivity).
  assert (H2 : "p" ≠ "") by discriminate.
  split; [exact H1|]. split; [exact H2|].
  destruct (task_list_filter linked "p" linked_record H1 H2) as (_ & A & B).
  split; [exact (A blocked)|].
  apply (B "done"); [discriminate | intros s; destruct s; discriminate].
Defined.

(** X23.  [task_list] with no project, or with the empty name, [names]
    being what [listProjects] returns.  When there is no name the text is
    [No projects found].  When there are names and every one is stored,
    the text is the lines of the projects, one for each name in order, with
    its status and how many of its tasks are completed; when [getProject]
    gives nothing for any of them, the text is one line for each name
    saying that it could not be read.  The count is the number of names,
    and nothing is changed. *)
Theorem task_list_all w st names :
  listProjects w = (Returned names, w) →
  task_list (Some "") st w = task_list None st w ∧
  (names = [] →
     task_list None st w
       = (Returned {| content := "No projects found"; details := Counted 0 |}, w)) ∧
  (∀ records,
     names ≠ [] → Forall2 (λ name data, stored w name = Some data) names records →
     task_list None st w
       = (Returned {| content := join (zip_with project_line names records) nl;
                      details := Counted (length names) |}, w)) ∧
  (names ≠ [] → Forall (λ name, stored w name = None) names →
     task_list None st w
       = (Returned {| content := join ((λ name, name +:+ ": (error reading)") <$> names) nl;
                      details := Counted (length names) |}, w)).
Proof.
  intros HL. split; [reflexivity|].
  set (line := λ p, match stored w p with
                    | None => p +:+ ": (error reading)"
                    | Some data => project_line p data
                    end).
  assert (E : task_list None st w
              = (Returned {| content := or_string (join (line <$> names) nl)
                                                  "No projects found";
                             details := Counted (length names) |}, w)).
  { unfold task_list, bind. cbn [given]. rewrite HL.
    rewrite (mapM_reads _ line); [reflexivity|].
    intros p. rewrite getProject_run. unfold line. destruct (stored w p); reflexivity. }
  assert (Hne : names ≠ [] → or_string (join (line <$> names) nl) "No projects found"
                             = join (line <$> names) nl).
  { intros Hn. rewrite or_string_eq. apply decide_False. intros E0.
    destruct names as [|q qs]; [contradiction|].
    assert (C : In ":"%char (list_ascii_of_string (join (line <$> q :: qs) nl))).
    { cbn [fmap list_fmap]. apply In_chars_join. unfold line.
      destruct (stored w q) as [data|]; [apply project_line_colon|].
      apply In_chars_app. right. cbn. auto. }
    rewrite E0 in C. exact C. }
  split; [|split].
  - intros ->. exact E.
  - intros records Hn HR. rewrite E, (Hne Hn).
    assert (E1 : line <$> names = zip_with project_line names records).
    { clear E Hne Hn HL. induction HR as [|name data names records Hs _ IH];
        [reflexivity|].
      cbn [fmap list_fmap zip_with]. rewrite IH. unfold line at 1. rewrite Hs.
      reflexivity. }
    rewrite E1. reflexivity.
  - intros Hn HA. rewrite E, (Hne Hn).
    assert (E1 : line <$> names = (λ name, name +:+ ": (error reading)") <$> names).
    { clear E Hne Hn HL. induction HA as [|name names Hs _ IH]; [reflexivity|].
      cbn [fmap list_fmap]. rewrite IH. unfold line at 1. rewrite Hs. reflexivity. }
    rewrite E1. reflexivity.
Qed.

(** [task_list_all] on [linked], which has one project, and on
    [damaged_store], whose only file does not parse. *)
Lemma task_list_all_witness :
  listProjects linked = (Returned ["p"], linked) ∧
  Forall2 (λ name data, stored linked name = Some data) ["p"] [linked_record] ∧
  task_list None None linked
  = (Returned {| content := "p [active]: 0/2 completed"; details := Counted 1 |}, linked) ∧
  listProjects damaged_store = (Returned ["p"], damaged_store) ∧
  task_list None None damaged_store
  = (Returned {| content := "p: (error reading)"; details := Counted 1 |}, damaged_store).
Proof.
  assert (H1 : listProjects linked = (Returned ["p"], linked)) by (vm_compute; reflexivity).
  assert (H2 : Forall2 (λ name data, stored linked name = Some data) ["p"] [linked_record]).
  { constructor; [vm_compute; reflexivity | constructor]. }
  assert (H3 : listProjects damaged_store = (Returned ["p"], damaged_store))
    by (vm_compute; reflexivity).
  split; [exact H1|]. split; [exact H2|].
  destruct (task_list_all linked None ["p"] H1) as (_ & _ & A & _).
  split; [exact (A [linked_record] ltac:(discriminate) H2)|].
  split; [exact H3|].
  destruct (task_list_all damaged_store None ["p"] H3) as (_ & _ & _ & B).
  apply B; [discriminate|]. repeat constructor.
Defined.

(** X24.  The summary of the active projects is empty only when there is
    none.  So when [getActiveProjects] finds no project, the hook
    [before_agent_start] returns nothing and logs nothing, and the command
    [tasks active] prints [No active projects]; and when every name that
    [listProjects] returns is stored, [getActiveProjects] returns the
    active ones among the records, in order, and, if there is one, the
    hook returns their summary as the context to prepend and logs their
    number in one line, and the command prints the summary.  Nothing is
    changed. *)
Theorem summary_when_active w names :
  listProjects w = (Returned names, w) →
  (∀ projects, formatActiveTasksSummary projects = "" ↔ projects = []) ∧
  (getActiveProjects w = (Returned [], w) →
     before_agent_start w = (Returned ([], None), w) ∧
     cli_active w = (Returned ["No active projects"], w)) ∧
  (∀ records found,
     Forall2 (λ name data, stored w name = Some data) names records →
     found = filter (λ data, pstatus data = p_active) records →
     getActiveProjects w = (Returned found, w) ∧
     (found ≠ [] →
        before_agent_start w
          = (Returned (["tasks: injecting " +:+ count (length found)
                        +:+ " active project(s) into context"],
                       Some (formatActiveTasksSummary found)), w) ∧
        cli_active w = (Returned [formatActiveTasksSummary found], w))).
Proof.
  intros HL. split; [|split].
  - intros [|p ps]; [split; reflexivity|].
    split; [intros H; destruct (summary_nonempty p ps H) | discriminate].
  - intros HA. unfold before_agent_start, cli_active, bind. rewrite HA.
    split; reflexivity.
  - intros records found HR ->.
    pose proof (getActiveProjects_run w _ HL) as HA.
    assert (E : omap (λ p : option TaskProject,
                        match p with
                        | Some data =>
                            if decide (pstatus data = p_active) then Some data else None
                        | None => None
                        end) (stored w <$> names)
                = filter (λ data, pstatus data = p_active) records).
    { clear HA HL. induction HR as [|name data names records Hs _ IH]; [reflexivity|].
      cbn [fmap list_fmap omap list_omap]. rewrite Hs. cbn [omap list_omap]. rewrite IH.
      destruct (decide (pstatus data = p_active)) as [Ha|Ha].
      - rewrite filter_cons_True by exact Ha. reflexivity.
      - rewrite filter_cons_False by exact Ha. reflexivity. }
    rewrite E in HA. split; [exact HA|]. intros Hne.
    unfold before_agent_start, cli_active, bind. rewrite HA.
    destruct (filter _ records) as [|q qs]; [contradiction|].
    pose proof (summary_nonempty q qs) as Hs.
    cbn [length Nat.eqb]. rewrite (proj2 (nonempty_true _) Hs).
    split; [reflexivity|].
    rewrite or_string_eq, decide_False by exact Hs. reflexivity.
Qed.

(** [summary_when_active] on [linked], whose project is active, and on the
    empty store. *)
Lemma summary_when_active_witness :
  listProjects linked = (Returned ["p"], linked) ∧
  Forall2 (λ name data, stored linked name = Some data) ["p"] [linked_record] ∧
  before_agent_start linked
  = (Returned (["tasks: injecting 1 active project(s) into context"],
               Some (formatActiveTasksSummary [linked_record])), linked) ∧
  cli_active linked = (Returned [formatActiveTasksSummary [linked_record]], linked) ∧
  formatActiveTasksSummary [linked_record] ≠ "" ∧
  listProjects empty_store = (Returned [], empty_store) ∧
  before_agent_start empty_store = (Returned ([], None), empty_store) ∧
  cli_active empty_store = (Returned ["No active projects"], empty_store).
Proof.
  assert (H1 : listProjects linked = (Returned ["p"], linked)) by (vm_compute; reflexivity).
  assert (H2 : Forall2 (λ name data, stored linked name = Some data) ["p"] [linked_record]).
  { constructor; [vm_compute; reflexivity | constructor]. }
  assert (H3 : listProjects empty_store = (Returned [], empty_store))
    by (vm_compute; reflexivity).
  split; [exact H1|]. split; [exact H2|].
  destruct (summary_when_active linked ["p"] H1) as (P & _ & A).
  destruct (A [linked_record] [linked_record] H2 eq_refl) as (_ & B).
  destruct (B ltac:(discriminate)) as [B1 B2].
  split; [exact B1|]. split; [exact B2|].
  split; [intros E; apply P in E; discriminate E|].
  split; [exact H3|].
  destruct (summary_when_active empty_store [] H3) as (_ & C & _).
  apply C. vm_compute. reflexivity.
Defined.

(** X25.  What the summary lets through: [formatActiveTasksSummary] depends
    on the projects only through their names, the ids and subjects of their
    tasks in progress, and the numbers of their pending and of their blocked
    tasks; completed tasks, notes, blockers and the subjects of the tasks
    that wait have no part in it. *)
Theorem summary_shows ps qs :
  shown <$> ps = shown <$> qs →
  formatActiveTasksSummary ps = formatActiveTasksSummary qs.
Proof.
  intros H. unfold formatActiveTasksSummary.
  assert (L : length ps = length qs).
  { rewrite <- (length_fmap shown), H. apply length_fmap. }
  rewrite L. cbv zeta. rewrite !fold_summary.
  assert (E : summary_lines [] <$> ps = summary_lines [] <$> qs).
  { clear L. revert qs H. induction ps as [|p ps IH]; intros [|q qs] H;
      try discriminate H; [reflexivity|].
    cbn [fmap list_fmap] in *.
    assert (H1 : shown p = shown q) by congruence.
    assert (H2 : shown <$> ps = shown <$> qs) by congruence.
    rewrite (summary_lines_shown p q H1), (IH qs H2). reflexivity. }
  rewrite E. reflexivity.
Qed.

(** [summary_shows] on [linked_record] and a project that differs from it in
    all that is not shown. *)
Lemma summary_shows_witness :
  shown <$> [linked_record]
  = shown <$> [ {| project := "p"; pstatus := p_paused;
                   created := "2025-12-31"; updated := "2026-01-05";
                   tasks := [ {| id := "7"; subject := "other"; status := blocked;
                                 blockedBy := ["9"]; blocks := []; notes := "n" |};
                              {| id := "8"; subject := "done"; status := completed;
                                 blockedBy := []; blocks := []; notes := "" |};
                              {| id := "9"; subject := "waits"; status := pending;
                                 blockedBy := []; blocks := ["7"]; notes := "" |} ] |} ] ∧
  formatActiveTasksSummary [linked_record]
  = formatActiveTasksSummary
      [ {| project := "p"; pstatus := p_paused;
           created := "2025-12-31"; updated := "2026-01-05";
           tasks := [ {| id := "7"; subject := "other"; status := blocked;
                         blockedBy := ["9"]; blocks := []; notes := "n" |};
                      {| id := "8"; subject := "done"; status := completed;
                         blockedBy := []; blocks := []; notes := "" |};
                      {| id := "9"; subject := "waits"; status := pending;
                         blockedBy := []; blocks := ["7"]; notes := "" |} ] |} ].
Proof.
  assert (H : shown <$> [linked_record]
              = shown <$> [ {| project := "p"; pstatus := p_paused;
                   created := "2025-12-31"; updated := "2026-01-05";
                   tasks := [ {| id := "7"; subject := "other"; status := blocked;
                                 blockedBy := ["9"]; blocks := []; notes := "n" |};
                              {| id := "8"; subject := "done"; status := completed;
                                 blockedBy := []; blocks := []; notes := "" |};
                              {| id := "9"; subject := "waits"; status := pending;
                                 blockedBy := []; blocks := ["7"]; notes := "" |} ] |} ])
    by (vm_compute; reflexivity).
  split; [exact H|]. exact (summary_shows _ _ H).
Defined.

(** X26.  [addTask] adds one line to the listing: on a stored project, the
    text [formatTaskList] gives for the record stored after [addTask] is the
    text it gave before, a line feed, and the line of the new task, with the
    blank icon of a pending task, its id and its subject. *)
Theorem listing_after_addTask w p data s :
  stored w p = Some data → project data = p →
  ∃ w' data' task,
    addTask p s w = (Returned task, w') ∧
    stored w' p = Some data' ∧
    formatTaskList data'
      = formatTaskList data +:+ nl +:+ "[ ] #" +:+ id task +:+ ": " +:+ s.
Proof.
  intros Hs Hp.
  destruct (addTask_run w p data s Hs Hp) as (d & Hd & Hrun).
  eexists _, _, _. split; [exact Hrun|].
  split; [apply stored_written_same; exact Hp|].
  rewrite !formatTaskList_eq. cbn [tasks project set_updated set_tasks].
  rewrite fmap_app. cbn [fmap list_fmap].
  change (?h :: (task_line <$> tasks data) ++ [?x])
    with ((h :: (task_line <$> tasks data)) ++ [x]).
  rewrite join_snoc by discriminate. reflexivity.
Qed.

(** [listing_after_addTask] on [two_tasks]. *)
Lemma listing_after_addTask_witness :
  stored two_tasks "p" = Some two_tasks_record ∧
  project two_tasks_record = "p" ∧
  ∃ w' data' task,
    addTask "p" "third" two_tasks = (Returned task, w') ∧
    stored w' "p" = Some data' ∧
    formatTaskList data'
      = formatTaskList two_tasks_record +:+ nl +:+ "[ ] #" +:+ id task +:+ ": third".
Proof.
  assert (H1 : stored two_tasks "p" = Some two_tasks_record) by (vm_compute; reflexivity).
  assert (H2 : project two_tasks_record = "p") by reflexivity.
  split; [exact H1|]. split; [exact H2|].
  exact (listing_after_addTask two_tasks "p" two_tasks_record "third" H1 H2).
Defined.

(** X27.  The command [tasks list] and the tool [task_list] with no filter
    read the same.  For a name that is not empty: when [getProject] gives
    nothing for it both give the same text saying so, and when a record is
    stored under it the command prints the text of the record that the
    tool returns.  For all projects, [names] being what [listProjects]
    returns: when there is no name the command prints nothing where the
    tool says that there is none; when every name is stored the command
    prints the lines of the projects, which joined by line feeds are the
    text of the tool; and when [getProject] gives nothing for any of the
    names the command prints nothing.  Nothing is changed. *)
Theorem cli_list_agrees w :
  (∀ name, name ≠ "" → stored w name = None →
     task_list (Some name) None w
       = (Returned {| content := "Project '" +:+ name +:+ "' not found";
                      details := NotFound |}, w) ∧
     cli_list (Some name) w = (Returned ["Project '" +:+ name +:+ "' not found"], w)) ∧
  (∀ name data, name ≠ "" → stored w name = Some data →
     task_list (Some name) None w
       = (Returned {| content := formatTaskList data;
                      details := Listed name (length (tasks data)) |}, w) ∧
     cli_list (Some name) w = (Returned [formatTaskList data], w)) ∧
  cli_list (Some "") w = cli_list None w ∧
  (∀ names, listProjects w = (Returned names, w) →
     (names = [] →
        task_list None None w
          = (Returned {| content := "No projects found"; details := Counted 0 |}, w) ∧
        cli_list None w = (Returned [], w)) ∧
     (∀ records,
        names ≠ [] → Forall2 (λ name data, stored w name = Some data) names records →
        task_list None None w
          = (Returned {| content := join (zip_with project_line names records) nl;
                         details := Counted (length names) |}, w) ∧
        cli_list None w = (Returned (zip_with project_line names records), w)) ∧
     (Forall (λ name, stored w name = None) names →
        cli_list None w = (Returned [], w))).
Proof.
  split; [|split; [|split; [reflexivity|]]].
  - intros name Hn Hs. unfold task_list, cli_list, bind.
    rewrite (given_Some name Hn), getProject_run, Hs. split; reflexivity.
  - intros name data Hn Hs. unfold task_list, cli_list, bind.
    rewrite (given_Some name Hn), getProject_run, Hs. cbn [given].
    rewrite set_tasks_same. split; reflexivity.
  - intros names HL.
    set (line := λ p, match stored w p with
                      | None => p +:+ ": (error reading)"
                      | Some data => project_line p data
                      end).
    set (out := λ p, match stored w p with
                     | None => []
                     | Some data => [project_line p data]
                     end).
    assert (ET : task_list None None w
                 = (Returned {| content := or_string (join (line <$> names) nl)
                                                     "No projects found";
                                details := Counted (length names) |}, w)).
    { unfold task_list, bind. cbn [given]. rewrite HL.
      rewrite (mapM_reads _ line); [reflexivity|].
      intros q. rewrite getProject_run. unfold line. destruct (stored w q); reflexivity. }
    assert (EC : cli_list None w = (Returned (concat (out <$> names)), w)).
    { unfold cli_list, bind. cbn [given]. rewrite HL.
      rewrite (mapM_reads _ out); [reflexivity|].
      intros q. rewrite getProject_run. unfold out. destruct (stored w q); reflexivity. }
    split; [|split].
    + intros ->. split; [exact ET | exact EC].
    + intros records Hn HR.
      assert (E1 : line <$> names = zip_with project_line names records).
      { clear ET EC Hn HL. induction HR as [|name data names records Hs _ IH];
          [reflexivity|].
        cbn [fmap list_fmap zip_with]. rewrite IH. unfold line at 1. rewrite Hs.
        reflexivity. }
      assert (E2 : concat (out <$> names) = zip_with project_line names records).
      { clear ET EC Hn HL E1. induction HR as [|name data names records Hs _ IH];
          [reflexivity|].
        cbn [fmap list_fmap zip_with concat]. rewrite IH. unfold out at 1. rewrite Hs.
        reflexivity. }
      rewrite ET, EC, E2. split; [|reflexivity].
      rewrite or_string_eq, E1, decide_False; [reflexivity|]. intros E0.
      destruct HR as [|name data names records Hs HR]; [contradiction|].
      assert (C : In ":"%char
                    (list_ascii_of_string
                       (join (zip_with project_line (name :: names) (data :: records)) nl))).
      { cbn [zip_with]. apply In_chars_join. apply project_line_colon. }
      rewrite E0 in C. exact C.
    + intros HA. rewrite EC.
      assert (E2 : concat (out <$> names) = []).
      { clear ET EC HL. induction HA as [|name names Hs _ IH]; [reflexivity|].
        cbn [fmap list_fmap concat]. rewrite IH. unfold out at 1. rewrite Hs.
        reflexivity. }
      rewrite E2. reflexivity.
Qed.

(** [cli_list_agrees] on [linked] and on [damaged_store]: where the file of
    the project does not parse the tool says so and the command prints
    nothing. *)
Example cli_list_on_stores :
  cli_list None linked = (Returned ["p [active]: 0/2 completed"], linked) ∧
  cli_list (Some "p") linked = (Returned [formatTaskList linked_record], linked) ∧
  cli_list None damaged_store = (Returned [], damaged_store) ∧
  cli_list (Some "p") damaged_store = (Returned ["Project 'p' not found"], damaged_store).
Proof. repeat split; vm_compute; reflexivity. Qed.

(** X28.  The start of the service reads and reports: it logs one line
    with the number of names [listProjects] gives and the number of active
    projects, which is never the greater, and it changes nothing. *)
Theorem service_start_counts w :
  ∃ names found,
    listProjects w = (Returned names, w) ∧
    getActiveProjects w = (Returned found, w) ∧
    service_start w
      = (Returned ["tasks: initialized (" +:+ count (length names) +:+ " projects, "
                   +:+ count (length found) +:+ " active)"], w) ∧
    (length found ≤ length names)%nat.
Proof.
  pose proof (listProjects_run w) as HL.
  pose proof (getActiveProjects_run w _ HL) as HA.
  eexists _, _. split; [exact HL|]. split; [exact HA|].
  split; [unfold service_start, bind; rewrite HL, HA; reflexivity|].
  rewrite <- (length_fmap (stored w)). apply length_omap_le.
Qed.
